(** * Rewards.py: configuration loading and the Bing search loop

    A shallow embedding of [src/Rewards.py]: the [Config] class
    ([DEFAULT_CONFIG], [load], [save]) and the [BingSearchAutomation]
    class ([update_status], [setup_driver], [perform_search],
    [single_search]).

    Python values are an inductive type; [dict]s are association lists
    in insertion order; the JSON text of the configuration file is its
    document tree.  Numbers are Python [int]s ([Z]); floating point
    numbers are outside the model.  Of the delay that [single_search]
    draws and sleeps, the model keeps the window it is drawn from and
    whether [random.uniform] and [time.sleep] return or raise.  A Python
    [str] is a [string] holding its UTF-8 bytes.

    The browser, the file system and the status callback are an
    environment of oracles; a run is a function from the state of the
    automation object to an outcome, the final state and the trace of
    the calls it made to the outside.  The callback is taken to return;
    all it can do to the run is change [self.running].  The [while]
    loop over the retries is defined by recursion on the passes it has
    left, which go down each time its test holds and a pass goes
    round. *)

From Stdlib Require Import ZArith List String Ascii Bool Lia DecimalString.
From Equations Require Import Equations.
Import ListNotations.
Local Open Scope string_scope.
Local Open Scope Z_scope.

(** ** Exceptions *)

Module Py.

(** The exception classes the program names or can meet, with the part
    of Python's class hierarchy that its [except] clauses test. *)
Inductive exn_class :=
| BaseException
| Exception
| OSError
| FileNotFoundError
| ValueError
| JSONDecodeError
| TypeError
| KeyError
| OverflowError
| WebDriverException
| TimeoutException.

Definition exn_class_eqb (c d : exn_class) : bool :=
  match c, d with
  | BaseException, BaseException | Exception, Exception
  | OSError, OSError | FileNotFoundError, FileNotFoundError
  | ValueError, ValueError | JSONDecodeError, JSONDecodeError
  | TypeError, TypeError | KeyError, KeyError
  | OverflowError, OverflowError
  | WebDriverException, WebDriverException
  | TimeoutException, TimeoutException => true
  | _, _ => false
  end.

(** The base class; for [OverflowError] the next one this hierarchy
    has, [ArithmeticError] being left out. *)
Definition base (c : exn_class) : option exn_class :=
  match c with
  | BaseException => None
  | Exception => Some BaseException
  | OSError | ValueError | TypeError | KeyError | OverflowError
  | WebDriverException =>
      Some Exception
  | FileNotFoundError => Some OSError
  | JSONDecodeError => Some ValueError
  | TimeoutException => Some WebDriverException
  end.

(** [issubclass c d]: the hierarchy is three levels deep under
    [BaseException]. *)
Definition issubclass (c d : exn_class) : bool :=
  exn_class_eqb c d ||
  match base c with
  | None => false
  | Some c1 =>
      exn_class_eqb c1 d ||
      match base c1 with
      | None => false
      | Some c2 =>
          exn_class_eqb c2 d ||
          match base c2 with
          | None => false
          | Some c3 => exn_class_eqb c3 d
          end
      end
  end.

(** A raised exception: its class and [str(e)]. *)
Record exn := mk_exn { exn_cls : exn_class; exn_msg : string }.

Definition isinstance (e : exn) (c : exn_class) : bool :=
  issubclass (exn_cls e) c.

(** The outcome of a Python call. *)
Inductive res (A : Type) :=
| Ok (a : A)
| Raise (e : exn).
Arguments Ok {A} a.
Arguments Raise {A} e.

(** ** Values *)

#[local] Unset Elimination Schemes.
Inductive value :=
| PyNone
| PyBool (b : bool)
| PyInt (z : Z)
| PyStr (s : string)
| PyList (l : list value)
| PyTuple (l : list value)
| PyDict (d : list (string * value))
| PyObject (repr : string).   (* any other object: json cannot encode it *)
#[local] Set Elimination Schemes.

Definition dict := list (string * value).

(** Induction over values, through the lists and dicts they hold. *)
Section ValueInd.

Variable P : value -> Prop.
Hypothesis HNone : P PyNone.
Hypothesis HBool : forall b, P (PyBool b).
Hypothesis HInt : forall z, P (PyInt z).
Hypothesis HStr : forall s, P (PyStr s).
Hypothesis HList : forall l, Forall P l -> P (PyList l).
Hypothesis HTuple : forall l, Forall P l -> P (PyTuple l).
Hypothesis HDict : forall d, Forall (fun kv => P (snd kv)) d -> P (PyDict d).
Hypothesis HObject : forall r, P (PyObject r).

Fixpoint value_ind (v : value) : P v :=
  match v with
  | PyNone => HNone
  | PyBool b => HBool b
  | PyInt z => HInt z
  | PyStr s => HStr s
  | PyList l =>
      HList l ((fix all (l : list value) : Forall P l :=
                  match l with
                  | [] => Forall_nil P
                  | x :: r => Forall_cons x (value_ind x) (all r)
                  end) l)
  | PyTuple l =>
      HTuple l ((fix all (l : list value) : Forall P l :=
                   match l with
                   | [] => Forall_nil P
                   | x :: r => Forall_cons x (value_ind x) (all r)
                   end) l)
  | PyDict d =>
      HDict d ((fix all (d : list (string * value))
                  : Forall (fun kv => P (snd kv)) d :=
                  match d with
                  | [] => Forall_nil _
                  | kv :: r => Forall_cons kv (value_ind (snd kv)) (all r)
                  end) d)
  | PyObject r => HObject r
  end.

End ValueInd.

(** [d[k]] as an option, [None] where Python raises [KeyError]. *)
Fixpoint dict_get {V : Type} (d : list (string * V)) (k : string) : option V :=
  match d with
  | [] => None
  | (k', v) :: d' => if String.eqb k' k then Some v else dict_get d' k
  end.

(** [d[k] = v]: a key already present keeps its place. *)
Fixpoint dict_set {V : Type} (d : list (string * V)) (k : string) (v : V)
  : list (string * V) :=
  match d with
  | [] => [(k, v)]
  | (k', v') :: d' =>
      if String.eqb k' k then (k', v) :: d' else (k', v') :: dict_set d' k v
  end.

(** [{**a, **b}]: the items of [a], then each item of [b] stored in order. *)
Definition dict_merge {V : Type} (a b : list (string * V)) : list (string * V) :=
  fold_left (fun acc kv => dict_set acc (fst kv) (snd kv)) b a.

Definition keys {V : Type} (d : list (string * V)) : list string := map fst d.

(** What the last of the pairs named [k] in a list of pairs holds:
    the member that counts when an object of a JSON text names a key
    more than once. *)
Fixpoint last_binding {V : Type} (l : list (string * V)) (k : string) : option V :=
  match l with
  | [] => None
  | (k', v) :: rest =>
      match last_binding rest k with
      | Some v' => Some v'
      | None => if String.eqb k' k then Some v else None
      end
  end.

(** [bool(v)]. *)
Definition truthy (v : value) : bool :=
  match v with
  | PyNone => false
  | PyBool b => b
  | PyInt z => negb (z =? 0)
  | PyStr s => negb (String.eqb s "")
  | PyList l | PyTuple l => match l with [] => false | _ => true end
  | PyDict d => match d with [] => false | _ => true end
  | PyObject _ => true
  end.

(** The integer an [int] or a [bool] stands for in arithmetic and
    comparisons. *)
Definition as_int (v : value) : option Z :=
  match v with
  | PyInt z => Some z
  | PyBool b => Some (if b then 1 else 0)
  | _ => None
  end.

Definition type_name (v : value) : string :=
  match v with
  | PyNone => "NoneType"
  | PyBool _ => "bool"
  | PyInt _ => "int"
  | PyStr _ => "str"
  | PyList _ => "list"
  | PyTuple _ => "tuple"
  | PyDict _ => "dict"
  | PyObject r => r
  end.

(** [str(z)] for an [int]. *)
Definition str_int (z : Z) : string := NilZero.string_of_int (Z.to_int z).

Definition str_nat (n : nat) : string := str_int (Z.of_nat n).

(** Error monad for code that only computes or raises. *)
Definition bind_res {A B : Type} (c : res A) (k : A -> res B) : res B :=
  match c with
  | Ok a => k a
  | Raise e => Raise e
  end.

End Py.

Import Py.

Notation "x <-? c ;; k" := (bind_res c (fun x => k))
  (at level 100, c at next level, right associativity).

(** ** The json module *)

Module Json.

(** A JSON document.  Members of an object are in text order and may
    repeat a name. *)
#[local] Unset Elimination Schemes.
Inductive doc :=
| JNull
| JBool (b : bool)
| JNum (z : Z)
| JStr (s : string)
| JArr (items : list doc)
| JObj (members : list (string * doc)).
#[local] Set Elimination Schemes.

Definition all_some {A : Type} (l : list (option A)) : option (list A) :=
  fold_right (fun o acc =>
                match o, acc with
                | Some a, Some r => Some (a :: r)
                | _, _ => None
                end) (Some []) l.

(** What [json.dump] writes for a value, [None] where it raises
    [TypeError: Object of type ... is not JSON serializable].  Lists and
    tuples both become arrays. *)
Fixpoint encode (v : value) : option doc :=
  match v with
  | PyNone => Some JNull
  | PyBool b => Some (JBool b)
  | PyInt z => Some (JNum z)
  | PyStr s => Some (JStr s)
  | PyList l | PyTuple l => option_map JArr (all_some (map encode l))
  | PyDict d =>
      option_map JObj
        (all_some (map (fun kv => option_map (pair (fst kv)) (encode (snd kv))) d))
  | PyObject _ => None
  end.

(** What [json.load] builds from a document: arrays become lists, an
    object becomes a dict in which a repeated name keeps its last value. *)
Fixpoint decode (j : doc) : value :=
  match j with
  | JNull => PyNone
  | JBool b => PyBool b
  | JNum z => PyInt z
  | JStr s => PyStr s
  | JArr l => PyList (map decode l)
  | JObj m => PyDict (dict_merge [] (map (fun kv => (fst kv, decode (snd kv))) m))
  end.

(** The dict [json.load] builds from the members of an object. *)
Definition object_of (members : list (string * doc)) : dict :=
  dict_merge [] (map (fun kv => (fst kv, decode (snd kv))) members).

(** A value with every tuple in it replaced by the list of the same
    items: what is left of it after [json.dump] and [json.load]. *)
Fixpoint listify (v : value) : value :=
  match v with
  | PyList l | PyTuple l => PyList (map listify l)
  | PyDict d => PyDict (map (fun kv => (fst kv, listify (snd kv))) d)
  | _ => v
  end.

Fixpoint distinct (l : list string) : bool :=
  match l with
  | [] => true
  | k :: r => negb (existsb (String.eqb k) r) && distinct r
  end.

(** The association lists in a value are Python dicts: no key twice. *)
Fixpoint proper (v : value) : bool :=
  match v with
  | PyList l | PyTuple l => forallb proper l
  | PyDict d => distinct (keys d) && forallb (fun kv => proper (snd kv)) d
  | _ => true
  end.

(** No tuple anywhere in the value. *)
Fixpoint tuple_free (v : value) : bool :=
  match v with
  | PyList l => forallb tuple_free l
  | PyTuple _ => false
  | PyDict d => forallb (fun kv => tuple_free (snd kv)) d
  | _ => true
  end.

End Json.

(** ** The configuration file *)

(** What the file's text is to [json.load]. *)
Inductive text :=
| Document (j : Json.doc)
| Malformed (err : string).    (* not JSON, or not decodable: a ValueError *)

(** What is at [Config.get_config_path()]. *)
Inductive file :=
| Missing
| Unreadable (err : string)    (* open(..., 'r') raises another OSError *)
| Holds (t : text).

Record disk := mk_disk {
  config_json : file;
  write_error : option string   (* open(..., 'w') raises OSError *)
}.

Module Config.

Definition DEFAULT_CONFIG : dict :=
  [ ("search_delay", PyTuple [PyInt 3; PyInt 7]);
    ("page_load_timeout", PyInt 30);
    ("max_retries", PyInt 3);
    ("save_log", PyBool true);
    ("headless_mode", PyBool false) ].

Definition open_read (f : file) : res text :=
  match f with
  | Missing => Raise (mk_exn FileNotFoundError "No such file or directory")
  | Unreadable err => Raise (mk_exn OSError err)
  | Holds t => Ok t
  end.

Definition json_load (t : text) : res value :=
  match t with
  | Document j => Ok (Json.decode j)
  | Malformed err => Raise (mk_exn JSONDecodeError err)
  end.

(** [**v] inside a dict display. *)
Definition unpack_mapping (v : value) : res dict :=
  match v with
  | PyDict d => Ok d
  | _ => Raise (mk_exn TypeError
                  ("'" ++ type_name v ++ "' object is not a mapping"))
  end.

(** The body of the [try] in [load]. *)
Definition load_try (defaults : dict) (fs : disk) : res dict :=
  t <-? open_read (config_json fs) ;;
  v <-? json_load t ;;
  o <-? unpack_mapping v ;;
  Ok (dict_merge defaults o).

(** [Config.load()], given the current value of the class attribute
    [DEFAULT_CONFIG]: the result and the lines sent to [logging.error]. *)
Definition load_from (defaults : dict) (fs : disk) : res dict * list string :=
  match load_try defaults fs with
  | Ok d => (Ok d, [])
  | Raise e =>
      if isinstance e FileNotFoundError then (Ok defaults, [])
      else if isinstance e Exception then
        (Ok defaults, ["Error cargando configuración: " ++ exn_msg e])
      else (Raise e, [])
  end.

Definition load (fs : disk) : res dict * list string :=
  load_from DEFAULT_CONFIG fs.

(** The body of the [try] in [save]: [open(..., 'w')] empties the file
    before [json.dump] runs, so a value that cannot be encoded leaves a
    truncated text behind. *)
Definition save_try (config : value) (fs : disk) : res unit * disk :=
  match write_error fs with
  | Some err => (Raise (mk_exn OSError err), fs)
  | None =>
      match Json.encode config with
      | Some j => (Ok tt, mk_disk (Holds (Document j)) None)
      | None =>
          (Raise (mk_exn TypeError
                    ("Object of type " ++ type_name config
                     ++ " is not JSON serializable")),
           mk_disk (Holds (Malformed "Expecting value")) None)
      end
  end.

(** [Config.save(config)]. *)
Definition save (config : value) (fs : disk) : res unit * disk * list string :=
  match save_try config fs with
  | (Ok u, fs') => (Ok u, fs', [])
  | (Raise e, fs') =>
      if isinstance e Exception then
        (Ok tt, fs', ["Error guardando configuración: " ++ exn_msg e])
      else (Raise e, fs', [])
  end.

(** [Config.save(config)] followed by [Config.load()]. *)
Definition save_then_load (config : value) (fs : disk) : res dict * list string :=
  match save config fs with
  | (_, fs', _) => load fs'
  end.

End Config.

(** ** Strings: [str.strip] and reading a text file by lines *)

Module Str.

Definition LF : ascii := "010"%char.
Definition CR : ascii := "013"%char.

Definition byte (c : ascii) : N := N_of_ascii c.

(** [str.isspace] on an ASCII character: tab to carriage return, the
    four separators 0x1C-0x1F, and the space. *)
Definition ascii_space (c : ascii) : bool :=
  let n := byte c in
  ((9 <=? n) && (n <=? 13) || (28 <=? n) && (n <=? 32))%N.

(** [s.lstrip()].  The whitespace of [str.isspace] outside ASCII is
    recognised by its UTF-8 bytes: U+0085, U+00A0, U+1680,
    U+2000-U+200A, U+2028, U+2029, U+202F, U+205F, U+3000. *)
Fixpoint lstrip (s : string) : string :=
  match s with
  | EmptyString => EmptyString
  | String c r =>
      if ascii_space c then lstrip r
      else
        match r with
        | String c2 r2 =>
            if ((byte c =? 194) && ((byte c2 =? 133) || (byte c2 =? 160)))%N
            then lstrip r2
            else
              match r2 with
              | String c3 r3 =>
                  let b1 := byte c in
                  let b2 := byte c2 in
                  let b3 := byte c3 in
                  if ((b1 =? 225) && (b2 =? 154) && (b3 =? 128)
                      || (b1 =? 226) && (b2 =? 128)
                         && ((128 <=? b3) && (b3 <=? 138)
                             || (b3 =? 168) || (b3 =? 169) || (b3 =? 175))
                      || (b1 =? 226) && (b2 =? 129) && (b3 =? 159)
                      || (b1 =? 227) && (b2 =? 128) && (b3 =? 128))%N
                  then lstrip r3
                  else s
              | EmptyString => s
              end
        | EmptyString => s
        end
  end.

Definition is_empty (s : string) : bool :=
  match s with
  | EmptyString => true
  | String _ _ => false
  end.

(** [s.rstrip()]: a suffix made of whitespace only is dropped. *)
Fixpoint rstrip (s : string) : string :=
  match s with
  | EmptyString => EmptyString
  | String c r => if is_empty (lstrip s) then EmptyString else String c (rstrip r)
  end.

Definition strip (s : string) : string := rstrip (lstrip s).

(** The lines a text-mode file yields when iterated, each with its
    terminator; universal newlines turn "\r\n" and "\r" into "\n".
    [cur] holds the line being read. *)
Fixpoint readlines (cur : string) (s : string) : list string :=
  match s with
  | EmptyString => if is_empty cur then [] else [cur]
  | String c r =>
      if Ascii.eqb c LF then (cur ++ String LF EmptyString) :: readlines EmptyString r
      else if Ascii.eqb c CR then
        match r with
        | String c2 r2 =>
            if Ascii.eqb c2 LF
            then (cur ++ String LF EmptyString) :: readlines EmptyString r2
            else (cur ++ String LF EmptyString) :: readlines EmptyString r
        | EmptyString => [cur ++ String LF EmptyString]
        end
      else readlines (cur ++ String c EmptyString) r
  end.

(** A continuation byte of UTF-8. *)
Definition continuation (c : ascii) : bool :=
  ((128 <=? byte c) && (byte c <? 192))%N.

(** [list(s)]: the characters of [s], each with the bytes that
    follow its first one. *)
Fixpoint chars (s : string) : list string :=
  match s with
  | EmptyString => []
  | String c r =>
      let rest := chars r in
      match r, rest with
      | String c2 _, g :: gs =>
          if continuation c2 then String c g :: gs
          else String c EmptyString :: rest
      | _, _ => String c EmptyString :: rest
      end
  end.

(** [[line.strip() for line in f if line.strip()]]. *)
Definition stripped_lines (lines : list string) : list string :=
  map strip (filter (fun line => negb (is_empty (strip line))) lines).

End Str.

(** ** Formatting values in f-strings *)

Module Fmt.

Fixpoint join (sep : string) (l : list string) : string :=
  match l with
  | [] => ""
  | [x] => x
  | x :: r => x ++ sep ++ join sep r
  end.

(** [repr(v)].  A string is shown between single quotes, which is what
    Python prints when it holds no quote, backslash or control
    character. *)
Fixpoint repr (v : value) : string :=
  match v with
  | PyNone => "None"
  | PyBool b => if b then "True" else "False"
  | PyInt z => str_int z
  | PyStr s => "'" ++ s ++ "'"
  | PyList l => "[" ++ join ", " (map repr l) ++ "]"
  | PyTuple l =>
      match l with
      | [x] => "(" ++ repr x ++ ",)"
      | _ => "(" ++ join ", " (map repr l) ++ ")"
      end
  | PyDict d =>
      "{" ++ join ", " (map (fun kv => "'" ++ fst kv ++ "': " ++ repr (snd kv)) d) ++ "}"
  | PyObject r => r
  end.

(** [str(v)], the rendering of [{v}] in an f-string. *)
Definition str (v : value) : string :=
  match v with
  | PyStr s => s
  | _ => repr v
  end.

End Fmt.

(** ** The outside world of a run *)

(** What a run does to the outside, in order. *)
Inductive event :=
| Status (message : string)                       (* update_status *)
| LogError (message : string)                     (* logging.error *)
| ReadFile (path : string)                        (* open(search_file) *)
| SessionOpened (driver_path : string) (headless : bool)
                                                  (* webdriver.Edge returned *)
| PageLoadTimeoutSet (v : value)                  (* set_page_load_timeout returned *)
| SearchAttempt (search_term : string) (current total : nat)
                                                  (* single_search called *)
| Sleep (lo hi : Z)                               (* time.sleep(uniform(lo, hi))
                                                     returned *)
| Quit.                                           (* driver.quit called *)

(** What [time.sleep] does with a delay: it sleeps, or it raises
    [ValueError] for a negative delay, [OverflowError] for one too large
    to convert, [OSError] for one the system refuses. *)
Inductive sleeping :=
| Sleeps
| NegativeDelay
| DelayTooLarge (message : string)
| SleepRefused (message : string).

(** The environment of a [BingSearchAutomation] object: its
    configuration and the behaviour of everything it calls. *)
Record env := mk_env {
  config : dict;                          (* self.config *)
  isfile : string -> bool;                (* os.path.isfile *)
  read_text : string -> res string;       (* opening and reading a file as UTF-8 *)
  edge : string -> bool -> res unit;      (* Service(path); webdriver.Edge(...) *)
  set_page_load_timeout : value -> res unit;
  browse : nat -> string -> res unit;     (* the browser's part of the n-th
                                             single_search: get, wait, clear,
                                             send_keys *)
  quit : res unit;                        (* driver.quit() *)
  status_callback : nat -> string -> bool -> bool;
    (* what the callback leaves in self.running when handed the n-th
       report: the GUI's callback runs the event loop, where Cancel
       clears the flag *)
  sleep : nat -> Z -> Z -> sleeping
    (* time.sleep(delay) in the n-th single_search, for the delay drawn
       from a window that does not settle what time.sleep does *)
}.

(** The state a run reads and writes: the object's flag, the two locals
    of [perform_search] that its [finally] block reads, and how many
    reports and searches were made so far. *)
Record state := mk_state {
  running : bool;                (* self.running *)
  driver : bool;                 (* the local [driver] holds a session *)
  completed_searches : Z;
  reports : nat;
  attempts : nat
}.

(** ** A monad for state, trace and exceptions *)

Definition M (A : Type) : Type := state -> res A * state * list event.

Definition ret {A : Type} (a : A) : M A := fun s => (Ok a, s, []).

Definition raise {A : Type} (e : exn) : M A := fun s => (Raise e, s, []).

Definition bind {A B : Type} (c : M A) (k : A -> M B) : M B :=
  fun s =>
    match c s with
    | (Ok a, s1, t1) =>
        match k a s1 with
        | (r, s2, t2) => (r, s2, (t1 ++ t2)%list)
        end
    | (Raise e, s1, t1) => (Raise e, s1, t1)
    end.

Notation "x <- c ;; k" := (bind c (fun x => k))
  (at level 100, c at next level, right associativity).
Notation "c ;;; k" := (bind c (fun _ => k))
  (at level 100, right associativity).

Definition lift {A : Type} (r : res A) : M A := fun s => (r, s, []).

Definition emit (ev : event) : M unit := fun s => (Ok tt, s, [ev]).

Definition get {A : Type} (f : state -> A) : M A := fun s => (Ok (f s), s, []).

Definition modify (f : state -> state) : M unit := fun s => (Ok tt, f s, []).

(** [try: body except C1 ...: h1 except C2 ...: h2]: the first clause
    whose class the exception is an instance of handles it. *)
Fixpoint handle {A : Type} (clauses : list (exn_class * (exn -> M A))) (e : exn)
  : M A :=
  match clauses with
  | [] => raise e
  | (c, h) :: rest => if isinstance e c then h e else handle rest e
  end.

Definition try_except {A : Type} (body : M A)
           (clauses : list (exn_class * (exn -> M A))) : M A :=
  fun s =>
    match body s with
    | (Ok a, s1, t1) => (Ok a, s1, t1)
    | (Raise e, s1, t1) =>
        match handle clauses e s1 with
        | (r, s2, t2) => (r, s2, (t1 ++ t2)%list)
        end
    end.

(** [try: body finally: fin]: [fin] always runs; the outcome of [body]
    stands unless [fin] raises. *)
Definition try_finally {A : Type} (body : M A) (fin : M unit) : M A :=
  fun s =>
    match body s with
    | (r, s1, t1) =>
        match fin s1 with
        | (Ok _, s2, t2) => (r, s2, (t1 ++ t2)%list)
        | (Raise e, s2, t2) => (Raise e, s2, (t1 ++ t2)%list)
        end
    end.

Definition set_running (b : bool) (s : state) : state :=
  mk_state b (driver s) (completed_searches s) (reports s) (attempts s).
Definition set_driver (b : bool) (s : state) : state :=
  mk_state (running s) b (completed_searches s) (reports s) (attempts s).
Definition set_completed (z : Z) (s : state) : state :=
  mk_state (running s) (driver s) z (reports s) (attempts s).
Definition count_report (s : state) : state :=
  mk_state (running s) (driver s) (completed_searches s) (S (reports s)) (attempts s).
Definition count_attempt (s : state) : state :=
  mk_state (running s) (driver s) (completed_searches s) (reports s) (S (attempts s)).

(** ** BingSearchAutomation *)

Module BingSearchAutomation.

(** The messages the run reports and logs. *)
Definition searching_message (current total : nat) (search_term : string) : string :=
  "Buscando (" ++ str_nat current ++ "/" ++ str_nat total ++ "): " ++ search_term.

Definition timeout_message (search_term : string) (retries : Z) (max_retries : value)
  : string :=
  "Timeout en '" ++ search_term ++ "'. Reintento " ++ str_int retries
  ++ "/" ++ Fmt.str max_retries.

Definition failed_message (search_term : string) (retries : Z) : string :=
  "Fallo al completar búsqueda para '" ++ search_term ++ "' después de "
  ++ str_int retries ++ " reintentos".

Definition webdriver_message (e : exn) : string :=
  "Error de WebDriver: " ++ exn_msg e.

Definition cancelled_message : string := "Proceso cancelado por el usuario".

Definition completed_message (completed : Z) (total : nat) : string :=
  "Completadas " ++ str_int completed ++ "/" ++ str_nat total ++ " búsquedas".

Definition not_found : exn :=
  mk_exn FileNotFoundError "Archivo de búsquedas o WebDriver no encontrado".

Definition empty_file : exn :=
  mk_exn ValueError "El archivo de búsquedas está vacío".

(** What [with inspect] matches on: a value and the equation that
    names it. *)
Definition inspect {A : Type} (a : A) : {b : A | a = b} := exist _ a eq_refl.

Section Run.

Variable E : env.

(** [self.config[key]]. *)
Definition config_get (key : string) : M value :=
  match dict_get (config E) key with
  | Some v => ret v
  | None => raise (mk_exn KeyError ("'" ++ key ++ "'"))
  end.

(** [retries < v] for the [int] [retries]. *)
Definition int_lt (retries : Z) (v : value) : res bool :=
  match as_int v with
  | Some m => Ok (retries <? m)
  | None =>
      Raise (mk_exn TypeError
               ("'<' not supported between instances of 'int' and '"
                ++ type_name v ++ "'"))
  end.

(** [retries == v] for the [int] [retries]. *)
Definition int_eq (retries : Z) (v : value) : bool :=
  match as_int v with
  | Some m => retries =? m
  | None => false
  end.

(** [update_status(message)]: the message is logged and handed to the
    callback, which may change [self.running]. *)
Definition update_status (message : string) : M unit :=
  emit (Status message) ;;;
  n <- get reports ;;
  modify (fun s => count_report
                     (set_running (status_callback E n message (running s)) s)).

Definition log_error (message : string) : M unit := emit (LogError message).

(** [setup_driver(driver_path)]: the options are built before the [try];
    inside it the session is created and then given its page-load
    timeout. *)
Definition setup_driver (driver_path : string) : M unit :=
  h <- config_get "headless_mode" ;;
  try_except
    (lift (edge E driver_path (truthy h)) ;;;
     emit (SessionOpened driver_path (truthy h)) ;;;
     t <- config_get "page_load_timeout" ;;
     lift (set_page_load_timeout E t) ;;;
     emit (PageLoadTimeoutSet t))
    [ (Exception,
       fun e => raise (mk_exn Exception
                         ("Error al configurar WebDriver: " ++ exn_msg e))) ].

(** [*v] in the call of [random.uniform]: the items of a list or a
    tuple, the characters of a string, the keys of a dict. *)
Definition unpack (v : value) : res (list value) :=
  match v with
  | PyList l | PyTuple l => Ok l
  | PyStr s => Ok (map PyStr (Str.chars s))
  | PyDict d => Ok (map PyStr (keys d))
  | _ =>
      Raise (mk_exn TypeError
               ("random.Random.uniform() argument after * must be an iterable, not "
                ++ type_name v))
  end.

(** The ints [float] can hold: those that round to at most its
    largest finite value. *)
Definition float_fits (z : Z) : bool := Z.abs z <? 2 ^ 1024 - 2 ^ 970.

(** [random.uniform( *v )], that is [a + (b - a) * self.random()], up
    to the draw: [v] must unpack into exactly two numbers, and [b - a]
    and [a] must be ints that [float] can hold.  The result is the
    window the delay is drawn from. *)
Definition uniform_args (v : value) : res (Z * Z) :=
  args <-? unpack v ;;
  match args with
  | [] =>
      Raise (mk_exn TypeError
               "Random.uniform() missing 2 required positional arguments: 'a' and 'b'")
  | [_] =>
      Raise (mk_exn TypeError
               "Random.uniform() missing 1 required positional argument: 'b'")
  | [a; b] =>
      match as_int a, as_int b with
      | Some lo, Some hi =>
          if float_fits (hi - lo) && float_fits lo then Ok (lo, hi)
          else Raise (mk_exn OverflowError "int too large to convert to float")
      | _, _ =>
          Raise (mk_exn TypeError
                   ("unsupported operand type(s) for -: '" ++ type_name b
                    ++ "' and '" ++ type_name a ++ "'"))
      end
  | _ =>
      Raise (mk_exn TypeError
               ("Random.uniform() takes 3 positional arguments but "
                ++ str_nat (S (List.length args)) ++ " were given"))
  end.

(** The longest delay, in seconds, that [time.sleep] accepts on every
    platform: 2^32 - 1 milliseconds. *)
Definition max_sleep : Z := 4294967.

Definition negative_delay : exn :=
  mk_exn ValueError "sleep length must be non-negative".

(** [time.sleep(delay)] in the [n]-th search, for a delay drawn between
    [lo] and [hi].  It returns when every delay of the window is one it
    accepts, and raises [ValueError] when every delay of the window is
    negative and in range; for any other window the environment says
    what happens to the delay drawn. *)
Definition time_sleep (n : nat) (lo hi : Z) : res unit :=
  if (0 <=? lo) && (lo <=? max_sleep) && (0 <=? hi) && (hi <=? max_sleep)
  then Ok tt
  else if (- max_sleep <=? lo) && (lo <? 0) && (- max_sleep <=? hi) && (hi <? 0)
  then Raise negative_delay
  else
    match sleep E n lo hi with
    | Sleeps => Ok tt
    | NegativeDelay => Raise negative_delay
    | DelayTooLarge message => Raise (mk_exn OverflowError message)
    | SleepRefused message => Raise (mk_exn OSError message)
    end.

(** [single_search(driver, search_term, current, total)].  The calls on
    the driver are one answer of the environment.  The delay is drawn
    before the report and slept after it. *)
Definition single_search (search_term : string) (current total : nat) : M unit :=
  n <- get attempts ;;
  modify count_attempt ;;;
  emit (SearchAttempt search_term current total) ;;;
  lift (browse E n search_term) ;;;
  d <- config_get "search_delay" ;;
  w <- lift (uniform_args d) ;;
  update_status (searching_message current total search_term) ;;;
  lift (time_sleep n (fst w) (snd w)) ;;;
  emit (Sleep (fst w) (snd w)).

(** One pass through the body of the [while] loop: [None] when it ends
    in [break], the new value of [retries] when the loop goes round. *)
Definition attempt (search_term : string) (i total : nat) (retries : Z)
  : M (option Z) :=
  try_except
    (single_search search_term i total ;;;
     modify (fun s => set_completed (completed_searches s + 1) s) ;;;
     ret None)
    [ (TimeoutException,
       fun _ =>
         let retries := retries + 1 in
         m <- config_get "max_retries" ;;
         update_status (timeout_message search_term retries m) ;;;
         m' <- config_get "max_retries" ;;
         (if int_eq retries m'
          then log_error (failed_message search_term retries)
          else ret tt) ;;;
         ret (Some retries));
      (WebDriverException,
       fun e => log_error (webdriver_message e) ;;; raise e) ].

(** The test of the [while] loop:
    [retries < self.config['max_retries'] and self.running]. *)
Definition loop_test (retries : Z) : M bool :=
  m <- config_get "max_retries" ;;
  c <- lift (int_lt retries m) ;;
  if c then get running else ret false.

(** The passes a [while] loop with counter [retries] has left: what
    goes down each time the loop goes round. *)
Definition passes_left (retries : Z) : nat :=
  match dict_get (config E) "max_retries" with
  | Some v => match as_int v with Some m => Z.to_nat (m - retries) | None => O end
  | None => O
  end.

(** [while retries < self.config['max_retries'] and self.running: ...].
    The loop goes round only after its test held and a pass counted
    [retries] up, so it ends because [max_retries - retries] goes
    down. *)
Equations retry_loop (search_term : string) (i total : nat) (retries : Z)
          (s : state) : res unit * state * list event
  by wf (passes_left retries) lt :=
  retry_loop search_term i total retries s
    with inspect (loop_test retries s) := {
    | exist _ (Raise e, s1, t1) _ => (Raise e, s1, t1)
    | exist _ (Ok false, s1, t1) _ => (Ok tt, s1, t1)
    | exist _ (Ok true, s1, t1) Htest
        with inspect (attempt search_term i total retries s1) := {
        | exist _ (Raise e, s2, t2) _ => (Raise e, s2, (t1 ++ t2)%list)
        | exist _ (Ok None, s2, t2) _ => (Ok tt, s2, (t1 ++ t2)%list)
        | exist _ (Ok (Some retries'), s2, t2) Hpass =>
            match retry_loop search_term i total retries' s2 with
            | (r, s3, t3) => (r, s3, (t1 ++ t2 ++ t3)%list)
            end } }.
Next Obligation.
  unfold loop_test, config_get, passes_left, bind, ret, raise, lift, get in Htest |- *.
  destruct (dict_get (config E) "max_retries") as [m|]; [|discriminate].
  unfold int_lt in Htest.
  destruct (as_int m) as [R|]; [|discriminate].
  destruct (retries <? R) eqn:Hlt; [|discriminate].
  apply Z.ltb_lt in Hlt.
  assert (Hnext : retries' = retries + 1).
  { clear - Hpass. unfold attempt, try_except in Hpass.
    destruct ((single_search search_term i total ;;;
               modify (fun s => set_completed (completed_searches s + 1) s) ;;;
               ret None) s1) as [[[next|e] s'] t'] eqn:Hbody.
    - unfold bind in Hbody.
      destruct (single_search search_term i total s1) as [[[[]|e] s0] t0];
        simpl in Hbody; congruence.
    - cbn [handle] in Hpass.
      destruct (isinstance e TimeoutException).
      + unfold bind, config_get in Hpass.
        destruct (dict_get (config E) "max_retries") as [m'|];
          [|discriminate].
        simpl in Hpass.
        destruct (int_eq (retries + 1) m'); simpl in Hpass; congruence.
      + destruct (isinstance e WebDriverException); simpl in Hpass;
          discriminate. }
  subst retries'. lia.
Qed.

(** The loop cut off after [fuel] passes: what proofs by induction on
    the number of passes go through. *)
Fixpoint retry_passes (fuel : nat) (search_term : string) (i total : nat)
         (retries : Z) : M unit :=
  c <- loop_test retries ;;
  if c then
    match fuel with
    | O => ret tt
    | S fuel' =>
        next <- attempt search_term i total retries ;;
        match next with
        | None => ret tt
        | Some retries' => retry_passes fuel' search_term i total retries'
        end
    end
  else ret tt.

(** The passes a loop starting at [retries = 0] can make. *)
Definition passes : nat := passes_left 0.

(** [for i, search_term in enumerate(searches, 1): ...], from index [i]. *)
Fixpoint for_terms (i total : nat) (searches : list string) : M unit :=
  match searches with
  | [] => ret tt
  | search_term :: rest =>
      r <- get running ;;
      if negb r then update_status cancelled_message
      else
        retry_loop search_term i total 0 ;;;
        for_terms (S i) total rest
  end.

(** The [finally] block of [perform_search]. *)
Definition cleanup (total : nat) : M unit :=
  d <- get driver ;;
  (if d then
     try_except (emit Quit ;;; lift (quit E)) [ (BaseException, fun _ => ret tt) ]
   else ret tt) ;;;
  c <- get completed_searches ;;
  update_status (completed_message c total).

(** Opening the search file and collecting its terms. *)
Definition read_searches (search_file : string) : M (list string) :=
  try_except
    (emit (ReadFile search_file) ;;;
     text <- lift (read_text E search_file) ;;
     ret (Str.stripped_lines (Str.readlines "" text)))
    [ (Exception,
       fun e => raise (mk_exn Exception
                         ("Error leyendo archivo de búsquedas: " ++ exn_msg e))) ].

(** [perform_search(search_file, driver_path)]. *)
Definition perform_search (search_file driver_path : string) : M unit :=
  if negb (forallb (fun b => b) (map (isfile E) [search_file; driver_path]))
  then raise not_found
  else
    searches <- read_searches search_file ;;
    match searches with
    | [] => raise empty_file
    | _ :: _ =>
        modify (set_driver false) ;;;
        modify (set_completed 0) ;;;
        try_finally
          (setup_driver driver_path ;;;
           modify (set_driver true) ;;;
           for_terms 1 (List.length searches) searches)
          (cleanup (List.length searches))
    end.

End Run.

(** The terms [perform_search] reads from the search file, when it can
    be read. *)
Definition terms_of (E : env) (search_file : string) : option (list string) :=
  match read_text E search_file with
  | Ok text => Some (Str.stripped_lines (Str.readlines "" text))
  | Raise _ => None
  end.

(** [setup_driver] returns: the options can be built, the browser
    starts and accepts the configured page-load timeout. *)
Definition session_opens (E : env) (driver_path : string) : bool :=
  match dict_get (config E) "headless_mode",
        dict_get (config E) "page_load_timeout" with
  | Some h, Some t =>
      match edge E driver_path (truthy h), set_page_load_timeout E t with
      | Ok _, Ok _ => true
      | _, _ => false
      end
  | _, _ => false
  end.

End BingSearchAutomation.

(** ** Reading runs and traces *)

Definition outcome {A : Type} (x : res A * state * list event) : res A := fst (fst x).
Definition final {A : Type} (x : res A * state * list event) : state := snd (fst x).
Definition trace {A : Type} (x : res A * state * list event) : list event := snd x.

(** A run with more events in front of its trace. *)
Definition after {A : Type} (t : list event) (x : res A * state * list event)
  : res A * state * list event :=
  (outcome x, final x, (t ++ trace x)%list).

Definition is_attempt (ev : event) : bool :=
  match ev with
  | SearchAttempt _ _ _ => true
  | _ => false
  end.

(** The calls of [single_search] for the term at index [i]. *)
Definition is_attempt_at (i : nat) (ev : event) : bool :=
  match ev with
  | SearchAttempt _ current _ => Nat.eqb current i
  | _ => false
  end.

Definition attempts_at (i : nat) (t : list event) : nat :=
  List.length (filter (is_attempt_at i) t).

Definition last_event (t : list event) : option event :=
  match rev t with
  | [] => None
  | ev :: _ => Some ev
  end.


(** The state after [n] more searches that each made one report and
    left the flag alone. *)
Definition advance (n : nat) (s : state) : state :=
  mk_state (running s) (driver s) (completed_searches s)
           (n + reports s) (n + attempts s).

(** The events of one timed-out pass for a term, when [retries] passes
    went before and the limit is [R]. *)
Definition timeout_pass (search_term : string) (i total : nat) (R retries : Z)
  : list event :=
  [ SearchAttempt search_term i total;
    Status (BingSearchAutomation.timeout_message search_term (retries + 1) (PyInt R)) ]
  ++ (if retries + 1 =? R
      then [LogError (BingSearchAutomation.failed_message search_term (retries + 1))]
      else []).

(** [n] timed-out passes in a row. *)
Fixpoint timeout_passes (search_term : string) (i total : nat) (R retries : Z)
         (n : nat) : list event :=
  match n with
  | O => []
  | S n' =>
      timeout_pass search_term i total R retries
      ++ timeout_passes search_term i total R (retries + 1) n'
  end.

(** The trace of the [for] loop over [searches] from index [i] when
    every search times out and the limit is [R]. *)
Fixpoint all_timeouts (searches : list string) (i total : nat) (R : Z)
  : list event :=
  match searches with
  | [] => []
  | search_term :: rest =>
      timeout_passes search_term i total R 0 (Z.to_nat R)
      ++ all_timeouts rest (S i) total R
  end.

(** What [setup_driver] does to the outside when it returns. *)
Definition opening (E : env) (driver_path : string) : list event :=
  match dict_get (config E) "headless_mode",
        dict_get (config E) "page_load_timeout" with
  | Some h, Some t => [SessionOpened driver_path (truthy h); PageLoadTimeoutSet t]
  | _, _ => []
  end.

(** The state in which the [try] of [perform_search] starts, and the one
    in which its loop starts. *)
Definition entering (s : state) : state := set_completed 0 (set_driver false s).
Definition looping (s : state) : state := set_driver true (entering s).

(** The state after the report the [finally] block makes. *)
Definition reported (E : env) (total : nat) (s : state) : state :=
  count_report
    (set_running
       (status_callback E (reports s)
          (BingSearchAutomation.completed_message (completed_searches s) total)
          (running s)) s).

Definition is_session_opened (ev : event) : bool :=
  match ev with
  | SessionOpened _ _ => true
  | _ => false
  end.

Definition is_quit (ev : event) : bool :=
  match ev with
  | Quit => true
  | _ => false
  end.

(** The events that only a retry loop produces: a call of
    [single_search], a timeout report, an error log. *)
Definition is_retry_event (ev : event) : bool :=
  match ev with
  | SearchAttempt _ _ _ => true
  | LogError _ => true
  | Status message => String.prefix "Timeout en" message
  | _ => false
  end.

(** The state after a search that succeeded and left the flag alone. *)
Definition found (s : state) : state :=
  mk_state (running s) (driver s) (completed_searches s + 1)
           (S (reports s)) (S (attempts s)).

(** ** Sample runs *)

Definition newline : string := String Str.LF EmptyString.

(** The text of a search file with the lines "cats", "dogs" and a blank
    line. *)
Definition cats_dogs_blank : string :=
  "cats" ++ newline ++ "dogs" ++ newline ++ newline.

(** An environment in which the files of [files] exist, each read gives
    [text], the browser starts and quits without error, the callback
    leaves the flag alone and the [n]-th search is answered by
    [answer n]. *)
Definition sample_env (cfg : dict) (files : list string) (text : string)
           (set_timeout : value -> res unit)
           (answer : nat -> string -> res unit) : env :=
  mk_env cfg
         (fun path => existsb (String.eqb path) files)
         (fun _ => Ok text)
         (fun _ _ => Ok tt)
         set_timeout
         answer
         (Ok tt)
         (fun _ _ flag => flag)
         (fun _ _ _ => Sleeps).

(** A freshly built automation object: [self.running = True]. *)
Definition fresh : state := mk_state true false 0 0 0.

(** The same object after [cancel_search]. *)
Definition cancelled : state := mk_state false false 0 0 0.

Definition times_out : nat -> string -> res unit :=
  fun _ _ => Raise (mk_exn TimeoutException "timeout").

Definition loads : nat -> string -> res unit := fun _ _ => Ok tt.

(** Two timeouts, then a crashed browser. *)
Definition crashes_third : nat -> string -> res unit :=
  fun n _ =>
    if (n <? 2)%nat then Raise (mk_exn TimeoutException "timeout")
    else Raise (mk_exn WebDriverException "disconnected: not connected to DevTools").


Definition accepts : value -> res unit := fun _ => Ok tt.

(** Two timeouts, then a page that loads. *)
Definition loads_third : nat -> string -> res unit :=
  fun n _ =>
    if (n <? 2)%nat then Raise (mk_exn TimeoutException "timeout") else Ok tt.

(** A driver that takes a number of seconds only. *)
Definition wants_number : value -> res unit :=
  fun v =>
    match as_int v with
    | Some _ => Ok tt
    | None => Raise (mk_exn ValueError "could not convert string to float")
    end.

(** ** More readings of traces *)

(** The lines a run sends to [logging.error]. *)
Definition log_errors (t : list event) : list string :=
  flat_map (fun ev => match ev with LogError m => [m] | _ => [] end) t.

(** The calls of [single_search] in a trace. *)
Definition searches_in (t : list event) : nat :=
  List.length (filter is_attempt t).

(** The events of one search that succeeds. *)
Definition found_pass (search_term : string) (i total : nat) (w : Z * Z)
  : list event :=
  [ SearchAttempt search_term i total;
    Status (BingSearchAutomation.searching_message i total search_term);
    Sleep (fst w) (snd w) ].

(** The trace of the [for] loop over [searches] from index [i] when
    every search succeeds at once. *)
Fixpoint all_found (searches : list string) (i total : nat) (w : Z * Z)
  : list event :=
  match searches with
  | [] => []
  | search_term :: rest =>
      found_pass search_term i total w ++ all_found rest (S i) total w
  end.

(** The state after [n] searches that succeeded and left the flag
    alone. *)
Definition found_all (n : nat) (s : state) : state :=
  mk_state (running s) (driver s) (completed_searches s + Z.of_nat n)
           (n + reports s) (n + attempts s).

(** A call of [single_search] is aimed when it is for a term of
    [searches], under that term's index counted from [first], with the
    length of the list as total, and the term is not empty. *)
Definition aimed (searches : list string) (first : nat) (ev : event) : Prop :=
  match ev with
  | SearchAttempt t current total =>
      total = List.length searches /\
      (first <= current)%nat /\
      nth_error searches (current - first) = Some t /\
      t <> ""
  | _ => True
  end.

(** The same environment around another configuration. *)
Definition with_config (c : dict) (E : env) : env :=
  mk_env c (isfile E) (read_text E) (edge E) (set_page_load_timeout E)
         (browse E) (quit E) (status_callback E) (sleep E).

(** An exception that is not a WebDriver error at all. *)
Definition foreign (e : exn) : bool := negb (isinstance e WebDriverException).

(** ** Which object a configuration is *)

(** [Config.load] returns either the [DEFAULT_CONFIG] object itself or
    a new dict; an item stored into the first is stored into the class
    attribute. *)
Module Ref.

Inductive config_ref :=
| TheDefaults
| Own (d : dict).

(** The content of the object, given what [DEFAULT_CONFIG] holds. *)
Definition deref (defaults : dict) (r : config_ref) : dict :=
  match r with
  | TheDefaults => defaults
  | Own d => d
  end.

(** [Config.load()], keeping track of which object is returned. *)
Definition load (defaults : dict) (fs : disk) : res config_ref * list string :=
  match Config.load_try defaults fs with
  | Ok d => (Ok (Own d), [])
  | Raise e =>
      if isinstance e FileNotFoundError then (Ok TheDefaults, [])
      else if isinstance e Exception then
        (Ok TheDefaults, ["Error cargando configuración: " ++ exn_msg e])
      else (Raise e, [])
  end.

(** [config[key] = v] on the object [r]: the class attribute and the
    object afterwards. *)
Definition store (defaults : dict) (r : config_ref) (key : string) (v : value)
  : dict * config_ref :=
  match r with
  | TheDefaults => (dict_set defaults key v, TheDefaults)
  | Own d => (defaults, Own (dict_set d key v))
  end.

End Ref.

(** ** BingSearchAutomation.__init__ and setup_logging *)

Module Startup.

(** What the start of the program asks of the host: the directory
    [get_log_path()] names, [os.path.join], the time stamp
    [datetime.now().strftime('%Y%m%d_%H%M%S')], [os.makedirs], and the
    opening of the log file by the handler that [logging.basicConfig]
    makes. *)
Record host := mk_host {
  log_path : string;
  join : string -> string -> string;
  stamp : string;
  makedirs : string -> res unit;
  open_log : string -> res unit
}.

Inductive init_event :=
| Logged (message : string)          (* logging.error *)
| MakeDirs (path : string)           (* os.makedirs(path, exist_ok=True) returned *)
| BasicConfig (filename : string).   (* logging.basicConfig opened the log file *)

(** [logging.basicConfig(filename=...)]: it does nothing when the root
    logger is [configured] already, and opens the log file otherwise. *)
Definition basic_config (configured : bool) (filename : string) (h : host)
  : res unit * list init_event :=
  if configured then (Ok tt, [])
  else
    match open_log h filename with
    | Raise e => (Raise e, [])
    | Ok _ => (Ok tt, [BasicConfig filename])
    end.

(** [setup_logging()]. *)
Definition setup_logging (configured : bool) (cfg : dict) (h : host)
  : res unit * list init_event :=
  match dict_get cfg "save_log" with
  | None => (Raise (mk_exn KeyError "'save_log'"), [])
  | Some v =>
      if truthy v then
        match makedirs h (log_path h) with
        | Raise e => (Raise e, [])
        | Ok _ =>
            let log_filename :=
              join h (log_path h) ("search_log_" ++ stamp h ++ ".log") in
            match basic_config configured log_filename h with
            | (r, evs) => (r, MakeDirs (log_path h) :: evs)
            end
        end
      else (Ok tt, [])
  end.

(** Whether the root logger has a handler after [Config.load]:
    [logging.error], when it is the first to log, gives it one. *)
Definition has_logged (log : list string) : bool :=
  match log with
  | [] => false
  | _ :: _ => true
  end.

(** [BingSearchAutomation.__init__] in a process that has not logged
    yet: the configuration object, the flag, and what was done on the
    way. *)
Definition init (defaults : dict) (fs : disk) (h : host)
  : res (Ref.config_ref * bool) * list init_event :=
  match Ref.load defaults fs with
  | (Raise e, log) => (Raise e, map Logged log)
  | (Ok r, log) =>
      match setup_logging (has_logged log) (Ref.deref defaults r) h with
      | (Raise e, evs) => (Raise e, (map Logged log ++ evs)%list)
      | (Ok _, evs) => (Ok (r, true), (map Logged log ++ evs)%list)
      end
  end.

End Startup.

(** ** SearchAutomationGUI *)

Module SearchAutomationGUI.

Inductive ui_event :=
| ShowError (title message : string)   (* messagebox.showerror *)
| ProgressStart                        (* self.progress.start() *)
| ProgressStop                         (* self.progress.stop() *)
| Automation (ev : event)              (* a call made by perform_search *)
| Logged (message : string).           (* logging.error outside it *)

(** The application: the class attribute [Config.DEFAULT_CONFIG], the
    automation object, the three widgets [start_search] reads and the
    configuration file. *)
Record app := mk_app {
  DEFAULT_CONFIG : dict;
  automation_config : Ref.config_ref;     (* self.automation.config *)
  automation : state;
  search_file_entry : string;
  driver_file_entry : string;
  headless_var : bool;
  files : disk
}.

(** What [self.automation.config] holds. *)
Definition current_config (a : app) : dict :=
  Ref.deref (DEFAULT_CONFIG a) (automation_config a).

Definition select_files : string :=
  "Por favor seleccione ambos archivos (búsquedas y WebDriver)".

(** [cancel_search()]: the flag is cleared; the label is the GUI's own
    business. *)
Definition cancel_search (a : app) : app :=
  mk_app (DEFAULT_CONFIG a) (automation_config a)
         (set_running false (automation a))
         (search_file_entry a) (driver_file_entry a) (headless_var a) (files a).

(** [start_search()], in an environment [E] for everything but the
    configuration, which is the application's. *)
Definition start_search (E : env) (a : app) : res unit * app * list ui_event :=
  let search_file := search_file_entry a in
  let driver_path := driver_file_entry a in
  if Str.is_empty search_file || Str.is_empty driver_path then
    (Ok tt, a, [ShowError "Error" select_files])
  else
    match Ref.store (DEFAULT_CONFIG a) (automation_config a)
                    "headless_mode" (PyBool (headless_var a)) with
    | (defaults, r) =>
        let cfg := Ref.deref defaults r in
        match Config.save (PyDict cfg) (files a) with
        | (Raise e, fs, log) =>
            (Raise e,
             mk_app defaults r (automation a) search_file driver_path
                    (headless_var a) fs,
             map Logged log)
        | (Ok _, fs, log) =>
            match BingSearchAutomation.perform_search
                    (with_config cfg E) search_file driver_path
                    (set_running true (automation a)) with
            | (r', s', t) =>
                let a' := mk_app defaults r s' search_file driver_path
                                 (headless_var a) fs in
                let before := (map Logged log ++ [ProgressStart]
                               ++ map Automation t)%list in
                match r' with
                | Ok _ => (Ok tt, a', (before ++ [ProgressStop])%list)
                | Raise e =>
                    if isinstance e Exception then
                      (Ok tt, a',
                       (before
                        ++ [ ShowError "Error" (exn_msg e);
                             Logged ("Error durante la búsqueda: " ++ exn_msg e);
                             ProgressStop ])%list)
                    else (Raise e, a', (before ++ [ProgressStop])%list)
                end
            end
        end
    end.

Definition is_automation (ev : ui_event) : bool :=
  match ev with
  | Automation _ => true
  | _ => false
  end.

End SearchAutomationGUI.

(** ** More sample runs *)

Definition sample_host : Startup.host :=
  Startup.mk_host "logs" (fun a b => a ++ "/" ++ b) "20250101_120000"
                  (fun _ => Ok tt) (fun _ => Ok tt).

(** The application right after it was built with no configuration
    file: the automation's configuration is [DEFAULT_CONFIG] itself. *)
Definition sample_app (search_file driver_path : string) (headless : bool)
  : SearchAutomationGUI.app :=
  SearchAutomationGUI.mk_app Config.DEFAULT_CONFIG Ref.TheDefaults fresh
                             search_file driver_path headless
                             (mk_disk Missing None).

(** A callback that clears the flag at report [n] and leaves it alone
    otherwise. *)
Definition cancel_at (n : nat) : nat -> string -> bool -> bool :=
  fun k _ flag => if Nat.eqb k n then false else flag.

(** [sample_env] with a callback of its own. *)
Definition sample_env_with (cfg : dict) (files : list string) (text : string)
           (answer : nat -> string -> res unit)
           (callback : nat -> string -> bool -> bool) : env :=
  mk_env cfg
         (fun path => existsb (String.eqb path) files)
         (fun _ => Ok text)
         (fun _ _ => Ok tt)
         accepts
         answer
         (Ok tt)
         callback
         (fun _ _ _ => Sleeps).

(** ** Configurations that can be saved *)

(** Induction over JSON documents, through arrays and objects. *)
Section DocInd.

Variable P : Json.doc -> Prop.
Hypothesis HNull : P Json.JNull.
Hypothesis HBool : forall b, P (Json.JBool b).
Hypothesis HNum : forall z, P (Json.JNum z).
Hypothesis HStr : forall s, P (Json.JStr s).
Hypothesis HArr : forall l, Forall P l -> P (Json.JArr l).
Hypothesis HObj : forall m, Forall (fun kv => P (snd kv)) m -> P (Json.JObj m).

Fixpoint doc_ind (j : Json.doc) : P j :=
  match j with
  | Json.JNull => HNull
  | Json.JBool b => HBool b
  | Json.JNum z => HNum z
  | Json.JStr s => HStr s
  | Json.JArr l =>
      HArr l ((fix all (l : list Json.doc) : Forall P l :=
                 match l with
                 | [] => Forall_nil P
                 | x :: r => Forall_cons x (doc_ind x) (all r)
                 end) l)
  | Json.JObj m =>
      HObj m ((fix all (m : list (string * Json.doc))
                 : Forall (fun kv => P (snd kv)) m :=
                 match m with
                 | [] => Forall_nil _
                 | kv :: r => Forall_cons kv (doc_ind (snd kv)) (all r)
                 end) m)
  end.

End DocInd.

(** [json.dump] accepts the value. *)
Definition encodable (v : value) : bool :=
  match Json.encode v with
  | Some _ => true
  | None => false
  end.

(** A configuration [Config.save] can write and [Config.load] reads
    back: a Python dict of values that JSON can hold. *)
Definition saveable (d : dict) : bool :=
  Json.proper (PyDict d) && encodable (PyDict d).

(** The two mappings bind the same keys to the same values. *)
Definition same_bindings (a b : dict) : Prop :=
  forall k, dict_get a k = dict_get b k.

(** ** Cancelling *)

(** The searches a run can still start when the callback clears the
    flag at report [n]: one for each report up to that one. *)
Definition budget (n : nat) (s : state) : nat :=
  if running s then (S n - reports s)%nat else O.

(** The report that clears the flag is still to come, or the flag is
    already cleared. *)
Definition watched (n : nat) (s : state) : Prop :=
  running s = true -> (reports s <= n)%nat.

(** ** Errors that end a run *)

(** Any exception but a timeout. *)
Definition aborting (e : exn) : bool := negb (isinstance e TimeoutException).

(** What [perform_search] logs about an exception that ends the loop: a
    line for a WebDriver error, nothing for any other. *)
Definition abort_log (e : exn) : list event :=
  if isinstance e WebDriverException
  then [LogError (BingSearchAutomation.webdriver_message e)]
  else [].

(** Every line of the file is blank. *)
Definition all_blank (text : string) : bool :=
  forallb (fun line => Str.is_empty (Str.strip line)) (Str.readlines "" text).

(** An answer of the browser that is no WebDriver error. *)
Definition breaks_second : nat -> string -> res unit :=
  fun n _ =>
    if (n <? 1)%nat then Ok tt
    else Raise (mk_exn OSError "Connection reset by peer").

(** ** Reading what the GUI did *)

Definition app_after (x : res unit * SearchAutomationGUI.app
                          * list SearchAutomationGUI.ui_event)
  : SearchAutomationGUI.app := snd (fst x).

Definition ui_outcome (x : res unit * SearchAutomationGUI.app
                           * list SearchAutomationGUI.ui_event)
  : res unit := fst (fst x).

Definition ui_trace (x : res unit * SearchAutomationGUI.app
                         * list SearchAutomationGUI.ui_event)
  : list SearchAutomationGUI.ui_event := snd x.

(** The calls of the automation object among the events of the GUI. *)
Definition automation_part (t : list SearchAutomationGUI.ui_event) : list event :=
  flat_map (fun ev => match ev with
                      | SearchAutomationGUI.Automation e => [e]
                      | _ => []
                      end) t.

(** The dialogs shown. *)
Definition dialogs (t : list SearchAutomationGUI.ui_event) : list string :=
  flat_map (fun ev => match ev with
                      | SearchAutomationGUI.ShowError _ m => [m]
                      | _ => []
                      end) t.

(** Both file fields are filled in. *)
Definition fields_filled (a : SearchAutomationGUI.app) : bool :=
  negb (Str.is_empty (SearchAutomationGUI.search_file_entry a))
  && negb (Str.is_empty (SearchAutomationGUI.driver_file_entry a)).

(** A host whose log directory cannot be made. *)
Definition read_only_host : Startup.host :=
  Startup.mk_host "logs" (fun a b => a ++ "/" ++ b) "20250101_120000"
                  (fun _ => Raise (mk_exn OSError "Read-only file system"))
                  (fun _ => Raise (mk_exn OSError "Read-only file system")).

(** The configuration a run started from the GUI uses: the
    automation's, with the choice of the checkbox stored in it. *)
Definition started_config (a : SearchAutomationGUI.app) : dict :=
  dict_set (SearchAutomationGUI.current_config a) "headless_mode"
           (PyBool (SearchAutomationGUI.headless_var a)).

(** * Properties of dicts *)

Section DictFacts.

Context {V : Type}.
Implicit Types (d a b : list (string * V)) (k : string) (v : V).

Lemma dict_get_set_same d k v : dict_get (dict_set d k v) k = Some v.
Proof.
  induction d as [|[k' v'] d IH]; simpl.
  - now rewrite String.eqb_refl.
  - destruct (String.eqb k' k) eqn:Hk; simpl; rewrite Hk; auto.
Qed.

Lemma dict_get_set_other d k k' v :
  k' <> k -> dict_get (dict_set d k v) k' = dict_get d k'.
Proof.
  intros Hne. induction d as [|[k0 v0] d IH]; simpl.
  - destruct (String.eqb_spec k k'); congruence.
  - destruct (String.eqb_spec k0 k) as [->|Hk]; simpl.
    + destruct (String.eqb_spec k k'); congruence.
    + now rewrite IH.
Qed.

Lemma dict_get_none d k : dict_get d k = None <-> ~ In k (keys d).
Proof.
  induction d as [|[k' v'] d IH]; simpl.
  - tauto.
  - destruct (String.eqb_spec k' k) as [->|Hk].
    + split; [discriminate | tauto].
    + rewrite IH. tauto.
Qed.

Lemma dict_get_in d k v : dict_get d k = Some v -> In k (keys d).
Proof.
  intros H. destruct (in_dec string_dec k (keys d)) as [|Hn]; auto.
  apply dict_get_none in Hn. congruence.
Qed.

Lemma dict_set_fresh d k v : ~ In k (keys d) -> dict_set d k v = (d ++ [(k, v)])%list.
Proof.
  induction d as [|[k' v'] d IH]; simpl; intros Hn; auto.
  destruct (String.eqb_spec k' k) as [->|Hk]; [tauto|].
  rewrite IH; tauto.
Qed.

Lemma dict_set_keeps d k k' v :
  dict_get d k' <> None -> dict_get (dict_set d k v) k' <> None.
Proof.
  intros H. destruct (string_dec k' k) as [->|Hne].
  - rewrite dict_get_set_same. discriminate.
  - now rewrite dict_get_set_other.
Qed.

(** A key of [a] is still bound after [{**a, **b}]. *)
Lemma dict_merge_keeps a b k :
  dict_get a k <> None -> dict_get (dict_merge a b) k <> None.
Proof.
  unfold dict_merge. revert a.
  induction b as [|[k0 v0] b IH]; simpl; intros a H; auto.
  apply IH, dict_set_keeps, H.
Qed.

(** In [{**a, **b}] a key bound in [b] has [b]'s value and any other
    key has [a]'s, when [b] binds no key twice. *)
Lemma dict_get_merge a b k :
  NoDup (keys b) ->
  dict_get (dict_merge a b) k =
  match dict_get b k with
  | Some v => Some v
  | None => dict_get a k
  end.
Proof.
  unfold dict_merge. revert a.
  induction b as [|[k0 v0] b IH]; simpl; intros a Hnd; auto.
  inversion Hnd as [|? ? Hnotin Hnd']; subst.
  rewrite IH by assumption.
  destruct (String.eqb_spec k0 k) as [->|Hk].
  - apply dict_get_none in Hnotin. rewrite Hnotin. apply dict_get_set_same.
  - rewrite dict_get_set_other by congruence. reflexivity.
Qed.

Lemma dict_set_keys_NoDup d k v : NoDup (keys d) -> NoDup (keys (dict_set d k v)).
Proof.
  induction d as [|[k' v'] d IH]; simpl; intros Hnd.
  - constructor; [tauto | constructor].
  - destruct (String.eqb_spec k' k) as [->|Hk]; simpl; auto.
    inversion Hnd as [|? ? Hnotin Hnd']; subst. constructor; auto.
    intros Hin. apply Hnotin.
    destruct (dict_get d k') eqn:Hg.
    + eapply dict_get_in; eauto.
    + exfalso. apply dict_get_none in Hin; auto.
      rewrite dict_get_set_other by congruence. exact Hg.
Qed.

Lemma dict_merge_keys_NoDup a b : NoDup (keys a) -> NoDup (keys (dict_merge a b)).
Proof.
  unfold dict_merge. revert a.
  induction b as [|[k0 v0] b IH]; simpl; intros a H; auto.
  apply IH, dict_set_keys_NoDup, H.
Qed.

(** Storing items with distinct new keys in order appends them. *)
Lemma dict_merge_fresh a b :
  NoDup (keys (a ++ b)) -> dict_merge a b = (a ++ b)%list.
Proof.
  unfold dict_merge. revert a.
  induction b as [|[k0 v0] b IH]; simpl; intros a Hnd.
  - now rewrite app_nil_r.
  - assert (Hfresh : ~ In k0 (keys a)).
    { unfold keys in *. rewrite map_app in Hnd. simpl in Hnd.
      apply NoDup_remove_2 in Hnd. rewrite in_app_iff in Hnd. tauto. }
    rewrite dict_set_fresh by assumption.
    rewrite IH; rewrite <- app_assoc; simpl; auto.
Qed.

End DictFacts.

(** * Properties of the json module *)

Lemma distinct_NoDup (l : list string) : Json.distinct l = true -> NoDup l.
Proof.
  induction l as [|k r IH]; simpl; intros H; constructor.
  - apply andb_prop in H as [H _]. intros Hin.
    apply negb_true_iff in H.
    assert (existsb (String.eqb k) r = true); [|congruence].
    apply existsb_exists. exists k. split; auto. apply String.eqb_refl.
  - apply IH. now apply andb_prop in H as [_ H].
Qed.

Lemma all_some_map {A B : Type} (f : A -> option B) (l : list A) (r : list B) :
  Json.all_some (map f l) = Some r ->
  Forall2 (fun a b => f a = Some b) l r.
Proof.
  revert r. induction l as [|a l IH]; simpl; intros r H.
  - injection H as <-. constructor.
  - destruct (f a) eqn:Ha; [|discriminate].
    destruct (Json.all_some (map f l)) eqn:Hl; [|discriminate].
    injection H as <-. constructor; auto.
Qed.

(** [json.load] after [json.dump] gives the value back with its tuples
    turned into lists. *)
Lemma decode_encode (v : value) :
  forall j, Json.proper v = true -> Json.encode v = Some j ->
            Json.decode j = Json.listify v.
Proof.
  induction v as [| b | z | s | l IH | l IH | d IH | r] using value_ind;
    simpl; intros j Hp He; try (injection He as <-; reflexivity);
    try discriminate.
  - destruct (Json.all_some (map Json.encode l)) as [js|] eqn:Hl; [|discriminate].
    injection He as <-. simpl. f_equal.
    apply all_some_map in Hl. clear -IH Hp Hl.
    induction Hl as [|x j l js Hx Hl IHl]; simpl; auto.
    inversion IH; subst. simpl in Hp. apply andb_prop in Hp as [Hp1 Hp2].
    f_equal; auto.
  - destruct (Json.all_some (map Json.encode l)) as [js|] eqn:Hl; [|discriminate].
    injection He as <-. simpl. f_equal.
    apply all_some_map in Hl. clear -IH Hp Hl.
    induction Hl as [|x j l js Hx Hl IHl]; simpl; auto.
    inversion IH; subst. simpl in Hp. apply andb_prop in Hp as [Hp1 Hp2].
    f_equal; auto.
  - match type of He with option_map _ ?o = _ => destruct o as [m|] eqn:Hm end;
      [|discriminate].
    injection He as <-. simpl. f_equal.
    apply andb_prop in Hp as [Hd Hp].
    apply all_some_map in Hm.
    assert (Hmap : map (fun kv => (fst kv, Json.decode (snd kv))) m
                   = map (fun kv => (fst kv, Json.listify (snd kv))) d).
    { clear Hd. induction Hm as [|[k x] [k' j] d m Hx Hm IHm]; simpl; auto.
      inversion IH; subst. simpl in Hp. apply andb_prop in Hp as [Hp1 Hp2].
      simpl in Hx. destruct (Json.encode x) eqn:Hex; [|discriminate].
      injection Hx as <- <-. simpl in *. f_equal; auto. f_equal. auto. }
    rewrite Hmap. apply dict_merge_fresh. simpl.
    unfold keys. rewrite map_map. simpl. apply distinct_NoDup. exact Hd.
Qed.

Lemma listify_tuple_free (v : value) :
  Json.tuple_free v = true -> Json.listify v = v.
Proof.
  induction v as [| b | z | s | l IH | l IH | d IH | r] using value_ind;
    simpl; intros H; auto; try discriminate.
  - f_equal. induction IH as [|x l Hx Hl IHl]; simpl in *; auto.
    apply andb_prop in H as [H1 H2]. f_equal; auto.
  - f_equal. induction IH as [|[k x] d Hx Hd IHd]; simpl in *; auto.
    apply andb_prop in H as [H1 H2]. f_equal; auto. f_equal; auto.
Qed.

Lemma object_of_NoDup (members : list (string * Json.doc)) :
  NoDup (keys (Json.object_of members)).
Proof. apply dict_merge_keys_NoDup. constructor. Qed.

(** * Config *)

Lemma load_try_raises (defaults : dict) (fs : disk) (e : exn) :
  Config.load_try defaults fs = Raise e -> isinstance e Exception = true.
Proof.
  unfold Config.load_try. destruct fs as [[| err |[j | err]] w]; simpl.
  - intros H; injection H as <-; reflexivity.
  - intros H; injection H as <-; reflexivity.
  - destruct (Json.decode j); simpl; intros H;
      try discriminate; injection H as <-; reflexivity.
  - intros H; injection H as <-; reflexivity.
Qed.

Lemma load_from_total (defaults : dict) (fs : disk) :
  exists d log, Config.load_from defaults fs = (Ok d, log).
Proof.
  unfold Config.load_from.
  destruct (Config.load_try defaults fs) as [d|e] eqn:H; [eauto|].
  apply load_try_raises in H.
  destruct (isinstance e FileNotFoundError); [eauto|].
  rewrite H. eauto.
Qed.

Lemma load_object (w : option string) (members : list (string * Json.doc)) :
  Config.load (mk_disk (Holds (Document (Json.JObj members))) w)
  = (Ok (dict_merge Config.DEFAULT_CONFIG (Json.object_of members)), []).
Proof. reflexivity. Qed.

(** What [dict_merge] binds a key to: what the last pair of [b] named
    [k] holds, and without such a pair what [a] binds it to. *)
Lemma dict_get_merge_last {V : Type} (b : list (string * V)) :
  forall (a : list (string * V)) (k : string),
    dict_get (dict_merge a b) k
    = match last_binding b k with
      | Some v => Some v
      | None => dict_get a k
      end.
Proof.
  unfold dict_merge. induction b as [|[k' v] b IH]; intros a k; simpl; auto.
  rewrite IH. destruct (last_binding b k); auto.
  destruct (String.eqb_spec k' k) as [->|Hne].
  - apply dict_get_set_same.
  - apply dict_get_set_other. congruence.
Qed.

Lemma last_binding_none {V : Type} (l : list (string * V)) (k : string) :
  ~ In k (keys l) -> last_binding l k = None.
Proof.
  induction l as [|[k' v] l IH]; simpl; auto.
  intros Hnot. rewrite IH by tauto.
  destruct (String.eqb_spec k' k); [tauto | reflexivity].
Qed.

(** In a dict, where no key comes twice, the last pair named [k] is
    the only one. *)
Lemma last_binding_dict {V : Type} (d : list (string * V)) (k : string) :
  NoDup (keys d) -> last_binding d k = dict_get d k.
Proof.
  induction d as [|[k' v] d IH]; simpl; auto.
  intros Hnd. inversion Hnd as [|? ? Hnot Hnd']; subst.
  destruct (String.eqb_spec k' k) as [->|Hne].
  - now rewrite last_binding_none.
  - rewrite IH by assumption. now destruct (dict_get d k).
Qed.

Lemma last_binding_map {V W : Type} (f : V -> W) (l : list (string * V)) (k : string) :
  last_binding (map (fun kv => (fst kv, f (snd kv))) l) k
  = option_map f (last_binding l k).
Proof.
  induction l as [|[k' v] l IH]; simpl; auto.
  rewrite IH. destruct (last_binding l k); simpl; auto.
  now destruct (String.eqb k' k).
Qed.

(** C4. [Config.load] never raises.  With no file it returns the
    defaults: delay window (3, 7), page-load timeout 30, 3 retries,
    logging on, headless off, and nothing is logged.  With a file that
    holds a JSON object it returns the object's members over the
    defaults: a key that the text names has the value that [json.load]
    gives its member (the last one, if the text names the key more than
    once), any other key has its default, and every default key is
    still there.  On any other failure (the file cannot be read, its
    text is not JSON, or the document is not an object) it logs one
    error and returns the defaults. *)
Theorem load_never_raises_defaults_merge :
  (forall fs : disk, exists d log, Config.load fs = (Ok d, log)) /\
  (forall w : option string,
      Config.load (mk_disk Missing w)
      = (Ok [ ("search_delay", PyTuple [PyInt 3; PyInt 7]);
              ("page_load_timeout", PyInt 30);
              ("max_retries", PyInt 3);
              ("save_log", PyBool true);
              ("headless_mode", PyBool false) ], [])) /\
  (forall (w : option string) (members : list (string * Json.doc)),
      exists d,
        Config.load (mk_disk (Holds (Document (Json.JObj members))) w) = (Ok d, [])
        /\ (forall k,
               dict_get d k =
               match last_binding members k with
               | Some j => Some (Json.decode j)
               | None => dict_get Config.DEFAULT_CONFIG k
               end)
        /\ (forall k, In k (keys Config.DEFAULT_CONFIG) -> In k (keys d))) /\
  (forall fs : disk,
      match config_json fs with
      | Missing | Holds (Document (Json.JObj _)) => True
      | _ => exists msg, Config.load fs = (Ok Config.DEFAULT_CONFIG, [msg])
      end).
Proof.
  split; [|split; [|split]].
  - intros fs. apply load_from_total.
  - reflexivity.
  - intros w members. eexists. split; [apply load_object|]. split.
    + intros k. rewrite dict_get_merge_last.
      rewrite (last_binding_dict _ _ (object_of_NoDup members)).
      unfold Json.object_of.
      rewrite dict_get_merge_last, last_binding_map.
      destruct (last_binding members k); reflexivity.
    + intros k Hin.
      destruct (dict_get (dict_merge Config.DEFAULT_CONFIG (Json.object_of members)) k)
        eqn:Hg; [eapply dict_get_in; eauto|].
      exfalso. revert Hg. apply dict_merge_keeps.
      rewrite dict_get_none. tauto.
  - intros [[| err |[j | err]] w]; simpl; auto;
      try (eexists; reflexivity).
    destruct j; auto; eexists; reflexivity.
Qed.

(** C9. Whatever is at the configuration path, [Config.load] returns a
    mapping that binds each of the five default keys. *)
Theorem load_binds_default_keys :
  forall fs : disk,
    exists d log,
      Config.load fs = (Ok d, log) /\
      Forall (fun k => dict_get d k <> None)
             ["search_delay"; "page_load_timeout"; "max_retries";
              "save_log"; "headless_mode"].
Proof.
  intros fs.
  assert (Hdef : Forall (fun k => dict_get Config.DEFAULT_CONFIG k <> None)
                        ["search_delay"; "page_load_timeout"; "max_retries";
                         "save_log"; "headless_mode"]).
  { repeat constructor; discriminate. }
  destruct fs as [[| err |[j | err]] w];
    try (do 2 eexists; split; [reflexivity | exact Hdef]).
  destruct j; try (do 2 eexists; split; [reflexivity | exact Hdef]).
  do 2 eexists. split; [apply load_object|].
  eapply Forall_impl; [|exact Hdef].
  intros k Hk. now apply dict_merge_keeps.
Qed.

Lemma dict_get_map {A B : Type} (f : A -> B) (d : list (string * A)) (k : string) :
  dict_get (map (fun kv => (fst kv, f (snd kv))) d) k = option_map f (dict_get d k).
Proof.
  induction d as [|[k' v'] d IH]; simpl; auto.
  destruct (String.eqb k' k); auto.
Qed.

Lemma keys_map {A B : Type} (f : A -> B) (d : list (string * A)) :
  keys (map (fun kv => (fst kv, f (snd kv))) d) = keys d.
Proof. unfold keys. rewrite map_map. reflexivity. Qed.

(** C5 as stated fails on the defaults: saving them and loading them
    back turns the delay window from the tuple (3, 7) into the list
    [3, 7]. *)
Lemma save_load_default_changes_search_delay :
  Json.proper (PyDict Config.DEFAULT_CONFIG) = true /\
  Json.encode (PyDict Config.DEFAULT_CONFIG) <> None /\
  dict_get Config.DEFAULT_CONFIG "search_delay"
  = Some (PyTuple [PyInt 3; PyInt 7]) /\
  exists d,
    Config.save_then_load (PyDict Config.DEFAULT_CONFIG) (mk_disk Missing None)
    = (Ok d, []) /\
    dict_get d "search_delay" = Some (PyList [PyInt 3; PyInt 7]) /\
    PyList [PyInt 3; PyInt 7] <> PyTuple [PyInt 3; PyInt 7].
Proof.
  split; [reflexivity|]. split; [discriminate|]. split; [reflexivity|].
  eexists. split; [reflexivity|]. split; [reflexivity | discriminate].
Qed.

(** [load] hands out the defaults themselves, not a copy of them: with
    no file it returns whatever [DEFAULT_CONFIG] holds at the time, so
    an item stored into an earlier result shows in a later one. *)
Remark load_without_file_returns_current_defaults :
  forall (defaults : dict) (w : option string),
    Config.load_from defaults (mk_disk Missing w) = (Ok defaults, []).
Proof. reflexivity. Qed.

(** C5, amended. For a configuration [c] that [json.dump] can encode
    and a configuration file that can be written, [Config.load] after
    [Config.save(c)] returns, without logging, a mapping that binds
    every key of [c] to [c]'s value with each tuple in it replaced by
    the list of its items; a value that holds no tuple comes back
    unchanged. *)
Theorem save_load_roundtrip_up_to_tuples :
  forall (c : dict) (fs : disk),
    write_error fs = None ->
    Json.proper (PyDict c) = true ->
    Json.encode (PyDict c) <> None ->
    exists d,
      Config.save_then_load (PyDict c) fs = (Ok d, []) /\
      forall k v,
        dict_get c k = Some v ->
        dict_get d k = Some (Json.listify v) /\
        (Json.tuple_free v = true -> dict_get d k = Some v).
Proof.
  intros c fs Hw Hp He.
  destruct (Json.encode (PyDict c)) as [j|] eqn:Hj; [clear He | congruence].
  pose proof (decode_encode (PyDict c) j Hp Hj) as Hdec. simpl in Hdec.
  exists (dict_merge Config.DEFAULT_CONFIG
            (map (fun kv => (fst kv, Json.listify (snd kv))) c)).
  split.
  - unfold Config.save_then_load, Config.save, Config.save_try.
    rewrite Hw, Hj. simpl.
    unfold Config.load, Config.load_from, Config.load_try. simpl.
    rewrite Hdec. reflexivity.
  - intros k v Hk.
    assert (Hget : dict_get (dict_merge Config.DEFAULT_CONFIG
                               (map (fun kv => (fst kv, Json.listify (snd kv))) c)) k
                   = Some (Json.listify v)).
    { rewrite dict_get_merge.
      - now rewrite dict_get_map, Hk.
      - rewrite keys_map. apply distinct_NoDup.
        simpl in Hp. now apply andb_prop in Hp as [Hp _]. }
    split; auto.
    intros Htf. now rewrite Hget, listify_tuple_free.
Qed.

Lemma save_load_roundtrip_up_to_tuples_witness :
  exists d,
    Config.save_then_load (PyDict Config.DEFAULT_CONFIG) (mk_disk Missing None)
    = (Ok d, []) /\
    forall k v,
      dict_get Config.DEFAULT_CONFIG k = Some v ->
      dict_get d k = Some (Json.listify v) /\
      (Json.tuple_free v = true -> dict_get d k = Some v).
Proof.
  apply (save_load_roundtrip_up_to_tuples
           Config.DEFAULT_CONFIG (mk_disk Missing None));
    [reflexivity | reflexivity | discriminate].
Defined.

(** * Running monadic code *)

Section MonadFacts.

Context {A B : Type}.
Implicit Types (s : state) (k : A -> M B) (x : res B * state * list event).

Lemma after_nil x : after [] x = x.
Proof. now destruct x as [[r s] t]. Qed.

Lemma after_after (t1 t2 : list event) x :
  after t1 (after t2 x) = after (t1 ++ t2) x.
Proof. destruct x as [[r s] t]. unfold after. simpl. now rewrite app_assoc. Qed.

Lemma bind_run (c : M A) k s :
  bind c k s =
  match c s with
  | (Ok a, s1, t1) => after t1 (k a s1)
  | (Raise e, s1, t1) => (Raise e, s1, t1)
  end.
Proof.
  unfold bind. destruct (c s) as [[[a|e] s1] t1]; auto.
  now destruct (k a s1) as [[r s2] t2].
Qed.

Lemma bind_ret (a : A) k s : bind (ret a) k s = k a s.
Proof. rewrite bind_run. apply after_nil. Qed.

Lemma bind_raise (e : exn) k s : bind (raise e) k s = (Raise e, s, []).
Proof. reflexivity. Qed.

Lemma bind_lift_ok (a : A) k s : bind (lift (Ok a)) k s = k a s.
Proof. rewrite bind_run. apply after_nil. Qed.

Lemma bind_lift_raise (e : exn) k s : bind (lift (Raise e)) k s = (Raise e, s, []).
Proof. reflexivity. Qed.

Lemma bind_get (f : state -> A) k s : bind (get f) k s = k (f s) s.
Proof. rewrite bind_run. apply after_nil. Qed.

End MonadFacts.

Section MonadFactsUnit.

Context {B : Type}.
Implicit Types (s : state) (k : unit -> M B).

Lemma bind_emit (ev : event) k s : bind (emit ev) k s = after [ev] (k tt s).
Proof. now rewrite bind_run. Qed.

Lemma bind_modify (f : state -> state) k s : bind (modify f) k s = k tt (f s).
Proof. rewrite bind_run. apply after_nil. Qed.

End MonadFactsUnit.

Lemma bind_assoc {A B C : Type} (c : M A) (k : A -> M B) (h : B -> M C) (s : state) :
  bind (bind c k) h s = bind c (fun a => bind (k a) h) s.
Proof.
  unfold bind. destruct (c s) as [[[a|e] s1] t1]; auto.
  destruct (k a s1) as [[[b|e] s2] t2]; auto.
  destruct (h b s2) as [[r s3] t3]. now rewrite app_assoc.
Qed.

Lemma issubclass_base (c : exn_class) : issubclass c BaseException = true.
Proof. now destruct c. Qed.

Section RunFacts.

Variable E : env.

Import BingSearchAutomation.

Lemma update_status_run (message : string) (s : state) :
  update_status E message s
  = (Ok tt,
     count_report (set_running (status_callback E (reports s) message (running s)) s),
     [Status message]).
Proof. reflexivity. Qed.

Lemma bind_update_status {B : Type} (message : string) (k : unit -> M B) (s : state) :
  bind (update_status E message) k s
  = after [Status message]
      (k tt (count_report
               (set_running (status_callback E (reports s) message (running s)) s))).
Proof. now rewrite bind_run, update_status_run. Qed.

(** The [finally] block never raises: it quits the session it holds,
    whatever [quit] does, and reports the count. *)
Lemma cleanup_run (total : nat) (s : state) :
  cleanup E total s
  = (Ok tt,
     count_report
       (set_running
          (status_callback E (reports s)
             (completed_message (completed_searches s) total) (running s)) s),
     (if driver s then [Quit] else [])
     ++ [Status (completed_message (completed_searches s) total)])%list.
Proof.
  unfold cleanup. rewrite bind_get.
  destruct (driver s) eqn:Hd.
  - unfold try_except, bind at 2, emit, lift.
    destruct (quit E) as [[]|e]; simpl.
    + rewrite bind_run. simpl. rewrite bind_get, update_status_run. reflexivity.
    + unfold isinstance. rewrite issubclass_base. simpl.
      rewrite bind_run. simpl. rewrite bind_get, update_status_run. reflexivity.
  - rewrite bind_ret, bind_get, update_status_run. reflexivity.
Qed.


Lemma single_search_run (t : string) (i N : nat) (s : state) :
  single_search E t i N s
  = after [SearchAttempt t i N]
      (match browse E (attempts s) t with
       | Raise e => (Raise e, count_attempt s, [])
       | Ok _ =>
           match dict_get (config E) "search_delay" with
           | None => (Raise (mk_exn KeyError "'search_delay'"), count_attempt s, [])
           | Some d =>
               match uniform_args d with
               | Raise e => (Raise e, count_attempt s, [])
               | Ok w =>
                   let s' :=
                     count_report
                       (set_running
                          (status_callback E (reports s) (searching_message i N t)
                             (running s)) (count_attempt s)) in
                   match time_sleep E (attempts s) (fst w) (snd w) with
                   | Raise e => (Raise e, s', [Status (searching_message i N t)])
                   | Ok _ =>
                       (Ok tt, s',
                        [Status (searching_message i N t); Sleep (fst w) (snd w)])
                   end
               end
           end
       end).
Proof.
  unfold single_search. rewrite bind_get, bind_modify, bind_emit. f_equal.
  simpl attempts.
  destruct (browse E (attempts s) t) as [[]|e].
  - rewrite bind_lift_ok. unfold config_get.
    destruct (dict_get (config E) "search_delay") as [d|].
    + rewrite bind_ret. destruct (uniform_args d) as [w|e].
      * rewrite bind_lift_ok, bind_update_status.
        destruct (time_sleep E (attempts s) (fst w) (snd w)) as [[]|e].
        -- rewrite bind_lift_ok. reflexivity.
        -- rewrite bind_lift_raise. reflexivity.
      * reflexivity.
    + reflexivity.
  - reflexivity.
Qed.

(** Every call of [single_search] is recorded first thing and counted,
    and leaves the session local alone. *)
Lemma single_search_shape (t : string) (i N : nat) (s : state) :
  exists r s' rest,
    single_search E t i N s = (r, s', SearchAttempt t i N :: rest) /\
    attempts s' = S (attempts s) /\
    driver s' = driver s /\
    forallb (fun ev => negb (is_attempt ev)) rest = true.
Proof.
  rewrite single_search_run.
  destruct (browse E (attempts s) t) as [[]|e];
    [|do 3 eexists; repeat split].
  destruct (dict_get (config E) "search_delay") as [d|];
    [|do 3 eexists; repeat split].
  destruct (uniform_args d) as [w|e]; [|do 3 eexists; repeat split].
  cbv zeta.
  destruct (time_sleep E (attempts s) (fst w) (snd w)) as [[]|e];
    do 3 eexists; repeat split.
Qed.

Lemma uniform_args_raises (d : value) (e : exn) :
  uniform_args d = Raise e ->
  exn_cls e = TypeError \/ exn_cls e = OverflowError.
Proof.
  unfold uniform_args, unpack.
  destruct d as [| | | s | l | l | d |]; simpl;
    try (intros H; injection H as <-; now left).
  - destruct (map PyStr (Str.chars s)) as [|a [|b [|c l]]];
      try (intros H; injection H as <-; now left).
    destruct (as_int a), (as_int b);
      try (intros H; injection H as <-; now left).
    destruct (float_fits (z0 - z) && float_fits z); [discriminate|].
    intros H; injection H as <-; now right.
  - destruct l as [|a [|b [|c l]]];
      try (intros H; injection H as <-; now left).
    destruct (as_int a), (as_int b);
      try (intros H; injection H as <-; now left).
    destruct (float_fits (z0 - z) && float_fits z); [discriminate|].
    intros H; injection H as <-; now right.
  - destruct l as [|a [|b [|c l]]];
      try (intros H; injection H as <-; now left).
    destruct (as_int a), (as_int b);
      try (intros H; injection H as <-; now left).
    destruct (float_fits (z0 - z) && float_fits z); [discriminate|].
    intros H; injection H as <-; now right.
  - destruct (map PyStr (keys d)) as [|a [|b [|c l]]];
      try (intros H; injection H as <-; now left).
    destruct (as_int a), (as_int b);
      try (intros H; injection H as <-; now left).
    destruct (float_fits (z0 - z) && float_fits z); [discriminate|].
    intros H; injection H as <-; now right.
Qed.

(** A pass whose search times out: the counter goes up, the timeout is
    reported, and the failure is logged when the limit is reached. *)
Lemma attempt_timeout (t : string) (i N : nat) (R retries : Z) (s : state) (e : exn) :
  dict_get (config E) "max_retries" = Some (PyInt R) ->
  browse E (attempts s) t = Raise e ->
  exn_cls e = TimeoutException ->
  attempt E t i N retries s
  = (Ok (Some (retries + 1)),
     count_report
       (set_running
          (status_callback E (reports s)
             (timeout_message t (retries + 1) (PyInt R)) (running s))
          (count_attempt s)),
     timeout_pass t i N R retries).
Proof.
  intros Hm Hb He. unfold attempt, try_except.
  rewrite bind_run, single_search_run, Hb. simpl.
  unfold isinstance. rewrite He. simpl.
  unfold config_get. rewrite Hm, bind_ret, bind_update_status, bind_ret.
  unfold timeout_pass, int_eq. simpl as_int.
  destruct (retries + 1 =? R); reflexivity.
Qed.


(** Every pass calls [single_search] once, first thing; when the loop
    goes round the counter went up by one. *)
Lemma attempt_shape (t : string) (i N : nat) (retries : Z) (s : state) :
  exists r s' rest,
    attempt E t i N retries s = (r, s', SearchAttempt t i N :: rest) /\
    attempts s' = S (attempts s) /\
    driver s' = driver s /\
    forallb (fun ev => negb (is_attempt ev)) rest = true /\
    (forall r', r = Ok (Some r') -> r' = retries + 1).
Proof.
  unfold attempt, try_except. rewrite bind_run.
  destruct (single_search_shape t i N s) as (r & s1 & rest & -> & Hn & Hd & Hrest).
  assert (Hrest' : forall ev,
             is_attempt ev = false ->
             forallb (fun ev => negb (is_attempt ev)) (rest ++ [ev]) = true).
  { intros ev Hev. rewrite forallb_app, Hrest. simpl. now rewrite Hev. }
  destruct r as [[]|e].
  - unfold bind, modify, ret, after, outcome, final, trace; cbn [fst snd app].
    rewrite app_nil_r. do 3 eexists. split; [reflexivity|].
    repeat split; auto. discriminate.
  - cbn [handle]. destruct (isinstance e TimeoutException).
    + unfold config_get.
      destruct (dict_get (config E) "max_retries") as [m|].
      * rewrite bind_ret, bind_update_status, bind_ret.
        destruct (int_eq (retries + 1) m);
          unfold log_error, bind, emit, ret, after, outcome, final, trace;
          cbn [fst snd app]; rewrite ?app_nil_r;
          do 3 eexists; (split; [reflexivity|]);
          repeat split; auto;
          try (rewrite forallb_app, Hrest; reflexivity);
          intros r' Hr; injection Hr as <-; reflexivity.
      * rewrite bind_raise, app_nil_r.
        do 3 eexists. split; [reflexivity|]. repeat split; auto. discriminate.
    + destruct (isinstance e WebDriverException).
      * unfold log_error, bind, emit, raise; cbn [fst snd app].
        do 3 eexists. split; [reflexivity|].
        repeat split; auto; try discriminate;
          rewrite forallb_app, Hrest; reflexivity.
      * unfold raise. rewrite app_nil_r.
        do 3 eexists. split; [reflexivity|]. repeat split; auto. discriminate.
Qed.

End RunFacts.

(** * The retry loop *)

Lemma attempts_at_app (j : nat) (t1 t2 : list event) :
  attempts_at j (t1 ++ t2) = (attempts_at j t1 + attempts_at j t2)%nat.
Proof. unfold attempts_at. now rewrite filter_app, length_app. Qed.

Lemma no_attempt_at (j : nat) (t : list event) :
  forallb (fun ev => negb (is_attempt ev)) t = true -> attempts_at j t = O.
Proof.
  unfold attempts_at. induction t as [|ev t IH]; simpl; auto.
  intros H. apply andb_prop in H as [Hev Ht].
  destruct ev; simpl in *; auto; discriminate.
Qed.

Lemma attempts_at_cons (j i N : nat) (t : string) (rest : list event) :
  attempts_at j (SearchAttempt t i N :: rest)
  = ((if Nat.eqb i j then 1 else 0) + attempts_at j rest)%nat.
Proof. unfold attempts_at. simpl. destruct (Nat.eqb i j); reflexivity. Qed.

Lemma outcome_after {A : Type} (t : list event) (x : res A * state * list event) :
  outcome (after t x) = outcome x.
Proof. reflexivity. Qed.

Lemma final_after {A : Type} (t : list event) (x : res A * state * list event) :
  final (after t x) = final x.
Proof. reflexivity. Qed.

Lemma trace_after {A : Type} (t : list event) (x : res A * state * list event) :
  trace (after t x) = (t ++ trace x)%list.
Proof. reflexivity. Qed.

Section LoopFacts.

Variable E : env.

Import BingSearchAutomation.

Lemma loop_test_run (retries : Z) (s : state) :
  loop_test E retries s
  = match dict_get (config E) "max_retries" with
    | None => (Raise (mk_exn KeyError "'max_retries'"), s, [])
    | Some m =>
        match int_lt retries m with
        | Raise e => (Raise e, s, [])
        | Ok c => (Ok (c && running s), s, [])
        end
    end.
Proof.
  unfold loop_test, config_get.
  destruct (dict_get (config E) "max_retries") as [m|]; auto.
  rewrite bind_ret. destruct (int_lt retries m) as [c|e]; auto.
  rewrite bind_lift_ok. now destruct c.
Qed.

(** One turn of the [while] loop: the test, then a pass, then the loop
    again unless the pass ended in [break] or raised. *)
Lemma retry_loop_run (t : string) (i N : nat) (retries : Z) (s : state) :
  retry_loop E t i N retries s
  = match dict_get (config E) "max_retries" with
    | None => (Raise (mk_exn KeyError "'max_retries'"), s, [])
    | Some m =>
        match int_lt retries m with
        | Raise e => (Raise e, s, [])
        | Ok c =>
            if c && running s then
              match attempt E t i N retries s with
              | (Ok None, s1, t1) => (Ok tt, s1, t1)
              | (Ok (Some retries'), s1, t1) =>
                  after t1 (retry_loop E t i N retries' s1)
              | (Raise e, s1, t1) => (Raise e, s1, t1)
              end
            else (Ok tt, s, [])
        end
    end.
Proof.
  funelim (retry_loop E t i N retries s); clear Heqcall;
    repeat match goal with
           | H : sigmaI _ _ _ = _ |- _ => clear H
           end;
    repeat match goal with
           | H : loop_test _ _ _ = _ |- _ =>
               rewrite loop_test_run in H;
               destruct (dict_get (config E) "max_retries") as [m|];
               [destruct (int_lt retries m) as [c|e']|];
               inversion H; subst; clear H
           end;
    repeat match goal with
           | H : _ && _ = _ |- _ => rewrite H
           | H : _ = _ && _ |- _ => rewrite <- H
           | H : attempt _ _ _ _ _ _ = _ |- _ => rewrite H; clear H
           end;
    try reflexivity.
  destruct (retry_loop E search_term i total retries' s2) as [[r s3] t3].
  reflexivity.
Qed.

Lemma retry_passes_run (fuel : nat) (t : string) (i N : nat) (retries : Z) (s : state) :
  retry_passes E fuel t i N retries s
  = match dict_get (config E) "max_retries" with
    | None => (Raise (mk_exn KeyError "'max_retries'"), s, [])
    | Some m =>
        match int_lt retries m with
        | Raise e => (Raise e, s, [])
        | Ok c =>
            if c && running s then
              match fuel with
              | O => (Ok tt, s, [])
              | S fuel' =>
                  match attempt E t i N retries s with
                  | (Ok None, s1, t1) => (Ok tt, s1, t1)
                  | (Ok (Some retries'), s1, t1) =>
                      after t1 (retry_passes E fuel' t i N retries' s1)
                  | (Raise e, s1, t1) => (Raise e, s1, t1)
                  end
              end
            else (Ok tt, s, [])
        end
    end.
Proof.
  destruct fuel as [|fuel']; cbn [retry_passes];
    rewrite bind_run, loop_test_run;
    destruct (dict_get (config E) "max_retries") as [m|]; auto;
    destruct (int_lt retries m) as [c|e]; auto;
    destruct (c && running s); auto.
  rewrite after_nil, bind_run.
  destruct (attempt E t i N retries s) as [[[[r'|]|e] s1] t1]; auto.
  unfold after, ret. simpl. now rewrite app_nil_r.
Qed.

(** The loop leaves the locals of [perform_search] that it does not own
    alone, calls [single_search] only for its own term, at most [fuel]
    times, and each call is counted. *)
Lemma retry_passes_calls (fuel : nat) (t : string) (i N : nat) :
  forall (retries : Z) (s : state),
    let x := retry_passes E fuel t i N retries s in
    driver (final x) = driver s /\
    (forall j, j <> i -> attempts_at j (trace x) = O) /\
    (attempts_at i (trace x) <= fuel)%nat /\
    attempts (final x) = (attempts_at i (trace x) + attempts s)%nat.
Proof.
  induction fuel as [|fuel IH]; intros retries s x; subst x;
    rewrite retry_passes_run;
    (destruct (dict_get (config E) "max_retries") as [m|];
     [destruct (int_lt retries m) as [c|e];
      [destruct (c && running s)|]|]);
    try (unfold final, trace, attempts_at; simpl;
         repeat split; intros; try reflexivity; lia).
  destruct (attempt_shape E t i N retries s)
    as (r & s1 & rest & Hrun & Hn & Hd & Hrest & _).
  rewrite Hrun.
  assert (Hi : attempts_at i (SearchAttempt t i N :: rest) = 1%nat).
  { rewrite attempts_at_cons, Nat.eqb_refl, (no_attempt_at _ _ Hrest). reflexivity. }
  assert (Hj : forall j, j <> i -> attempts_at j (SearchAttempt t i N :: rest) = O).
  { intros j Hne. rewrite attempts_at_cons, (no_attempt_at _ _ Hrest).
    destruct (Nat.eqb_spec i j); [congruence | reflexivity]. }
  destruct r as [[r'|]|e].
  - destruct (IH r' s1) as (IHd & IHj & IHle & IHn).
    rewrite final_after, trace_after. repeat split.
    + congruence.
    + intros j Hne. rewrite attempts_at_app, Hj, IHj; auto.
    + rewrite attempts_at_app, Hi. lia.
    + rewrite attempts_at_app, Hi, IHn, Hn. lia.
  - unfold final, trace; cbn [fst snd]. rewrite Hi, Hn. repeat split; auto; lia.
  - unfold final, trace; cbn [fst snd]. rewrite Hi, Hn. repeat split; auto; lia.
Qed.



(** With the limit [R], [n = R - retries] passes that all time out while
    nobody cancels: the loop makes exactly these passes and ends
    normally, with nothing completed. *)
Lemma retry_passes_timeouts (t : string) (i N : nat) (R : Z) :
  dict_get (config E) "max_retries" = Some (PyInt R) ->
  forall (n fuel : nat) (retries : Z) (s : state),
    n = Z.to_nat (R - retries) ->
    (n <= fuel)%nat ->
    running s = true ->
    (forall k, (k < n)%nat ->
               exists e, browse E (k + attempts s) t = Raise e /\
                         exn_cls e = TimeoutException) ->
    (forall k msg, (k < n)%nat -> status_callback E (k + reports s) msg true = true) ->
    retry_passes E fuel t i N retries s
    = (Ok tt, advance n s, timeout_passes t i N R retries n).
Proof.
  intros Hm. induction n as [|n IH]; intros fuel retries s Hn Hfuel Hrun Hto Hcb;
    rewrite retry_passes_run, Hm; unfold int_lt; simpl as_int; cbv iota.
  - assert (Hlt : (retries <? R) = false) by (apply Z.ltb_ge; lia).
    rewrite Hlt. simpl. destruct s; reflexivity.
  - assert (Hlt : (retries <? R) = true) by (apply Z.ltb_lt; lia).
    rewrite Hlt, Hrun. simpl andb. cbv iota.
    destruct fuel as [|fuel]; [lia|].
    destruct (Hto O) as (e & Hb & He); [lia|]. simpl in Hb.
    rewrite (attempt_timeout E t i N R retries s e Hm Hb He).
    rewrite Hrun, (Hcb O _ (Nat.lt_0_succ n)).
    rewrite IH; try lia; try reflexivity.
    + unfold after, outcome, final, trace, advance; simpl. rewrite Hrun.
      do 2 f_equal. f_equal; lia.
    + intros k Hk. simpl.
      replace (k + S (attempts s))%nat with (S k + attempts s)%nat by lia.
      apply Hto. lia.
    + intros k msg Hk. simpl.
      replace (k + S (reports s))%nat with (S k + reports s)%nat by lia.
      apply Hcb. lia.
Qed.

Lemma attempts_at_timeout_passes (t : string) (i N : nat) (R : Z) (j : nat) :
  forall (n : nat) (retries : Z),
    attempts_at j (timeout_passes t i N R retries n)
    = if Nat.eqb i j then n else O.
Proof.
  induction n as [|n IH]; intros retries; cbn [timeout_passes].
  - now destruct (Nat.eqb i j).
  - rewrite attempts_at_app, IH. unfold timeout_pass, attempts_at.
    destruct (retries + 1 =? R); simpl; destruct (Nat.eqb i j); reflexivity.
Qed.

(** With [max_retries - retries] passes or more the cut never comes
    into play: any such number of passes gives the same run. *)
Lemma retry_passes_fuel (t : string) (i N : nat) :
  forall (fuel : nat) (retries : Z) (s : state),
    (passes_left E retries <= fuel)%nat ->
    retry_passes E fuel t i N retries s
    = retry_passes E (passes_left E retries) t i N retries s.
Proof.
  induction fuel as [|fuel IH]; intros retries s Hle.
  - now replace (passes_left E retries) with O by lia.
  - rewrite (retry_passes_run (S fuel)), (retry_passes_run (passes_left E retries)).
    unfold passes_left in *.
    destruct (dict_get (config E) "max_retries") as [m|] eqn:Hm; auto.
    unfold int_lt. destruct (as_int m) as [R|] eqn:HR; auto.
    destruct (retries <? R) eqn:Hlt; auto.
    destruct (running s); auto. simpl andb. cbv iota.
    apply Z.ltb_lt in Hlt.
    destruct (Z.to_nat (R - retries)) as [|left] eqn:Hleft; [lia|].
    destruct (attempt_shape E t i N retries s)
      as (r & s1 & rest & Hrun & _ & _ & _ & Hnext).
    rewrite Hrun. destruct r as [[r'|]|e]; auto.
    rewrite (Hnext r' eq_refl).
    assert (Hl : left = Z.to_nat (R - (retries + 1))) by lia.
    apply (f_equal (after _)). rewrite IH by lia. now rewrite <- Hl.
Qed.

(** The loop is the loop cut off after the passes it has left, or
    after any larger number of passes. *)
Lemma retry_loop_passes (t : string) (i N : nat) :
  forall (fuel : nat) (retries : Z) (s : state),
    (passes_left E retries <= fuel)%nat ->
    retry_loop E t i N retries s = retry_passes E fuel t i N retries s.
Proof.
  induction fuel as [|fuel IH]; intros retries s Hle;
    rewrite retry_loop_run, retry_passes_run;
    unfold passes_left in Hle;
    destruct (dict_get (config E) "max_retries") as [m|] eqn:Hm; auto;
    unfold int_lt; destruct (as_int m) as [R|] eqn:HR; auto;
    destruct (retries <? R) eqn:Hlt; auto;
    destruct (running s); auto; simpl andb; cbv iota;
    apply Z.ltb_lt in Hlt; [lia|].
  destruct (attempt_shape E t i N retries s)
    as (r & s1 & rest & Hrun & _ & _ & _ & Hnext).
  rewrite Hrun. destruct r as [[r'|]|e]; auto.
  rewrite (Hnext r' eq_refl).
  apply (f_equal (after _)). apply IH.
  unfold passes_left. rewrite Hm, HR. lia.
Qed.

(** * The loop over the terms *)

Lemma passes_zero : passes E = passes_left E 0.
Proof. reflexivity. Qed.

Lemma passes_limit (m : value) (R : Z) :
  dict_get (config E) "max_retries" = Some m ->
  as_int m = Some R ->
  passes E = Z.to_nat R.
Proof.
  intros Hm HR. unfold passes, passes_left. now rewrite Hm, HR, Z.sub_0_r.
Qed.

Lemma for_terms_cons (i N : nat) (t : string) (rest : list string) (s : state) :
  for_terms E i N (t :: rest) s
  = if running s then
      match retry_passes E (passes E) t i N 0 s with
      | (Ok _, s1, t1) => after t1 (for_terms E (S i) N rest s1)
      | (Raise e, s1, t1) => (Raise e, s1, t1)
      end
    else update_status E cancelled_message s.
Proof.
  cbn [for_terms]. rewrite bind_get. destruct (running s); simpl; auto.
  rewrite bind_run, (retry_loop_passes t i N (passes E)); [reflexivity|].
  now rewrite passes_zero.
Qed.

(** The loop calls [single_search] only for indices from [i] on, for
    each at most [passes] times, and keeps the session local. *)
Lemma for_terms_calls (N : nat) (terms : list string) :
  forall (i : nat) (s : state),
    let x := for_terms E i N terms s in
    driver (final x) = driver s /\
    (forall j, (j < i)%nat -> attempts_at j (trace x) = O) /\
    (forall j, (attempts_at j (trace x) <= passes E)%nat) /\
    (attempts s <= attempts (final x))%nat.
Proof.
  induction terms as [|t rest IH]; intros i s x; subst x.
  - unfold final, trace, attempts_at; simpl. repeat split; intros; auto; lia.
  - rewrite for_terms_cons. destruct (running s).
    + destruct (retry_passes_calls (passes E) t i N 0 s) as (Hd & Hj & Hle & Hn).
      destruct (retry_passes E (passes E) t i N 0 s) as [[[[]|e] s1] t1];
        unfold final, trace in Hd, Hj, Hle, Hn; simpl in Hd, Hj, Hle, Hn.
      * destruct (IH (S i) s1) as (IHd & IHj & IHle & IHn).
        rewrite final_after, trace_after. repeat split.
        -- congruence.
        -- intros j Hlt. rewrite attempts_at_app, Hj, IHj; lia.
        -- intros j. rewrite attempts_at_app.
           destruct (Nat.eq_dec j i) as [->|Hne].
           ++ rewrite (IHj i); lia.
           ++ rewrite (Hj j Hne). apply IHle.
        -- lia.
      * unfold final, trace; simpl. repeat split; auto; try lia.
        -- intros j Hlt. apply Hj. lia.
        -- intros j. destruct (Nat.eq_dec j i) as [->|Hne]; auto.
           rewrite (Hj j Hne). lia.
    + rewrite update_status_run. unfold final, trace, attempts_at; simpl.
      repeat split; intros; auto; lia.
Qed.


(** With the limit [R], when every search times out and nobody cancels,
    each term gets its [R] passes in turn and the loop ends normally. *)
Lemma for_terms_timeouts (N : nat) (R : Z) :
  dict_get (config E) "max_retries" = Some (PyInt R) ->
  (forall n u, exists e, browse E n u = Raise e /\ exn_cls e = TimeoutException) ->
  (forall n msg, status_callback E n msg true = true) ->
  forall (terms : list string) (i : nat) (s : state),
    running s = true ->
    for_terms E i N terms s
    = (Ok tt, advance (List.length terms * Z.to_nat R) s, all_timeouts terms i N R).
Proof.
  intros Hm Hto Hcb. induction terms as [|t rest IH]; intros i s Hrun.
  - simpl. destruct s; reflexivity.
  - rewrite for_terms_cons, Hrun.
    rewrite (retry_passes_timeouts t i N R Hm (Z.to_nat R)); auto.
    + rewrite IH by exact Hrun. cbn [all_timeouts].
      unfold after, outcome, final, trace, advance; simpl. do 2 f_equal.
      f_equal; lia.
    + now rewrite Z.sub_0_r.
    + unfold passes, passes_left. rewrite Hm. simpl. lia.
Qed.

Lemma attempts_at_all_timeouts (N : nat) (R : Z) (j : nat) :
  forall (terms : list string) (i : nat),
    attempts_at j (all_timeouts terms i N R)
    = if ((i <=? j) && (j <? i + List.length terms))%nat then Z.to_nat R else O.
Proof.
  induction terms as [|t rest IH]; intros i; cbn [all_timeouts List.length].
  - replace (j <? i + 0)%nat with (negb (i <=? j)%nat).
    + now destruct (i <=? j)%nat.
    + rewrite Nat.add_0_r, Nat.ltb_antisym. reflexivity.
  - rewrite attempts_at_app, attempts_at_timeout_passes, IH.
    destruct (Nat.eqb_spec i j) as [->|Hne].
    + assert (H1 : (S j <=? j)%nat = false) by (apply Nat.leb_gt; lia).
      assert (H2 : (j <=? j)%nat = true) by (apply Nat.leb_le; lia).
      assert (H3 : (j <? j + S (List.length rest))%nat = true)
        by (apply Nat.ltb_lt; lia).
      rewrite H1, H2, H3. simpl. lia.
    + destruct (Nat.leb_spec (S i) j), (Nat.leb_spec i j); try lia; simpl; auto.
      replace (i + S (List.length rest))%nat with (S i + List.length rest)%nat
        by lia.
      reflexivity.
Qed.

(** With a limit of zero the loop never enters a retry loop: it goes
    through the terms without an event, or stops at the first term with
    the cancellation report. *)
Lemma for_terms_no_retries (N : nat) (m : value) :
  dict_get (config E) "max_retries" = Some m ->
  as_int m = Some 0 ->
  forall (terms : list string) (i : nat) (s : state),
    for_terms E i N terms s
    = match terms with
      | [] => (Ok tt, s, [])
      | _ :: _ =>
          if running s then (Ok tt, s, [])
          else update_status E cancelled_message s
      end.
Proof.
  intros Hm Hz. induction terms as [|t rest IH]; intros i s; auto.
  rewrite for_terms_cons. destruct (running s) eqn:Hrun; auto.
  rewrite retry_passes_run, Hm. unfold int_lt. rewrite Hz. simpl.
  rewrite IH. destruct rest; auto. now rewrite Hrun.
Qed.

End LoopFacts.

(** * perform_search *)

Section SearchFacts.

Variable E : env.

Import BingSearchAutomation.

Lemma try_finally_cleanup {A : Type} (body : M A) (total : nat) (s : state) :
  try_finally body (cleanup E total) s
  = (outcome (body s),
     reported E total (final (body s)),
     trace (body s)
     ++ (if driver (final (body s)) then [Quit] else [])
     ++ [Status (completed_message (completed_searches (final (body s))) total)])%list.
Proof.
  unfold try_finally. destruct (body s) as [[r s1] t1].
  rewrite cleanup_run. reflexivity.
Qed.

Lemma read_searches_run (search_file : string) (terms : list string) (s : state) :
  terms_of E search_file = Some terms ->
  read_searches E search_file s = (Ok terms, s, [ReadFile search_file]).
Proof.
  unfold terms_of, read_searches, try_except. rewrite bind_emit.
  destruct (read_text E search_file) as [text|e]; [|discriminate].
  intros H; injection H as <-. now rewrite bind_lift_ok.
Qed.

Lemma setup_driver_opens (driver_path : string) (s : state) :
  session_opens E driver_path = true ->
  setup_driver E driver_path s = (Ok tt, s, opening E driver_path).
Proof.
  unfold session_opens, setup_driver, opening, config_get.
  destruct (dict_get (config E) "headless_mode") as [h|]; [|discriminate].
  destruct (dict_get (config E) "page_load_timeout") as [t|]; [|discriminate].
  rewrite bind_ret. unfold try_except.
  destruct (edge E driver_path (truthy h)) as [[]|e]; [|discriminate].
  rewrite bind_lift_ok, bind_emit, bind_ret.
  destruct (set_page_load_timeout E t) as [[]|e]; [|discriminate].
  now rewrite bind_lift_ok.
Qed.

(** When [setup_driver] does not return it raises, and by then it has
    opened no session or opened one that it does not hand over. *)
Lemma setup_driver_fails (driver_path : string) (s : state) :
  session_opens E driver_path = false ->
  exists e t,
    setup_driver E driver_path s = (Raise e, s, t) /\
    (t = [] \/ exists h, t = [SessionOpened driver_path h]).
Proof.
  unfold session_opens, setup_driver, config_get.
  destruct (dict_get (config E) "headless_mode") as [h|];
    [|intros _; do 2 eexists; split; [reflexivity | now left]].
  rewrite bind_ret. unfold try_except.
  destruct (edge E driver_path (truthy h)) as [[]|e].
  - rewrite bind_lift_ok, bind_emit.
    destruct (dict_get (config E) "page_load_timeout") as [t|].
    + rewrite bind_ret.
      destruct (set_page_load_timeout E t) as [[]|e]; [discriminate|].
      intros _. rewrite bind_lift_raise. simpl.
      destruct (isinstance e Exception); simpl;
        do 2 eexists; (split; [reflexivity | right; eauto]).
    + intros _. simpl. do 2 eexists. split; [reflexivity | right; eauto].
  - intros _. rewrite bind_lift_raise. simpl.
    destruct (isinstance e Exception); simpl;
      do 2 eexists; (split; [reflexivity | now left]).
Qed.

(** With both files in place and a term to search, [perform_search]
    is its [try] statement run after the file was read. *)
Lemma perform_search_run (search_file driver_path : string)
      (t : string) (ts : list string) (s : state) :
  isfile E search_file = true ->
  isfile E driver_path = true ->
  terms_of E search_file = Some (t :: ts) ->
  perform_search E search_file driver_path s
  = after [ReadFile search_file]
      (try_finally
         (setup_driver E driver_path ;;;
          modify (set_driver true) ;;;
          for_terms E 1 (List.length (t :: ts)) (t :: ts))
         (cleanup E (List.length (t :: ts)))
         (entering s)).
Proof.
  intros Hs Hd Ht. unfold perform_search. cbn [map forallb].
  rewrite Hs, Hd. cbn [andb negb].
  rewrite bind_run, (read_searches_run _ _ _ Ht).
  now rewrite !bind_modify.
Qed.

(** The run once [setup_driver] has returned the session: the loop,
    then [quit], then the closing report. *)
Lemma perform_search_opened (search_file driver_path : string)
      (t : string) (ts : list string) (s : state) :
  isfile E search_file = true ->
  isfile E driver_path = true ->
  terms_of E search_file = Some (t :: ts) ->
  session_opens E driver_path = true ->
  let total := List.length (t :: ts) in
  let x := for_terms E 1 total (t :: ts) (looping s) in
  perform_search E search_file driver_path s
  = (outcome x,
     reported E total (final x),
     ReadFile search_file :: opening E driver_path ++ trace x
     ++ [Quit; Status (completed_message (completed_searches (final x)) total)])%list.
Proof.
  intros Hs Hd Ht Ho total x.
  rewrite (perform_search_run _ _ _ _ _ Hs Hd Ht), try_finally_cleanup.
  rewrite bind_run, (setup_driver_opens _ _ Ho), bind_modify.
  fold total. fold (looping s). fold x.
  rewrite final_after, outcome_after, trace_after.
  destruct (for_terms_calls E total (t :: ts) 1 (looping s)) as (Hdr & _).
  fold x in Hdr. rewrite Hdr. simpl driver. cbv iota.
  unfold after, outcome, final, trace. simpl. now rewrite <- app_assoc.
Qed.

(** The run when [setup_driver] raises: nothing is quit, the closing
    report is still made. *)
Lemma perform_search_not_opened (search_file driver_path : string)
      (t : string) (ts : list string) (s : state) :
  isfile E search_file = true ->
  isfile E driver_path = true ->
  terms_of E search_file = Some (t :: ts) ->
  session_opens E driver_path = false ->
  let total := List.length (t :: ts) in
  exists e tr,
    (tr = [] \/ exists h, tr = [SessionOpened driver_path h]) /\
    perform_search E search_file driver_path s
    = (Raise e, reported E total (entering s),
       ReadFile search_file :: tr ++ [Status (completed_message 0 total)])%list.
Proof.
  intros Hs Hd Ht Ho total.
  destruct (setup_driver_fails driver_path (entering s) Ho) as (e & tr & Hrun & Htr).
  exists e, tr. split; auto.
  rewrite (perform_search_run _ _ _ _ _ Hs Hd Ht), try_finally_cleanup.
  rewrite bind_run, Hrun. reflexivity.
Qed.

End SearchFacts.

(** * Traces of whole runs *)

Lemma last_event_closing (a z : event) (l1 l2 l3 : list event) :
  last_event (a :: l1 ++ l2 ++ l3 ++ [z]) = Some z.
Proof.
  unfold last_event. simpl. rewrite !rev_app_distr. reflexivity.
Qed.

Lemma attempts_at_opening (E : env) (driver_path : string) (j : nat) :
  attempts_at j (opening E driver_path) = O.
Proof.
  unfold opening.
  destruct (dict_get (config E) "headless_mode"),
           (dict_get (config E) "page_load_timeout"); reflexivity.
Qed.

Lemma opening_no_retry_event (E : env) (driver_path : string) :
  forallb (fun ev => negb (is_retry_event ev)) (opening E driver_path) = true.
Proof.
  unfold opening.
  destruct (dict_get (config E) "headless_mode"),
           (dict_get (config E) "page_load_timeout"); reflexivity.
Qed.

Section NeverLoads.

Variable E : env.

Hypothesis Hnever : forall n u, exists e, browse E n u = Raise e.

Import BingSearchAutomation.

(** When no search gets an answer from the browser, none is
    completed. *)
Lemma attempt_never (t : string) (i N : nat) (retries : Z) (s : state) :
  completed_searches (final (attempt E t i N retries s)) = completed_searches s.
Proof.
  unfold attempt, try_except. rewrite bind_run, single_search_run.
  destruct (Hnever (attempts s) t) as (e & ->). simpl.
  destruct (isinstance e TimeoutException).
  - unfold config_get.
    destruct (dict_get (config E) "max_retries") as [m|]; simpl; auto.
    rewrite bind_ret, bind_update_status, bind_ret.
    destruct (int_eq (retries + 1) m); reflexivity.
  - destruct (isinstance e WebDriverException); reflexivity.
Qed.

Lemma retry_passes_never (fuel : nat) (t : string) (i N : nat) :
  forall (retries : Z) (s : state),
    completed_searches (final (retry_passes E fuel t i N retries s))
    = completed_searches s.
Proof.
  induction fuel as [|fuel IH]; intros retries s;
    rewrite retry_passes_run;
    (destruct (dict_get (config E) "max_retries") as [m|];
     [destruct (int_lt retries m) as [c|e];
      [destruct (c && running s)|]|]);
    try reflexivity.
  pose proof (attempt_never t i N retries s) as Hc.
  destruct (attempt E t i N retries s) as [[[[r'|]|e] s1] t1];
    unfold final in Hc; cbn [fst snd] in Hc; try exact Hc.
  rewrite final_after, IH. exact Hc.
Qed.

Lemma for_terms_never (N : nat) (terms : list string) :
  forall (i : nat) (s : state),
    completed_searches (final (for_terms E i N terms s)) = completed_searches s.
Proof.
  induction terms as [|t rest IH]; intros i s; [reflexivity|].
  rewrite for_terms_cons. destruct (running s); [|reflexivity].
  pose proof (retry_passes_never (passes E) t i N 0 s) as Hc.
  destruct (retry_passes E (passes E) t i N 0 s) as [[[[]|e] s1] t1];
    unfold final in Hc; cbn [fst snd] in Hc; try exact Hc.
  rewrite final_after, IH. exact Hc.
Qed.

End NeverLoads.

(** C1 as stated fails: it takes more than timeouts for each term to
    get its [R] attempts.  Here every call of [single_search] times out
    and [max_retries] is 3, but the callback clears the flag at the
    first report: "cats" is attempted once, "dogs" never. *)
Lemma perform_search_all_timeouts_cancelled :
  let E := sample_env_with Config.DEFAULT_CONFIG ["terms.txt"; "msedgedriver.exe"]
                           cats_dogs_blank times_out (cancel_at 0) in
  let x := BingSearchAutomation.perform_search E "terms.txt" "msedgedriver.exe" fresh in
  BingSearchAutomation.terms_of E "terms.txt" = Some ["cats"; "dogs"] /\
  dict_get (config E) "max_retries" = Some (PyInt 3) /\
  (forall n u, exists e, browse E n u = Raise e /\ exn_cls e = TimeoutException) /\
  trace x
  = [ ReadFile "terms.txt";
      SessionOpened "msedgedriver.exe" false;
      PageLoadTimeoutSet (PyInt 30);
      SearchAttempt "cats" 1 2;
      Status "Timeout en 'cats'. Reintento 1/3";
      Status "Proceso cancelado por el usuario";
      Quit;
      Status "Completadas 0/2 búsquedas" ] /\
  attempts_at 1 (trace x) = 1%nat /\
  attempts_at 2 (trace x) = 0%nat.
Proof.
  repeat split. intros n u. eexists. split; reflexivity.
Qed.

(** C1, amended. With a non-empty list of [N] terms and
    [max_retries = R], when every call of [single_search] times out,
    no search is completed, no term is attempted more than [R] times and
    the last report of [perform_search] is "Completadas 0/N búsquedas".
    If moreover the session opens, the flag is set at the start and no
    report clears it, [perform_search] returns normally and has called
    [single_search] exactly [R] times for each of the [N] terms. *)
Theorem perform_search_all_timeouts :
  forall (E : env) (search_file driver_path : string)
         (terms : list string) (R : Z) (s : state),
    isfile E search_file = true ->
    isfile E driver_path = true ->
    BingSearchAutomation.terms_of E search_file = Some terms ->
    terms <> [] ->
    dict_get (config E) "max_retries" = Some (PyInt R) ->
    0 <= R ->
    (forall n u, exists e, browse E n u = Raise e /\ exn_cls e = TimeoutException) ->
    let x := BingSearchAutomation.perform_search E search_file driver_path s in
    let N := List.length terms in
    (completed_searches (final x) = 0 /\
     (forall i, Z.of_nat (attempts_at i (trace x)) <= R) /\
     last_event (trace x)
     = Some (Status (BingSearchAutomation.completed_message 0 N))) /\
    (BingSearchAutomation.session_opens E driver_path = true ->
     running s = true ->
     (forall n msg, status_callback E n msg true = true) ->
     outcome x = Ok tt /\
     forall i, (1 <= i <= N)%nat -> Z.of_nat (attempts_at i (trace x)) = R).
Proof.
  intros E sf dp terms R s Hs Hd Ht Hne Hm HR Hto x N. subst x N.
  destruct terms as [|t ts]; [congruence|].
  assert (Hnever : forall n u, exists e, browse E n u = Raise e).
  { intros n u. destruct (Hto n u) as (e & He & _). eauto. }
  split.
  - destruct (BingSearchAutomation.session_opens E dp) eqn:Ho.
    + rewrite (perform_search_opened E sf dp t ts s Hs Hd Ht Ho).
      set (N := List.length (t :: ts)).
      pose proof (for_terms_never E Hnever N (t :: ts) 1 (looping s)) as Hc.
      destruct (for_terms_calls E N (t :: ts) 1 (looping s)) as (_ & _ & Hle & _).
      rewrite (passes_limit E (PyInt R) R Hm eq_refl) in Hle.
      set (loop := BingSearchAutomation.for_terms E 1 N (t :: ts) (looping s)) in *.
      change (completed_searches (looping s)) with 0 in Hc.
      unfold trace at 1 2, final at 1. cbn [fst snd].
      change (completed_searches (reported E N (final loop)))
        with (completed_searches (final loop)).
      rewrite Hc. split; [reflexivity|]. split.
      * intros i. change (ReadFile sf :: ?l) with ([ReadFile sf] ++ l)%list.
        rewrite !attempts_at_app, attempts_at_opening.
        specialize (Hle i). unfold attempts_at at 1 3. simpl. lia.
      * change [Quit; Status ?m] with ([Quit] ++ [Status m])%list.
        apply last_event_closing.
    + destruct (perform_search_not_opened E sf dp t ts s Hs Hd Ht Ho)
        as (e & tr & Htr & Hrun).
      rewrite Hrun. unfold trace, final. cbn [fst snd].
      split; [reflexivity|]. split.
      * intros i. destruct Htr as [-> | [h ->]]; unfold attempts_at; simpl; lia.
      * destruct Htr as [-> | [h ->]]; reflexivity.
  - intros Ho Hrun Hcb.
    rewrite (perform_search_opened E sf dp t ts s Hs Hd Ht Ho).
    rewrite (for_terms_timeouts E _ R Hm Hto Hcb (t :: ts) 1 (looping s) Hrun).
    unfold outcome, trace, final. cbn [fst snd].
    split; [reflexivity|].
    intros i Hi.
    change (ReadFile sf :: ?l) with ([ReadFile sf] ++ l)%list.
    rewrite !attempts_at_app, attempts_at_opening, attempts_at_all_timeouts.
    replace ((1 <=? i)%nat && (i <? 1 + List.length (t :: ts))%nat) with true.
    + unfold attempts_at. simpl. lia.
    + symmetry. apply andb_true_intro. split.
      * apply Nat.leb_le; lia.
      * apply Nat.ltb_lt; lia.
Qed.

Lemma perform_search_all_timeouts_witness :
  let E := sample_env Config.DEFAULT_CONFIG ["terms.txt"; "msedgedriver.exe"]
                      cats_dogs_blank accepts times_out in
  let x := BingSearchAutomation.perform_search E "terms.txt" "msedgedriver.exe" fresh in
  (completed_searches (final x) = 0 /\
   (forall i, Z.of_nat (attempts_at i (trace x)) <= 3) /\
   last_event (trace x)
   = Some (Status (BingSearchAutomation.completed_message 0 2))) /\
  (outcome x = Ok tt /\
   forall i, (1 <= i <= 2)%nat -> Z.of_nat (attempts_at i (trace x)) = 3).
Proof.
  destruct (perform_search_all_timeouts
              (sample_env Config.DEFAULT_CONFIG ["terms.txt"; "msedgedriver.exe"]
                          cats_dogs_blank accepts times_out)
              "terms.txt" "msedgedriver.exe" ["cats"; "dogs"] 3 fresh)
    as (Hany & Hrun);
    try reflexivity.
  - discriminate.
  - lia.
  - intros n u. eexists. split; reflexivity.
  - split; [exact Hany|]. apply Hrun; reflexivity.
Defined.

(** C6. When the driver path or the search file is not an existing
    file, [perform_search] raises [FileNotFoundError] at once: nothing
    is read, no session is opened, the state is untouched. *)
Theorem perform_search_missing_file :
  forall (E : env) (search_file driver_path : string) (s : state),
    isfile E driver_path = false \/ isfile E search_file = false ->
    BingSearchAutomation.perform_search E search_file driver_path s
    = (Raise BingSearchAutomation.not_found, s, []).
Proof.
  intros E sf dp s H. unfold BingSearchAutomation.perform_search.
  cbn [map forallb].
  destruct H as [H|H]; rewrite H; [destruct (isfile E sf)|]; reflexivity.
Qed.

Lemma perform_search_missing_file_witness :
  BingSearchAutomation.perform_search
    (sample_env Config.DEFAULT_CONFIG ["terms.txt"] cats_dogs_blank accepts loads)
    "terms.txt" "msedgedriver.exe" fresh
  = (Raise (mk_exn FileNotFoundError
              "Archivo de búsquedas o WebDriver no encontrado"), fresh, []).
Proof.
  apply (perform_search_missing_file
           (sample_env Config.DEFAULT_CONFIG ["terms.txt"] cats_dogs_blank
                       accepts loads)
           "terms.txt" "msedgedriver.exe" fresh).
  left. reflexivity.
Defined.

(** C3 as stated fails: with the flag already cleared a session is
    opened all the same, since [setup_driver] runs before the loop looks
    at the flag. *)
Lemma perform_search_cancelled_opens_session :
  let E := sample_env Config.DEFAULT_CONFIG ["terms.txt"; "msedgedriver.exe"]
                      cats_dogs_blank accepts loads in
  let x := BingSearchAutomation.perform_search E "terms.txt" "msedgedriver.exe"
                                               cancelled in
  running cancelled = false /\
  BingSearchAutomation.terms_of E "terms.txt" = Some ["cats"; "dogs"] /\
  trace x
  = [ ReadFile "terms.txt";
      SessionOpened "msedgedriver.exe" false;
      PageLoadTimeoutSet (PyInt 30);
      Status "Proceso cancelado por el usuario";
      Quit;
      Status "Completadas 0/2 búsquedas" ] /\
  existsb is_session_opened (trace x) = true.
Proof. repeat split. Qed.

(** C3, amended. With a non-empty term list and the flag false when
    [perform_search] starts, the run opens the session, reports the
    cancellation, closes the session and reports 0 of N: no term is
    completed and [single_search] is never called. *)
Theorem perform_search_cancelled :
  forall (E : env) (search_file driver_path : string)
         (terms : list string) (s : state),
    isfile E search_file = true ->
    isfile E driver_path = true ->
    BingSearchAutomation.terms_of E search_file = Some terms ->
    terms <> [] ->
    BingSearchAutomation.session_opens E driver_path = true ->
    running s = false ->
    let x := BingSearchAutomation.perform_search E search_file driver_path s in
    let N := List.length terms in
    outcome x = Ok tt /\
    completed_searches (final x) = 0 /\
    trace x
    = (ReadFile search_file :: opening E driver_path
       ++ [ Status BingSearchAutomation.cancelled_message;
            Quit;
            Status (BingSearchAutomation.completed_message 0 N) ])%list /\
    (forall i, attempts_at i (trace x) = O).
Proof.
  intros E sf dp terms s Hs Hd Ht Hne Ho Hrun x N. subst x N.
  destruct terms as [|t ts]; [congruence|].
  rewrite (perform_search_opened E sf dp t ts s Hs Hd Ht Ho).
  rewrite for_terms_cons. cbn [looping entering set_driver set_completed running].
  rewrite Hrun, update_status_run.
  unfold outcome, trace, final. cbn [fst snd].
  repeat split.
  intros i. change (ReadFile sf :: ?l) with ([ReadFile sf] ++ l)%list.
  rewrite !attempts_at_app, attempts_at_opening. reflexivity.
Qed.

Lemma perform_search_cancelled_witness :
  let E := sample_env Config.DEFAULT_CONFIG ["terms.txt"; "msedgedriver.exe"]
                      cats_dogs_blank accepts loads in
  let x := BingSearchAutomation.perform_search E "terms.txt" "msedgedriver.exe"
                                               cancelled in
  outcome x = Ok tt /\
  completed_searches (final x) = 0 /\
  trace x
  = (ReadFile "terms.txt" :: opening E "msedgedriver.exe"
     ++ [ Status BingSearchAutomation.cancelled_message;
          Quit;
          Status (BingSearchAutomation.completed_message 0 2) ])%list /\
  (forall i, attempts_at i (trace x) = O).
Proof.
  apply (perform_search_cancelled
           (sample_env Config.DEFAULT_CONFIG ["terms.txt"; "msedgedriver.exe"]
                       cats_dogs_blank accepts loads)
           "terms.txt" "msedgedriver.exe" ["cats"; "dogs"] cancelled);
    try reflexivity.
  discriminate.
Defined.

(** C10. With a non-empty term list and [max_retries] equal to 0,
    [perform_search] never calls [single_search]: the test of every
    retry loop fails at once, so the trace holds no attempt, no timeout
    report and no error log, nothing is completed, and the last report
    is "Completadas 0/N búsquedas".  When the session opens and the flag
    is set, the run goes through all the terms and returns normally:
    between the opening and the closing of the session nothing
    happens. *)
Theorem perform_search_no_retries :
  forall (E : env) (search_file driver_path : string)
         (terms : list string) (m : value) (s : state),
    isfile E search_file = true ->
    isfile E driver_path = true ->
    BingSearchAutomation.terms_of E search_file = Some terms ->
    terms <> [] ->
    dict_get (config E) "max_retries" = Some m ->
    as_int m = Some 0 ->
    let x := BingSearchAutomation.perform_search E search_file driver_path s in
    let N := List.length terms in
    (forall i, attempts_at i (trace x) = O) /\
    forallb (fun ev => negb (is_retry_event ev)) (trace x) = true /\
    completed_searches (final x) = 0 /\
    last_event (trace x)
    = Some (Status (BingSearchAutomation.completed_message 0 N)) /\
    (BingSearchAutomation.session_opens E driver_path = true ->
     running s = true ->
     outcome x = Ok tt /\
     trace x
     = (ReadFile search_file :: opening E driver_path
        ++ [Quit; Status (BingSearchAutomation.completed_message 0 N)])%list).
Proof.
  intros E sf dp terms m s Hs Hd Ht Hne Hm Hz x N. subst x N.
  destruct terms as [|t ts]; [congruence|].
  assert (Hgoes :
            BingSearchAutomation.session_opens E dp = true ->
            running s = true ->
            outcome (BingSearchAutomation.perform_search E sf dp s) = Ok tt /\
            trace (BingSearchAutomation.perform_search E sf dp s)
            = (ReadFile sf :: opening E dp
               ++ [Quit;
                   Status (BingSearchAutomation.completed_message
                             0 (List.length (t :: ts)))])%list).
  { intros Ho Hrun.
    rewrite (perform_search_opened E sf dp t ts s Hs Hd Ht Ho).
    rewrite (for_terms_no_retries E _ m Hm Hz).
    change (running (looping s)) with (running s). rewrite Hrun.
    split; reflexivity. }
  revert Hgoes.
  set (x := BingSearchAutomation.perform_search E sf dp s).
  intros Hgoes.
  enough (Hnone :
            (forall i, attempts_at i (trace x) = O) /\
            forallb (fun ev => negb (is_retry_event ev)) (trace x) = true /\
            completed_searches (final x) = 0 /\
            last_event (trace x)
            = Some (Status (BingSearchAutomation.completed_message
                              0 (List.length (t :: ts)))))
    by (destruct Hnone as (H1 & H2 & H3 & H4); repeat split; auto;
        apply Hgoes; auto).
  clear Hgoes. subst x.
  destruct (BingSearchAutomation.session_opens E dp) eqn:Ho.
  - rewrite (perform_search_opened E sf dp t ts s Hs Hd Ht Ho).
    rewrite (for_terms_no_retries E _ m Hm Hz).
    cbv iota.
    assert (Hloop :
              exists s1 tr,
                (if running (looping s)
                 then (Ok tt, looping s, [])
                 else BingSearchAutomation.update_status
                        E BingSearchAutomation.cancelled_message (looping s))
                = (Ok tt, s1, tr)
                /\ completed_searches s1 = 0
                /\ (tr = [] \/ tr = [Status BingSearchAutomation.cancelled_message])).
    { destruct (running (looping s)); do 2 eexists; repeat split; auto. }
    destruct Hloop as (s1 & tr & Hrun & Hc & Htr). rewrite Hrun.
    unfold outcome, trace, final. cbn [fst snd]. rewrite Hc.
    repeat split.
    + intros i. change (ReadFile sf :: ?l) with ([ReadFile sf] ++ l)%list.
      rewrite !attempts_at_app, attempts_at_opening.
      destruct Htr as [-> | ->]; reflexivity.
    + change (ReadFile sf :: ?l) with ([ReadFile sf] ++ l)%list.
      rewrite !forallb_app, opening_no_retry_event.
      destruct Htr as [-> | ->]; reflexivity.
    + exact Hc.
    + change [Quit; Status ?c] with ([Quit] ++ [Status c])%list.
      apply last_event_closing.
  - destruct (perform_search_not_opened E sf dp t ts s Hs Hd Ht Ho)
      as (e & tr & Htr & Hrun).
    rewrite Hrun. unfold outcome, trace, final. cbn [fst snd].
    repeat split.
    + intros i. destruct Htr as [-> | [h ->]]; reflexivity.
    + destruct Htr as [-> | [h ->]]; reflexivity.
    + destruct Htr as [-> | [h ->]]; reflexivity.
Qed.

Lemma perform_search_no_retries_witness :
  let E := sample_env (dict_merge Config.DEFAULT_CONFIG [("max_retries", PyInt 0)])
                      ["terms.txt"; "msedgedriver.exe"]
                      cats_dogs_blank accepts loads in
  let x := BingSearchAutomation.perform_search E "terms.txt" "msedgedriver.exe" fresh in
  (forall i, attempts_at i (trace x) = O) /\
  forallb (fun ev => negb (is_retry_event ev)) (trace x) = true /\
  completed_searches (final x) = 0 /\
  last_event (trace x)
  = Some (Status (BingSearchAutomation.completed_message 0 2)) /\
  outcome x = Ok tt /\
  trace x
  = [ ReadFile "terms.txt";
      SessionOpened "msedgedriver.exe" false;
      PageLoadTimeoutSet (PyInt 30);
      Quit;
      Status "Completadas 0/2 búsquedas" ].
Proof.
  destruct (perform_search_no_retries
              (sample_env (dict_merge Config.DEFAULT_CONFIG
                                      [("max_retries", PyInt 0)])
                          ["terms.txt"; "msedgedriver.exe"]
                          cats_dogs_blank accepts loads)
              "terms.txt" "msedgedriver.exe" ["cats"; "dogs"] (PyInt 0) fresh)
    as (Hnone & Hquiet & Hzero & Hlast & Hgoes);
    try reflexivity.
  - discriminate.
  - repeat split; auto; apply Hgoes; reflexivity.
Defined.

(** Once [setup_driver] has returned the session, every way out of
    [perform_search] goes through the same end: whether the loop over
    the terms ends normally, is cancelled, or raises, the run's outcome
    is the loop's outcome (whatever [quit] does: an error in it is
    swallowed), and after the loop's events come [quit] and the report
    "Completadas c/N búsquedas", [c] being the searches completed. *)
Lemma perform_search_closes_returned_session :
  forall (E : env) (search_file driver_path : string)
         (terms : list string) (s : state),
    isfile E search_file = true ->
    isfile E driver_path = true ->
    BingSearchAutomation.terms_of E search_file = Some terms ->
    terms <> [] ->
    BingSearchAutomation.session_opens E driver_path = true ->
    let x := BingSearchAutomation.perform_search E search_file driver_path s in
    let N := List.length terms in
    let loop := BingSearchAutomation.for_terms E 1 N terms (looping s) in
    outcome x = outcome loop /\
    completed_searches (final x) = completed_searches (final loop) /\
    trace x
    = (ReadFile search_file :: opening E driver_path ++ trace loop
       ++ [ Quit;
            Status (BingSearchAutomation.completed_message
                      (completed_searches (final loop)) N) ])%list /\
    existsb is_session_opened (opening E driver_path) = true.
Proof.
  intros E sf dp terms s Hs Hd Ht Hne Ho x N loop. subst x N loop.
  destruct terms as [|t ts]; [congruence|].
  rewrite (perform_search_opened E sf dp t ts s Hs Hd Ht Ho).
  repeat split.
  unfold BingSearchAutomation.session_opens in Ho. unfold opening.
  destruct (dict_get (config E) "headless_mode"); [|discriminate].
  destruct (dict_get (config E) "page_load_timeout"); [|discriminate].
  reflexivity.
Qed.

Example perform_search_closes_returned_session_sample :
  let E := sample_env Config.DEFAULT_CONFIG ["terms.txt"; "msedgedriver.exe"]
                      cats_dogs_blank accepts crashes_third in
  let x := BingSearchAutomation.perform_search E "terms.txt" "msedgedriver.exe" fresh in
  let loop := BingSearchAutomation.for_terms E 1 2 ["cats"; "dogs"] (looping fresh) in
  outcome x = outcome loop /\
  completed_searches (final x) = completed_searches (final loop) /\
  trace x
  = (ReadFile "terms.txt" :: opening E "msedgedriver.exe" ++ trace loop
     ++ [ Quit;
          Status (BingSearchAutomation.completed_message
                    (completed_searches (final loop)) 2) ])%list /\
  existsb is_session_opened (opening E "msedgedriver.exe") = true.
Proof.
  apply (perform_search_closes_returned_session
           (sample_env Config.DEFAULT_CONFIG ["terms.txt"; "msedgedriver.exe"]
                       cats_dogs_blank accepts crashes_third)
           "terms.txt" "msedgedriver.exe" ["cats"; "dogs"] fresh);
    try reflexivity.
  discriminate.
Qed.

(** When the browser starts but refuses the page-load timeout,
    [setup_driver] raises without handing the session over: the [finally]
    block has no [driver] to quit and only makes its report. *)
Remark perform_search_setup_failure_after_launch :
  forall (E : env) (search_file driver_path : string)
         (t : string) (ts : list string) (s : state) (h v : value) (e : exn),
    isfile E search_file = true ->
    isfile E driver_path = true ->
    BingSearchAutomation.terms_of E search_file = Some (t :: ts) ->
    dict_get (config E) "headless_mode" = Some h ->
    dict_get (config E) "page_load_timeout" = Some v ->
    edge E driver_path (truthy h) = Ok tt ->
    set_page_load_timeout E v = Raise e ->
    isinstance e Exception = true ->
    BingSearchAutomation.perform_search E search_file driver_path s
    = (Raise (mk_exn Exception ("Error al configurar WebDriver: " ++ exn_msg e)),
       reported E (List.length (t :: ts)) (entering s),
       [ ReadFile search_file;
         SessionOpened driver_path (truthy h);
         Status (BingSearchAutomation.completed_message 0 (List.length (t :: ts))) ]).
Proof.
  intros E sf dp t ts s h v e Hs Hd Ht Hh Hv He Hset Hexn.
  rewrite (perform_search_run E sf dp t ts s Hs Hd Ht), try_finally_cleanup.
  assert (Hsetup :
            BingSearchAutomation.setup_driver E dp (entering s)
            = (Raise (mk_exn Exception ("Error al configurar WebDriver: " ++ exn_msg e)),
               entering s, [SessionOpened dp (truthy h)])).
  { unfold BingSearchAutomation.setup_driver, BingSearchAutomation.config_get.
    rewrite Hh, bind_ret. unfold try_except.
    rewrite He, bind_lift_ok, bind_emit, Hv, bind_ret, Hset, bind_lift_raise.
    simpl. rewrite Hexn. reflexivity. }
  rewrite bind_run, Hsetup. reflexivity.
Qed.

(** A pass whose search succeeds: one more search completed, and the
    loop is left. *)
Lemma attempt_success (E : env) (t : string) (i N : nat) (retries : Z)
      (s : state) (d : value) (w : Z * Z) :
  browse E (attempts s) t = Ok tt ->
  dict_get (config E) "search_delay" = Some d ->
  BingSearchAutomation.uniform_args d = Ok w ->
  BingSearchAutomation.time_sleep E (attempts s) (fst w) (snd w) = Ok tt ->
  status_callback E (reports s) (BingSearchAutomation.searching_message i N t)
                  (running s) = running s ->
  BingSearchAutomation.attempt E t i N retries s
  = (Ok None, found s,
     [ SearchAttempt t i N;
       Status (BingSearchAutomation.searching_message i N t);
       Sleep (fst w) (snd w) ]).
Proof.
  intros Hb Hd Hw Hsl Hcb. unfold BingSearchAutomation.attempt, try_except.
  rewrite bind_run, single_search_run, Hb, Hd, Hw, Hsl, Hcb. simpl.
  destruct s; reflexivity.
Qed.

(** A loop whose first search succeeds makes that one pass. *)
Lemma retry_passes_success (E : env) (fuel : nat) (t : string) (i N : nat) (R : Z)
      (s : state) (d : value) (w : Z * Z) :
  dict_get (config E) "max_retries" = Some (PyInt R) ->
  0 < R ->
  running s = true ->
  browse E (attempts s) t = Ok tt ->
  dict_get (config E) "search_delay" = Some d ->
  BingSearchAutomation.uniform_args d = Ok w ->
  BingSearchAutomation.time_sleep E (attempts s) (fst w) (snd w) = Ok tt ->
  status_callback E (reports s) (BingSearchAutomation.searching_message i N t)
                  true = true ->
  BingSearchAutomation.retry_passes E (S fuel) t i N 0 s
  = (Ok tt, found s,
     [ SearchAttempt t i N;
       Status (BingSearchAutomation.searching_message i N t);
       Sleep (fst w) (snd w) ]).
Proof.
  intros Hm HR Hrun Hb Hd Hw Hsl Hcb.
  rewrite retry_passes_run, Hm. unfold BingSearchAutomation.int_lt. cbn [as_int].
  assert (Hlt : (0 <? R) = true) by (apply Z.ltb_lt; lia).
  rewrite Hlt, Hrun. cbn [andb].
  rewrite (attempt_success E t i N 0 s d w Hb Hd Hw Hsl); [reflexivity|].
  now rewrite Hrun.
Qed.

(** The terms are the stripped lines that are not empty. *)
Lemma stripped_lines_filter (lines : list string) :
  Str.stripped_lines lines
  = filter (fun line => negb (Str.is_empty line)) (map Str.strip lines).
Proof.
  unfold Str.stripped_lines. induction lines as [|l lines IH]; simpl; auto.
  destruct (Str.is_empty (Str.strip l)); simpl; now rewrite IH.
Qed.





(** * Sample runs *)

(** One term, two timeouts, then a page that loads: two timeout
    reports, one search, "Completadas 1/1 búsquedas". *)
Example weather_loads_third_time :
  trace (BingSearchAutomation.perform_search
           (sample_env Config.DEFAULT_CONFIG ["terms.txt"; "msedgedriver.exe"]
                       ("weather" ++ newline) accepts loads_third)
           "terms.txt" "msedgedriver.exe" fresh)
  = [ ReadFile "terms.txt";
      SessionOpened "msedgedriver.exe" false;
      PageLoadTimeoutSet (PyInt 30);
      SearchAttempt "weather" 1 1;
      Status "Timeout en 'weather'. Reintento 1/3";
      SearchAttempt "weather" 1 1;
      Status "Timeout en 'weather'. Reintento 2/3";
      SearchAttempt "weather" 1 1;
      Status "Buscando (1/1): weather";
      Sleep 3 7;
      Quit;
      Status "Completadas 1/1 búsquedas" ].
Proof. reflexivity. Qed.

(** A delay window of negative numbers: the first search is made and
    reported, then [time.sleep] raises [ValueError], which ends the run
    with nothing completed. *)
Example negative_delay_window_ends_the_run :
  let x := BingSearchAutomation.perform_search
             (sample_env (dict_merge Config.DEFAULT_CONFIG
                                     [("search_delay", PyList [PyInt (-5); PyInt (-1)])])
                         ["terms.txt"; "msedgedriver.exe"]
                         cats_dogs_blank accepts loads)
             "terms.txt" "msedgedriver.exe" fresh in
  outcome x = Raise (mk_exn ValueError "sleep length must be non-negative") /\
  trace x
  = [ ReadFile "terms.txt";
      SessionOpened "msedgedriver.exe" false;
      PageLoadTimeoutSet (PyInt 30);
      SearchAttempt "cats" 1 2;
      Status "Buscando (1/2): cats";
      Quit;
      Status "Completadas 0/2 búsquedas" ].
Proof. split; reflexivity. Qed.

(** Two timeouts, then a WebDriver error: the third call is the last,
    the error is logged and raised, the session is closed. *)
Example browser_crashes_third_time :
  BingSearchAutomation.perform_search
    (sample_env Config.DEFAULT_CONFIG ["terms.txt"; "msedgedriver.exe"]
                cats_dogs_blank accepts crashes_third)
    "terms.txt" "msedgedriver.exe" fresh
  = (Raise (mk_exn WebDriverException "disconnected: not connected to DevTools"),
     mk_state true true 0 3 3,
     [ ReadFile "terms.txt";
       SessionOpened "msedgedriver.exe" false;
       PageLoadTimeoutSet (PyInt 30);
       SearchAttempt "cats" 1 2;
       Status "Timeout en 'cats'. Reintento 1/3";
       SearchAttempt "cats" 1 2;
       Status "Timeout en 'cats'. Reintento 2/3";
       SearchAttempt "cats" 1 2;
       LogError "Error de WebDriver: disconnected: not connected to DevTools";
       Quit;
       Status "Completadas 0/2 búsquedas" ]).
Proof. reflexivity. Qed.

(** C7 does not hold on this run.  The configuration file binds
    "page_load_timeout" to the string "fast": [webdriver.Edge] opens the
    session, [set_page_load_timeout] raises, [setup_driver] re-raises
    without handing the session over, and [perform_search] leaves with
    that error after the closing report: the session that was opened is
    never quit. *)
Example timeout_refused_after_launch :
  BingSearchAutomation.perform_search
    (sample_env (dict_merge Config.DEFAULT_CONFIG
                            [("page_load_timeout", PyStr "fast")])
                ["terms.txt"; "msedgedriver.exe"]
                cats_dogs_blank wants_number loads)
    "terms.txt" "msedgedriver.exe" fresh
  = (Raise (mk_exn Exception
              "Error al configurar WebDriver: could not convert string to float"),
     mk_state true false 0 1 0,
     [ ReadFile "terms.txt";
       SessionOpened "msedgedriver.exe" false;
       Status "Completadas 0/2 búsquedas" ])
  /\ existsb is_session_opened
       (trace (BingSearchAutomation.perform_search
                 (sample_env (dict_merge Config.DEFAULT_CONFIG
                                         [("page_load_timeout", PyStr "fast")])
                             ["terms.txt"; "msedgedriver.exe"]
                             cats_dogs_blank wants_number loads)
                 "terms.txt" "msedgedriver.exe" fresh)) = true
  /\ existsb is_quit
       (trace (BingSearchAutomation.perform_search
                 (sample_env (dict_merge Config.DEFAULT_CONFIG
                                         [("page_load_timeout", PyStr "fast")])
                             ["terms.txt"; "msedgedriver.exe"]
                             cats_dogs_blank wants_number loads)
                 "terms.txt" "msedgedriver.exe" fresh)) = false.
Proof. repeat split. Qed.

(** [strip] and the reading of lines on a file with Windows line ends,
    blanks and a no-break space. *)
Example stripped_lines_sample :
  Str.stripped_lines
    (Str.readlines ""
       ("  cats " ++ String Str.CR newline
        ++ String (ascii_of_N 194) (String (ascii_of_N 160) EmptyString)
        ++ newline ++ "hot dogs"))
  = ["cats"; "hot dogs"].
Proof. reflexivity. Qed.

(** * More on Config: what can be saved, and what comes back *)

Lemma NoDup_distinct (l : list string) : NoDup l -> Json.distinct l = true.
Proof.
  induction 1 as [|k r Hnotin Hnd IH]; simpl; auto.
  rewrite IH, andb_true_r. apply negb_true_iff.
  destruct (existsb (String.eqb k) r) eqn:Hex; auto.
  apply existsb_exists in Hex as (k' & Hin & Heq).
  apply String.eqb_eq in Heq. subst. contradiction.
Qed.

Lemma all_some_Forall {A B : Type} (f : A -> option B) (l : list A) :
  Forall (fun a => f a <> None) l <-> Json.all_some (map f l) <> None.
Proof.
  induction l as [|a l IH]; simpl.
  - split; [discriminate | constructor].
  - split.
    + intros H. inversion H as [|? ? Ha Hl]; subst.
      apply IH in Hl. destruct (f a); [|congruence].
      destruct (Json.all_some (map f l)); [discriminate | congruence].
    + intros H. destruct (f a) eqn:Ha; [|congruence].
      destruct (Json.all_some (map f l)) eqn:Hl; [|congruence].
      constructor; [congruence|]. apply IH. discriminate.
Qed.

Lemma all_some_forallb {A B : Type} (f : A -> option B) (l : list A) :
  match Json.all_some (map f l) with Some _ => true | None => false end
  = forallb (fun a => match f a with Some _ => true | None => false end) l.
Proof.
  induction l as [|a l IH]; simpl; auto.
  rewrite <- IH. destruct (f a); auto.
  destruct (Json.all_some (map f l)); reflexivity.
Qed.

Lemma encodable_list (l : list value) :
  encodable (PyList l) = forallb encodable l.
Proof.
  unfold encodable. cbn [Json.encode].
  rewrite <- (all_some_forallb Json.encode l).
  destruct (Json.all_some (map Json.encode l)); reflexivity.
Qed.

Lemma encodable_dict (d : dict) :
  encodable (PyDict d) = forallb (fun kv => encodable (snd kv)) d.
Proof.
  unfold encodable at 1. cbn [Json.encode].
  match goal with
  | |- context [Json.all_some (map ?f d)] =>
      pose proof (all_some_forallb f d) as H;
      destruct (Json.all_some (map f d))
  end; simpl; rewrite H; clear H;
    induction d as [|[k x] d IH]; simpl; auto;
    rewrite IH; unfold encodable; destruct (Json.encode x); reflexivity.
Qed.

Lemma forallb_dict_set {V : Type} (p : V -> bool) (d : list (string * V))
      (k : string) (v : V) :
  forallb (fun kv => p (snd kv)) d = true ->
  p v = true ->
  forallb (fun kv => p (snd kv)) (dict_set d k v) = true.
Proof.
  intros Hd Hv. induction d as [|[k' v'] d IH]; simpl in *.
  - now rewrite Hv.
  - apply andb_prop in Hd as [H1 H2].
    destruct (String.eqb k' k); simpl.
    + now rewrite Hv, H2.
    + now rewrite H1, IH.
Qed.

Lemma forallb_dict_merge {V : Type} (p : V -> bool) (a b : list (string * V)) :
  forallb (fun kv => p (snd kv)) a = true ->
  forallb (fun kv => p (snd kv)) b = true ->
  forallb (fun kv => p (snd kv)) (dict_merge a b) = true.
Proof.
  unfold dict_merge. revert a.
  induction b as [|[k v] b IH]; simpl; intros a Ha Hb; auto.
  apply andb_prop in Hb as [Hv Hb].
  apply IH; auto. now apply forallb_dict_set.
Qed.

Lemma saveable_parts (d : dict) :
  saveable d = true <->
  NoDup (keys d) /\
  forallb (fun kv => Json.proper (snd kv)) d = true /\
  forallb (fun kv => encodable (snd kv)) d = true.
Proof.
  unfold saveable. rewrite encodable_dict. simpl. split.
  - intros H. apply andb_prop in H as [H He].
    apply andb_prop in H as [Hd Hp].
    repeat split; auto. now apply distinct_NoDup.
  - intros (Hd & Hp & He). now rewrite (NoDup_distinct _ Hd), Hp, He.
Qed.

(** Storing a value that can be saved keeps a configuration saveable. *)
Lemma saveable_dict_set (d : dict) (k : string) (v : value) :
  saveable d = true ->
  Json.proper v = true ->
  encodable v = true ->
  saveable (dict_set d k v) = true.
Proof.
  rewrite !saveable_parts. intros (Hd & Hp & He) Hpv Hev. repeat split.
  - now apply dict_set_keys_NoDup.
  - now apply forallb_dict_set.
  - now apply forallb_dict_set.
Qed.

Lemma saveable_dict_merge (a b : dict) :
  saveable a = true -> saveable b = true -> saveable (dict_merge a b) = true.
Proof.
  rewrite !saveable_parts. intros (Hd & Hp & He) (_ & Hpb & Heb). repeat split.
  - now apply dict_merge_keys_NoDup.
  - now apply forallb_dict_merge.
  - now apply forallb_dict_merge.
Qed.

(** What [json.load] builds is made of lists and dicts without a
    repeated key, holds no tuple, and can be dumped again. *)
Lemma decode_fine (j : Json.doc) :
  Json.proper (Json.decode j) = true /\
  encodable (Json.decode j) = true /\
  Json.tuple_free (Json.decode j) = true.
Proof.
  induction j as [| b | z | s | l IH | m IH] using doc_ind;
    try (repeat split; reflexivity).
  - cbn [Json.decode]. rewrite encodable_list. simpl.
    induction IH as [|x l (Hp & He & Ht) Hl IHl]; simpl; auto.
    destruct IHl as (Hp' & He' & Ht'). now rewrite Hp, He, Ht, Hp', He', Ht'.
  - cbn [Json.decode].
    assert (Hall : forall p : value -> bool,
               (forall x, In x (map snd m) -> p (Json.decode x) = true) ->
               forallb (fun kv => p (snd kv))
                       (dict_merge [] (map (fun kv => (fst kv, Json.decode (snd kv))) m))
               = true).
    { intros p Hpx. apply forallb_dict_merge; auto.
      clear IH. induction m as [|[k x] m IHm]; simpl; auto.
      rewrite Hpx by (simpl; auto). apply IHm.
      intros y Hy. apply Hpx. simpl. auto. }
    rewrite Forall_forall in IH.
    assert (H3 : forall x, In x (map snd m) ->
                           Json.proper (Json.decode x) = true /\
                           encodable (Json.decode x) = true /\
                           Json.tuple_free (Json.decode x) = true).
    { intros x Hx. apply in_map_iff in Hx as ([k y] & <- & Hin).
      exact (IH _ Hin). }
    rewrite encodable_dict. simpl.
    rewrite (NoDup_distinct _ (dict_merge_keys_NoDup [] _ (NoDup_nil _))).
    rewrite !Hall; auto; intros x Hx; now apply H3.
Qed.

Lemma object_of_saveable (members : list (string * Json.doc)) :
  saveable (Json.object_of members) = true.
Proof.
  pose proof (decode_fine (Json.JObj members)) as (Hp & He & _).
  unfold saveable. cbn [Json.decode] in Hp, He.
  fold (Json.object_of members) in Hp, He. now rewrite Hp, He.
Qed.

Lemma load_try_ok (defaults : dict) (fs : disk) (d : dict) :
  Config.load_try defaults fs = Ok d ->
  exists members,
    config_json fs = Holds (Document (Json.JObj members)) /\
    d = dict_merge defaults (Json.object_of members).
Proof.
  unfold Config.load_try. destruct fs as [[| err |[j | err]] w]; simpl;
    try discriminate.
  destruct j; simpl; try discriminate.
  intros H; injection H as <-. eauto.
Qed.

Lemma tuple_free_listify (v : value) : Json.tuple_free (Json.listify v) = true.
Proof.
  induction v as [| b | z | s | l IH | l IH | d IH | r] using value_ind;
    simpl; auto.
  - induction IH as [|x l Hx Hl IHl]; simpl; auto. now rewrite Hx.
  - induction IH as [|x l Hx Hl IHl]; simpl; auto. now rewrite Hx.
  - induction IH as [|[k x] d Hx Hd IHd]; simpl in *; auto. now rewrite Hx.
Qed.

Lemma listify_idempotent (v : value) :
  Json.listify (Json.listify v) = Json.listify v.
Proof. apply listify_tuple_free, tuple_free_listify. Qed.

Lemma default_config_saveable : saveable Config.DEFAULT_CONFIG = true.
Proof. reflexivity. Qed.

(** What [Config.load] returns can be saved, and binds the default
    keys. *)
Lemma load_result_fine (fs : disk) (d : dict) (log : list string) :
  Config.load fs = (Ok d, log) ->
  saveable d = true /\
  (forall k, dict_get Config.DEFAULT_CONFIG k <> None -> dict_get d k <> None).
Proof.
  unfold Config.load, Config.load_from.
  destruct (Config.load_try Config.DEFAULT_CONFIG fs) as [d'|e] eqn:Htry.
  - intros H; injection H as <- <-.
    apply load_try_ok in Htry as (members & _ & ->). split.
    + apply saveable_dict_merge; [reflexivity | apply object_of_saveable].
    + intros k. apply dict_merge_keeps.
  - destruct (isinstance e FileNotFoundError);
      [|destruct (isinstance e Exception)];
      intros H; try discriminate; injection H as <- <-; split; auto.
Qed.

(** Saving a saveable configuration that binds the default keys and
    loading it back: the same keys, each value with its tuples turned
    into lists, and the result is again such a configuration. *)
Lemma save_then_load_bindings (d : dict) (fs : disk) :
  saveable d = true ->
  (forall k, dict_get Config.DEFAULT_CONFIG k <> None -> dict_get d k <> None) ->
  write_error fs = None ->
  exists d1,
    Config.save_then_load (PyDict d) fs = (Ok d1, []) /\
    (forall k, dict_get d1 k = option_map Json.listify (dict_get d k)) /\
    saveable d1 = true /\
    (forall k, dict_get Config.DEFAULT_CONFIG k <> None -> dict_get d1 k <> None).
Proof.
  intros Hs Hdef Hw. unfold saveable in Hs. apply andb_prop in Hs as [Hp He].
  unfold encodable in He.
  destruct (Json.encode (PyDict d)) as [j|] eqn:Hj; [|discriminate].
  pose proof (decode_encode (PyDict d) j Hp Hj) as Hdec. simpl in Hdec.
  pose proof (decode_fine j) as (Hp1 & He1 & _). rewrite Hdec in Hp1, He1.
  set (d' := map (fun kv => (fst kv, Json.listify (snd kv))) d) in *.
  assert (Hget : forall k,
             dict_get (dict_merge Config.DEFAULT_CONFIG d') k
             = option_map Json.listify (dict_get d k)).
  { intros k. rewrite dict_get_merge.
    - unfold d'. rewrite dict_get_map.
      destruct (dict_get d k) eqn:Hk; auto. simpl.
      destruct (dict_get Config.DEFAULT_CONFIG k) eqn:Hdk; auto.
      exfalso. apply (Hdef k); congruence.
    - unfold d'. rewrite keys_map. apply distinct_NoDup.
      simpl in Hp. now apply andb_prop in Hp as [Hp _]. }
  exists (dict_merge Config.DEFAULT_CONFIG d'). repeat split.
  - unfold Config.save_then_load, Config.save, Config.save_try.
    rewrite Hw, Hj. simpl.
    unfold Config.load, Config.load_from, Config.load_try. simpl.
    rewrite Hdec. reflexivity.
  - exact Hget.
  - apply saveable_dict_merge; [reflexivity|].
    unfold saveable. now rewrite Hp1, He1.
  - intros k Hk. rewrite Hget. specialize (Hdef k Hk).
    destruct (dict_get d k); [discriminate | congruence].
Qed.

(** X1. A [Config.save] that cannot open the file is swallowed with one
    line in the log and leaves the file alone: [Config.load] afterwards
    returns what it returned before. *)
Theorem save_failure_keeps_stored_config :
  forall (config : value) (fs : disk) (err : string),
    write_error fs = Some err ->
    Config.save config fs
    = (Ok tt, fs, ["Error guardando configuración: " ++ err]) /\
    Config.save_then_load config fs = Config.load fs.
Proof.
  intros config fs err Hw.
  assert (Hsave : Config.save config fs
                  = (Ok tt, fs, ["Error guardando configuración: " ++ err])).
  { unfold Config.save, Config.save_try. now rewrite Hw. }
  split; auto. unfold Config.save_then_load. now rewrite Hsave.
Qed.

Lemma save_failure_keeps_stored_config_witness :
  let fs := mk_disk (Holds (Document (Json.JObj [("max_retries", Json.JNum 5)])))
                    (Some "Permission denied") in
  Config.save (PyDict Config.DEFAULT_CONFIG) fs
  = (Ok tt, fs, ["Error guardando configuración: Permission denied"]) /\
  Config.save_then_load (PyDict Config.DEFAULT_CONFIG) fs = Config.load fs.
Proof.
  apply (save_failure_keeps_stored_config
           (PyDict Config.DEFAULT_CONFIG)
           (mk_disk (Holds (Document (Json.JObj [("max_retries", Json.JNum 5)])))
                    (Some "Permission denied"))
           "Permission denied").
  reflexivity.
Defined.

(** X2. A [Config.save] of a value that [json.dump] cannot encode is
    swallowed as well, but the file was already emptied: whatever it
    held before is lost, and the next [Config.load] logs an error and
    returns the defaults. *)
Theorem save_unencodable_loses_stored_config :
  forall (config : value) (fs : disk),
    write_error fs = None ->
    encodable config = false ->
    exists fs' msg1 msg2,
      Config.save config fs = (Ok tt, fs', [msg1]) /\
      Config.load fs' = (Ok Config.DEFAULT_CONFIG, [msg2]).
Proof.
  intros config fs Hw He. unfold encodable in He.
  unfold Config.save, Config.save_try. rewrite Hw.
  destruct (Json.encode config); [discriminate|]. simpl.
  do 3 eexists. split; reflexivity.
Qed.

Lemma save_unencodable_loses_stored_config_witness :
  exists fs' msg1 msg2,
    Config.save (PyDict [("max_retries", PyObject "set")])
                (mk_disk (Holds (Document (Json.JObj [("max_retries", Json.JNum 5)])))
                         None)
    = (Ok tt, fs', [msg1]) /\
    Config.load fs' = (Ok Config.DEFAULT_CONFIG, [msg2]).
Proof.
  apply (save_unencodable_loses_stored_config
           (PyDict [("max_retries", PyObject "set")])
           (mk_disk (Holds (Document (Json.JObj [("max_retries", Json.JNum 5)])))
                    None));
    reflexivity.
Defined.

(** X3. Whatever the configuration file held, the mapping [Config.load]
    returned can be saved: loading it back gives the same keys, each
    value with its tuples turned into lists (the default delay window,
    when the file did not give one), and from then on saving and loading
    changes nothing. *)
Theorem loaded_config_survives_save :
  forall (fs fs0 : disk) (d : dict) (log : list string),
    Config.load fs = (Ok d, log) ->
    write_error fs0 = None ->
    exists d1 d2,
      Config.save_then_load (PyDict d) fs0 = (Ok d1, []) /\
      (forall k, dict_get d1 k = option_map Json.listify (dict_get d k)) /\
      Config.save_then_load (PyDict d1) fs0 = (Ok d2, []) /\
      same_bindings d2 d1.
Proof.
  intros fs fs0 d log Hload Hw.
  destruct (load_result_fine fs d log Hload) as (Hs & Hdef).
  destruct (save_then_load_bindings d fs0 Hs Hdef Hw)
    as (d1 & Hrun1 & Hget1 & Hs1 & Hdef1).
  destruct (save_then_load_bindings d1 fs0 Hs1 Hdef1 Hw)
    as (d2 & Hrun2 & Hget2 & _ & _).
  exists d1, d2. repeat split; auto.
  intros k. rewrite Hget2, Hget1.
  destruct (dict_get d k); simpl; auto. now rewrite listify_idempotent.
Qed.

Lemma loaded_config_survives_save_witness :
  exists d1 d2,
    Config.save_then_load (PyDict Config.DEFAULT_CONFIG) (mk_disk Missing None)
    = (Ok d1, []) /\
    (forall k, dict_get d1 k
               = option_map Json.listify (dict_get Config.DEFAULT_CONFIG k)) /\
    Config.save_then_load (PyDict d1) (mk_disk Missing None) = (Ok d2, []) /\
    same_bindings d2 d1.
Proof.
  apply (loaded_config_survives_save
           (mk_disk Missing None) (mk_disk Missing None)
           Config.DEFAULT_CONFIG []);
    reflexivity.
Defined.

(** * More on the loops: what every run keeps *)

Lemma searches_in_app (t1 t2 : list event) :
  searches_in (t1 ++ t2) = (searches_in t1 + searches_in t2)%nat.
Proof. unfold searches_in. now rewrite filter_app, length_app. Qed.

Lemma no_searches_in (t : list event) :
  forallb (fun ev => negb (is_attempt ev)) t = true -> searches_in t = O.
Proof.
  unfold searches_in. induction t as [|ev t IH]; simpl; auto.
  intros H. apply andb_prop in H as [Hev Ht].
  destruct ev; simpl in *; auto; discriminate.
Qed.

Section Invariants.

Variable E : env.

Import BingSearchAutomation.

(** A pass whose search succeeds, whatever the callback does to the
    flag. *)
Lemma attempt_loads (t : string) (i N : nat) (retries : Z) (s : state)
      (d : value) (w : Z * Z) :
  browse E (attempts s) t = Ok tt ->
  dict_get (config E) "search_delay" = Some d ->
  uniform_args d = Ok w ->
  time_sleep E (attempts s) (fst w) (snd w) = Ok tt ->
  attempt E t i N retries s
  = (Ok None,
     mk_state (status_callback E (reports s) (searching_message i N t) (running s))
              (driver s) (completed_searches s + 1)
              (S (reports s)) (S (attempts s)),
     found_pass t i N w).
Proof.
  intros Hb Hd Hw Hsl. unfold attempt, try_except.
  rewrite bind_run, single_search_run, Hb, Hd, Hw, Hsl. reflexivity.
Qed.

(** [time.sleep] raises no error of the browser. *)
Lemma time_sleep_raises (k : nat) (lo hi : Z) (e : exn) :
  time_sleep E k lo hi = Raise e ->
  isinstance e WebDriverException = false.
Proof.
  unfold time_sleep.
  destruct ((0 <=? lo) && (lo <=? max_sleep) && (0 <=? hi) && (hi <=? max_sleep));
    [discriminate|].
  destruct ((- max_sleep <=? lo) && (lo <? 0) && (- max_sleep <=? hi) && (hi <? 0)).
  - intros H; injection H as <-. reflexivity.
  - destruct (sleep E k lo hi); try discriminate;
      intros H; injection H as <-; reflexivity.
Qed.

(** What a pass does to the state: one more search; then either it
    raises and completed nothing, or it made one report and the flag
    is what the callback left, with one more search completed exactly
    when the pass ended the loop. *)
Lemma attempt_step (t : string) (i N : nat) (retries : Z) (s : state) :
  exists r s' tr,
    attempt E t i N retries s = (r, s', tr) /\
    attempts s' = S (attempts s) /\
    driver s' = driver s /\
    searches_in tr = 1%nat /\
    ((exists e, r = Raise e /\
                completed_searches s' = completed_searches s)
     \/ (exists msg, r = Ok None /\ reports s' = S (reports s) /\
                     running s' = status_callback E (reports s) msg (running s) /\
                     completed_searches s' = completed_searches s + 1)
     \/ (exists msg, r = Ok (Some (retries + 1)) /\ reports s' = S (reports s) /\
                     running s' = status_callback E (reports s) msg (running s) /\
                     completed_searches s' = completed_searches s)).
Proof.
  unfold attempt, try_except.
  rewrite bind_run, single_search_run.
  destruct (browse E (attempts s) t) as [[]|e]; simpl.
  - destruct (dict_get (config E) "search_delay") as [d|]; simpl.
    + destruct (uniform_args d) as [w|e] eqn:Hu; simpl.
      * destruct (time_sleep E (attempts s) (fst w) (snd w)) as [[]|e] eqn:Hsl;
          simpl.
        -- do 3 eexists. repeat split. right. left. eexists. repeat split.
        -- pose proof (time_sleep_raises _ _ _ _ Hsl) as Hw.
           assert (Ht : isinstance e TimeoutException = false).
           { unfold isinstance in *. destruct (exn_cls e); auto; discriminate. }
           rewrite Ht, Hw. simpl.
           do 3 eexists. repeat split. left. eexists. repeat split.
      * assert (Ht : isinstance e TimeoutException = false
                     /\ isinstance e WebDriverException = false).
        { unfold isinstance.
          destruct (uniform_args_raises _ _ Hu) as [-> | ->]; split; reflexivity. }
        destruct Ht as [-> ->]. simpl.
        do 3 eexists. repeat split. left. eexists. repeat split.
    + do 3 eexists. repeat split. left. eexists. repeat split.
  - destruct (isinstance e TimeoutException).
    + unfold config_get.
      destruct (dict_get (config E) "max_retries") as [m|]; simpl.
      * rewrite bind_ret, bind_update_status, bind_ret.
        destruct (int_eq (retries + 1) m); simpl;
          do 3 eexists; repeat split; right; right; eexists; repeat split.
      * do 3 eexists. repeat split. left. eexists. repeat split.
    + destruct (isinstance e WebDriverException); simpl;
        do 3 eexists; repeat split; left; eexists; repeat split.
Qed.

(** The counter of searches counts the calls in the trace, and a retry
    loop completes at most one search. *)
Lemma retry_passes_counts (fuel : nat) (t : string) (i N : nat) :
  forall (retries : Z) (s : state),
    let x := retry_passes E fuel t i N retries s in
    attempts (final x) = (searches_in (trace x) + attempts s)%nat /\
    completed_searches s <= completed_searches (final x)
                         <= completed_searches s + 1 /\
    Forall (fun ev => is_attempt ev = true -> ev = SearchAttempt t i N) (trace x).
Proof.
  induction fuel as [|fuel IH]; intros retries s x; subst x;
    rewrite retry_passes_run;
    (destruct (dict_get (config E) "max_retries") as [m|];
     [destruct (int_lt retries m) as [c|e];
      [destruct (c && running s)|]|]);
    try (unfold final, trace, searches_in; simpl;
         repeat split; auto; lia).
  destruct (attempt_shape E t i N retries s)
    as (r0 & s0 & rest & Hshape & _ & _ & Hrest & _).
  destruct (attempt_step t i N retries s)
    as (r & s1 & tr & Hrun & Hn & _ & Hone & Hcase).
  assert (Hown : Forall (fun ev => is_attempt ev = true -> ev = SearchAttempt t i N) tr).
  { rewrite Hshape in Hrun. injection Hrun as _ _ <-.
    constructor; auto. clear -Hrest.
    induction rest as [|ev rest IHr]; constructor.
    - simpl in Hrest. apply andb_prop in Hrest as [Hev _].
      intros Ha. rewrite Ha in Hev. discriminate.
    - apply IHr. simpl in Hrest. now apply andb_prop in Hrest as [_ H]. }
  rewrite Hrun.
  destruct Hcase as [(e & -> & Hc) | [(msg & -> & _ & _ & Hc)
                                             | (msg & -> & _ & _ & Hc)]].
  - unfold final, trace; cbn [fst snd]. rewrite Hone, Hn. repeat split; auto; lia.
  - unfold final, trace; cbn [fst snd]. rewrite Hone, Hn. repeat split; auto; lia.
  - destruct (IH (retries + 1) s1) as (IHn & IHc & IHown).
    rewrite final_after, trace_after, searches_in_app, Hone, IHn, Hn.
    repeat split; try lia. apply Forall_app. split; auto.
Qed.

(** The loop over the terms: the counter counts the calls, at most one
    search is completed per term and none without a call, and every
    call is for the term at its index. *)
Lemma for_terms_counts (N : nat) (terms : list string) :
  forall (i : nat) (s : state),
    let x := for_terms E i N terms s in
    attempts (final x) = (searches_in (trace x) + attempts s)%nat /\
    completed_searches s <= completed_searches (final x)
                         <= completed_searches s + Z.of_nat (List.length terms) /\
    Forall (fun ev =>
              forall u c total,
                ev = SearchAttempt u c total ->
                total = N /\ (i <= c)%nat /\ nth_error terms (c - i) = Some u)
           (trace x).
Proof.
  induction terms as [|t rest IH]; intros i s x; subst x.
  - unfold final, trace, searches_in; simpl. repeat split; auto; lia.
  - rewrite for_terms_cons. destruct (running s).
    + destruct (retry_passes_counts (passes E) t i N 0 s) as (Hn & Hc & Hown).
      assert (Hmine :
                Forall (fun ev =>
                          forall u c total,
                            ev = SearchAttempt u c total ->
                            total = N /\ (i <= c)%nat /\
                            nth_error (t :: rest) (c - i) = Some u)
                       (trace (retry_passes E (passes E) t i N 0 s))).
      { eapply Forall_impl; [|exact Hown].
        intros ev Hev u c total ->. specialize (Hev eq_refl).
        injection Hev as -> -> ->. rewrite Nat.sub_diag. auto. }
      destruct (retry_passes E (passes E) t i N 0 s) as [[[[]|e] s1] t1];
        unfold final, trace in Hn, Hc, Hmine; cbn [fst snd] in Hn, Hc, Hmine.
      * destruct (IH (S i) s1) as (IHn & IHc & IHaim).
        rewrite final_after, trace_after, searches_in_app.
        cbn [List.length]. repeat split; try lia.
        apply Forall_app. split; auto.
        eapply Forall_impl; [|exact IHaim].
        intros ev Hev u c total Heq. destruct (Hev u c total Heq) as (-> & Hle & Hnth).
        repeat split; auto; try lia.
        replace (c - i)%nat with (S (c - S i)) by lia. exact Hnth.
      * unfold final, trace; cbn [fst snd List.length]. repeat split; auto; lia.
    + rewrite update_status_run. unfold final, trace, searches_in; simpl.
      repeat split; auto; try lia.
      constructor; [|constructor]. intros u c total Heq. discriminate.
Qed.

End Invariants.

(** * More on perform_search *)

Lemma stripped_lines_not_empty (lines : list string) :
  Forall (fun t => t <> "") (Str.stripped_lines lines).
Proof.
  rewrite stripped_lines_filter. apply Forall_forall. intros t Hin.
  apply filter_In in Hin as [_ Hne]. destruct t; [discriminate | discriminate].
Qed.

Lemma terms_of_not_empty (E : env) (search_file : string) (terms : list string) :
  BingSearchAutomation.terms_of E search_file = Some terms ->
  Forall (fun t => t <> "") terms.
Proof.
  unfold BingSearchAutomation.terms_of.
  destruct (read_text E search_file); [|discriminate].
  intros H; injection H as <-. apply stripped_lines_not_empty.
Qed.

Lemma opening_aimed (E : env) (driver_path : string) (terms : list string) :
  Forall (aimed terms 1) (opening E driver_path).
Proof.
  unfold opening.
  destruct (dict_get (config E) "headless_mode"),
           (dict_get (config E) "page_load_timeout");
    repeat constructor.
Qed.

(** X4. In every run that gets past the checks of its inputs, each call
    of [single_search] is for a term of the search file: a non-empty
    stripped line, passed with its 1-based position among the terms and
    with the number of terms as total. *)
Theorem every_search_is_for_a_term_of_the_file :
  forall (E : env) (search_file driver_path : string)
         (terms : list string) (s : state),
    isfile E search_file = true ->
    isfile E driver_path = true ->
    BingSearchAutomation.terms_of E search_file = Some terms ->
    terms <> [] ->
    Forall (aimed terms 1)
           (trace (BingSearchAutomation.perform_search E search_file driver_path s)).
Proof.
  intros E sf dp terms s Hs Hd Ht Hne.
  pose proof (terms_of_not_empty E sf terms Ht) as Hnonempty.
  destruct terms as [|t ts]; [congruence|].
  destruct (BingSearchAutomation.session_opens E dp) eqn:Ho.
  - rewrite (perform_search_opened E sf dp t ts s Hs Hd Ht Ho).
    unfold trace at 1. cbn [snd].
    constructor; [exact I|].
    apply Forall_app. split; [apply opening_aimed|].
    apply Forall_app. split; [|repeat constructor].
    destruct (for_terms_counts E (List.length (t :: ts)) (t :: ts) 1 (looping s))
      as (_ & _ & Haim).
    eapply Forall_impl; [|exact Haim].
    intros ev Hev. destruct ev; simpl; auto.
    destruct (Hev _ _ _ eq_refl) as (-> & Hle & Hnth).
    repeat split; auto.
    rewrite Forall_forall in Hnonempty. apply Hnonempty.
    eapply nth_error_In; eauto.
  - destruct (perform_search_not_opened E sf dp t ts s Hs Hd Ht Ho)
      as (e & tr & Htr & Hrun).
    rewrite Hrun. unfold trace. cbn [snd].
    destruct Htr as [-> | [h ->]]; repeat constructor.
Qed.

Lemma every_search_is_for_a_term_of_the_file_witness :
  Forall (aimed ["cats"; "dogs"] 1)
         (trace (BingSearchAutomation.perform_search
                   (sample_env Config.DEFAULT_CONFIG
                               ["terms.txt"; "msedgedriver.exe"]
                               cats_dogs_blank accepts crashes_third)
                   "terms.txt" "msedgedriver.exe" fresh)).
Proof.
  apply (every_search_is_for_a_term_of_the_file
           (sample_env Config.DEFAULT_CONFIG ["terms.txt"; "msedgedriver.exe"]
                       cats_dogs_blank accepts crashes_third)
           "terms.txt" "msedgedriver.exe" ["cats"; "dogs"] fresh);
    try reflexivity.
  discriminate.
Defined.

Section Completed.

Variable E : env.

Import BingSearchAutomation.



End Completed.

Lemma searches_in_opening (E : env) (driver_path : string) :
  searches_in (opening E driver_path) = O.
Proof.
  unfold opening.
  destruct (dict_get (config E) "headless_mode"),
           (dict_get (config E) "page_load_timeout"); reflexivity.
Qed.



(** * Cancelling a run *)

Section Cancel.

Variable E : env.
Variable n : nat.

Hypothesis Hcancel : forall msg, status_callback E n msg true = false.

Import BingSearchAutomation.

Lemma report_spends_budget (s s1 : state) (msg : string) :
  watched n s ->
  running s = true ->
  reports s1 = S (reports s) ->
  running s1 = status_callback E (reports s) msg (running s) ->
  watched n s1 /\ (S (budget n s1) <= budget n s)%nat.
Proof.
  intros Hw Hrun Hrep Hflag. specialize (Hw Hrun).
  rewrite Hrun in Hflag. unfold watched, budget. rewrite Hrun, Hrep.
  destruct (Nat.eq_dec (reports s) n) as [Heq|Hne].
  - rewrite Heq, Hcancel in Hflag. rewrite Hflag. split; [discriminate | lia].
  - destruct (running s1); split; intros; lia.
Qed.

Lemma retry_passes_cancel (fuel : nat) (t : string) (i N : nat) :
  forall (retries : Z) (s : state),
    watched n s ->
    let x := retry_passes E fuel t i N retries s in
    (attempts (final x) <= attempts s + budget n s)%nat /\
    (forall u, outcome x = Ok u ->
               watched n (final x) /\
               (attempts (final x) + budget n (final x)
                <= attempts s + budget n s)%nat).
Proof.
  induction fuel as [|fuel IH]; intros retries s Hw x; subst x;
    rewrite retry_passes_run;
    (destruct (dict_get (config E) "max_retries") as [m|];
     [destruct (int_lt retries m) as [c|e];
      [destruct (c && running s) eqn:Hcr|]|]);
    try (unfold final, outcome; cbn [fst snd];
         split; [lia | intros u Hu; try discriminate; split; auto; lia]).
  apply andb_prop in Hcr as [_ Hrun].
  destruct (attempt_step E t i N retries s)
    as (r & s1 & tr & Hstep & Hn & _ & _ & Hcase).
  rewrite Hstep.
  assert (Hpos : (1 <= budget n s)%nat).
  { unfold budget. rewrite Hrun. specialize (Hw Hrun). lia. }
  destruct Hcase as [(e & -> & _) | [(msg & -> & Hrep & Hflag & _)
                                            | (msg & -> & Hrep & Hflag & _)]].
  - unfold final, outcome; cbn [fst snd]. split; [lia | discriminate].
  - destruct (report_spends_budget s s1 msg Hw Hrun Hrep Hflag) as (Hw1 & Hb1).
    unfold final, outcome; cbn [fst snd]. split; [lia|].
    intros u _. split; auto. lia.
  - destruct (report_spends_budget s s1 msg Hw Hrun Hrep Hflag) as (Hw1 & Hb1).
    destruct (IH (retries + 1) s1 Hw1) as (IHn & IHok).
    rewrite final_after, outcome_after. split; [lia|].
    intros u Hu. destruct (IHok u Hu) as (Hwf & Hbf). split; auto. lia.
Qed.

Lemma for_terms_cancel (N : nat) (terms : list string) :
  forall (i : nat) (s : state),
    watched n s ->
    let x := for_terms E i N terms s in
    (attempts (final x) <= attempts s + budget n s)%nat.
Proof.
  induction terms as [|t rest IH]; intros i s Hw x; subst x.
  - unfold final; simpl. lia.
  - rewrite for_terms_cons. destruct (running s) eqn:Hrun.
    + destruct (retry_passes_cancel (passes E) t i N 0 s Hw) as (Hn & Hok).
      destruct (retry_passes E (passes E) t i N 0 s) as [[[[]|e] s1] t1];
        unfold final, outcome in Hn, Hok; cbn [fst snd] in Hn, Hok.
      * destruct (Hok tt eq_refl) as (Hw1 & Hb1).
        specialize (IH (S i) s1 Hw1). cbv zeta in IH.
        rewrite final_after. lia.
      * unfold final; cbn [fst snd]. exact Hn.
    + rewrite update_status_run. unfold final; simpl. lia.
Qed.

End Cancel.

(** X6. Cancelling works between searches: if the callback clears the
    flag when it is handed the [n]-th report of a run (reports counted
    from 0), the run calls [single_search] at most [n + 1] times,
    whatever the searches do and however many terms and retries are
    left. *)
Theorem cancel_bounds_the_searches :
  forall (E : env) (search_file driver_path : string)
         (terms : list string) (s : state) (n : nat),
    isfile E search_file = true ->
    isfile E driver_path = true ->
    BingSearchAutomation.terms_of E search_file = Some terms ->
    terms <> [] ->
    (forall msg, status_callback E (n + reports s) msg true = false) ->
    (searches_in
       (trace (BingSearchAutomation.perform_search E search_file driver_path s))
     <= S n)%nat.
Proof.
  intros E sf dp terms s n Hs Hd Ht Hne Hcancel.
  destruct terms as [|t ts]; [congruence|].
  destruct (BingSearchAutomation.session_opens E dp) eqn:Ho.
  - rewrite (perform_search_opened E sf dp t ts s Hs Hd Ht Ho).
    set (N := List.length (t :: ts)).
    assert (Hw : watched (n + reports s) (looping s)).
    { unfold watched. change (reports (looping s)) with (reports s). lia. }
    pose proof (for_terms_cancel E (n + reports s) Hcancel
                                 N (t :: ts) 1 (looping s) Hw) as Hb.
    destruct (for_terms_counts E N (t :: ts) 1 (looping s)) as (Hn & _ & _).
    cbv zeta in Hb.
    set (loop := BingSearchAutomation.for_terms E 1 N (t :: ts) (looping s)) in *.
    unfold trace at 1. cbn [snd].
    change (ReadFile sf :: ?l) with ([ReadFile sf] ++ l)%list.
    rewrite !searches_in_app, searches_in_opening.
    unfold searches_in at 1 3. simpl.
    assert (Hbud : (budget (n + reports s) (looping s) <= S n)%nat).
    { unfold budget. change (running (looping s)) with (running s).
      change (reports (looping s)) with (reports s).
      destruct (running s); lia. }
    change (attempts (looping s)) with (attempts s) in Hn, Hb. lia.
  - destruct (perform_search_not_opened E sf dp t ts s Hs Hd Ht Ho)
      as (e & tr & Htr & Hrun).
    rewrite Hrun. unfold trace. cbn [snd].
    destruct Htr as [-> | [h ->]]; unfold searches_in; simpl; lia.
Qed.

Lemma cancel_bounds_the_searches_witness :
  (searches_in
     (trace (BingSearchAutomation.perform_search
               (sample_env_with Config.DEFAULT_CONFIG
                                ["terms.txt"; "msedgedriver.exe"]
                                cats_dogs_blank loads_third (cancel_at 1))
               "terms.txt" "msedgedriver.exe" fresh))
   <= 2)%nat.
Proof.
  apply (cancel_bounds_the_searches
           (sample_env_with Config.DEFAULT_CONFIG
                            ["terms.txt"; "msedgedriver.exe"]
                            cats_dogs_blank loads_third (cancel_at 1))
           "terms.txt" "msedgedriver.exe" ["cats"; "dogs"] fresh 1);
    try reflexivity.
  discriminate.
Defined.

(** * Runs in which every search succeeds *)

Section AllFound.

Variable E : env.
Variable R : Z.
Variable d : value.
Variable w : Z * Z.

Hypothesis Hmax : dict_get (config E) "max_retries" = Some (PyInt R).
Hypothesis Hpos : 0 < R.
Hypothesis Hdelay : dict_get (config E) "search_delay" = Some d.
Hypothesis Hwindow : BingSearchAutomation.uniform_args d = Ok w.
Hypothesis Hloads : forall n u, browse E n u = Ok tt.
Hypothesis Hsleeps :
  forall n, BingSearchAutomation.time_sleep E n (fst w) (snd w) = Ok tt.
Hypothesis Hquiet : forall n msg, status_callback E n msg true = true.

Import BingSearchAutomation.

Lemma for_terms_all_found (N : nat) :
  forall (terms : list string) (i : nat) (s : state),
    running s = true ->
    for_terms E i N terms s
    = (Ok tt, found_all (List.length terms) s, all_found terms i N w).
Proof.
  induction terms as [|t rest IH]; intros i s Hrun.
  - simpl. unfold found_all. simpl. rewrite Z.add_0_r. destruct s; reflexivity.
  - assert (Hp : exists fuel, passes E = S fuel).
    { unfold passes, passes_left. rewrite Hmax. simpl.
      exists (Nat.pred (Z.to_nat R)). lia. }
    destruct Hp as (fuel & Hp).
    rewrite for_terms_cons, Hrun, Hp.
    rewrite (retry_passes_success E fuel t i N R s d w); auto.
    rewrite IH by exact Hrun.
    unfold after, outcome, final, trace, found_all, found, found_pass.
    cbn [fst snd all_found List.length running driver completed_searches
             reports attempts].
    f_equal. f_equal. f_equal; lia.
Qed.

End AllFound.

Lemma attempts_at_all_found (N : nat) (w : Z * Z) (j : nat) :
  forall (terms : list string) (i : nat),
    attempts_at j (all_found terms i N w)
    = if ((i <=? j) && (j <? i + List.length terms))%nat then 1%nat else O.
Proof.
  induction terms as [|t rest IH]; intros i; cbn [all_found List.length].
  - replace (j <? i + 0)%nat with (negb (i <=? j)%nat).
    + now destruct (i <=? j)%nat.
    + rewrite Nat.add_0_r, Nat.ltb_antisym. reflexivity.
  - rewrite attempts_at_app, IH. unfold found_pass.
    rewrite attempts_at_cons.
    replace (attempts_at j [Status (BingSearchAutomation.searching_message i N t);
                            Sleep (fst w) (snd w)]) with O by reflexivity.
    destruct (Nat.eqb_spec i j) as [->|Hne].
    + assert (H1 : (S j <=? j)%nat = false) by (apply Nat.leb_gt; lia).
      assert (H2 : (j <=? j)%nat = true) by (apply Nat.leb_le; lia).
      assert (H3 : (j <? j + S (List.length rest))%nat = true)
        by (apply Nat.ltb_lt; lia).
      rewrite H1, H2, H3. reflexivity.
    + destruct (Nat.leb_spec (S i) j), (Nat.leb_spec i j); try lia; simpl; auto.
      replace (i + S (List.length rest))%nat with (S i + List.length rest)%nat
        by lia.
      reflexivity.
Qed.

Lemma log_errors_app (t1 t2 : list event) :
  log_errors (t1 ++ t2) = (log_errors t1 ++ log_errors t2)%list.
Proof. unfold log_errors. apply flat_map_app. Qed.

Lemma log_errors_all_found (N : nat) (w : Z * Z) :
  forall (terms : list string) (i : nat), log_errors (all_found terms i N w) = [].
Proof.
  induction terms as [|t rest IH]; intros i; cbn [all_found]; auto.
  rewrite log_errors_app, IH. reflexivity.
Qed.

Lemma log_errors_opening (E : env) (driver_path : string) :
  log_errors (opening E driver_path) = [].
Proof.
  unfold opening.
  destruct (dict_get (config E) "headless_mode"),
           (dict_get (config E) "page_load_timeout"); reflexivity.
Qed.

(** X7. With at least one pass allowed, every search succeeding (the
    browser answers, a delay can be drawn from [search_delay] and
    [time.sleep] returns from it) and nobody cancelling, the run returns
    normally having called [single_search] exactly once for each term;
    it logs no error and ends with the report "Completadas N/N
    búsquedas". *)
Theorem perform_search_all_found :
  forall (E : env) (search_file driver_path : string)
         (terms : list string) (R : Z) (d : value) (w : Z * Z) (s : state),
    isfile E search_file = true ->
    isfile E driver_path = true ->
    BingSearchAutomation.terms_of E search_file = Some terms ->
    terms <> [] ->
    BingSearchAutomation.session_opens E driver_path = true ->
    dict_get (config E) "max_retries" = Some (PyInt R) ->
    0 < R ->
    dict_get (config E) "search_delay" = Some d ->
    BingSearchAutomation.uniform_args d = Ok w ->
    running s = true ->
    (forall n msg, status_callback E n msg true = true) ->
    (forall n u, browse E n u = Ok tt) ->
    (forall n, BingSearchAutomation.time_sleep E n (fst w) (snd w) = Ok tt) ->
    let x := BingSearchAutomation.perform_search E search_file driver_path s in
    let N := List.length terms in
    outcome x = Ok tt /\
    completed_searches (final x) = Z.of_nat N /\
    (forall i, (1 <= i <= N)%nat -> attempts_at i (trace x) = 1%nat) /\
    log_errors (trace x) = [] /\
    last_event (trace x)
    = Some (Status (BingSearchAutomation.completed_message (Z.of_nat N) N)).
Proof.
  intros E sf dp terms R d w s Hs Hd Ht Hne Ho Hm HR Hdelay Hw Hrun Hcb Hb Hsl x N.
  subst x N.
  destruct terms as [|t ts]; [congruence|].
  rewrite (perform_search_opened E sf dp t ts s Hs Hd Ht Ho).
  rewrite (for_terms_all_found E R d w Hm HR Hdelay Hw Hb Hsl Hcb _ (t :: ts) 1
                               (looping s) Hrun).
  set (N := List.length (t :: ts)).
  unfold outcome, trace, final. cbn [fst snd].
  change (completed_searches (reported E N (found_all N (looping s))))
    with (0 + Z.of_nat N).
  change (completed_searches (found_all N (looping s))) with (0 + Z.of_nat N).
  rewrite Z.add_0_l.
  split; [reflexivity|]. split; [reflexivity|]. split; [|split].
  - intros i Hi.
    change (ReadFile sf :: ?l) with ([ReadFile sf] ++ l)%list.
    rewrite !attempts_at_app, attempts_at_opening, attempts_at_all_found.
    replace ((1 <=? i)%nat && (i <? 1 + List.length (t :: ts))%nat) with true.
    + reflexivity.
    + symmetry. apply andb_true_intro. fold N. split.
      * apply Nat.leb_le; lia.
      * apply Nat.ltb_lt; lia.
  - change (ReadFile sf :: ?l) with ([ReadFile sf] ++ l)%list.
    rewrite !log_errors_app, log_errors_opening, log_errors_all_found.
    reflexivity.
  - change [Quit; Status ?m] with ([Quit] ++ [Status m])%list.
    apply last_event_closing.
Qed.

Lemma perform_search_all_found_witness :
  let x := BingSearchAutomation.perform_search
             (sample_env Config.DEFAULT_CONFIG ["terms.txt"; "msedgedriver.exe"]
                         cats_dogs_blank accepts loads)
             "terms.txt" "msedgedriver.exe" fresh in
  outcome x = Ok tt /\
  completed_searches (final x) = Z.of_nat 2 /\
  (forall i, (1 <= i <= 2)%nat -> attempts_at i (trace x) = 1%nat) /\
  log_errors (trace x) = [] /\
  last_event (trace x)
  = Some (Status (BingSearchAutomation.completed_message (Z.of_nat 2) 2)).
Proof.
  apply (perform_search_all_found
           (sample_env Config.DEFAULT_CONFIG ["terms.txt"; "msedgedriver.exe"]
                       cats_dogs_blank accepts loads)
           "terms.txt" "msedgedriver.exe" ["cats"; "dogs"] 3
           (PyTuple [PyInt 3; PyInt 7]) (3, 7) fresh);
    try reflexivity.
  discriminate.
Defined.

(** * Errors that end a run *)

Section Aborts.

Variable E : env.

Import BingSearchAutomation.

(** A pass whose search raises anything but a timeout: the exception
    leaves the loop, logged first when it is a WebDriver error. *)
Lemma attempt_aborts (t : string) (i N : nat) (retries : Z) (s : state) (e : exn) :
  browse E (attempts s) t = Raise e ->
  aborting e = true ->
  attempt E t i N retries s
  = (Raise e, count_attempt s, SearchAttempt t i N :: abort_log e).
Proof.
  intros Hb Ha. unfold aborting in Ha. apply negb_true_iff in Ha.
  unfold attempt, try_except.
  rewrite bind_run, single_search_run, Hb. simpl. rewrite Ha.
  unfold abort_log. destruct (isinstance e WebDriverException); reflexivity.
Qed.

Lemma retry_passes_aborts (fuel : nat) (t : string) (i N : nat) :
  forall (retries : Z) (s : state) (n : nat) (e : exn),
    let x := retry_passes E fuel t i N retries s in
    (attempts s <= n < attempts (final x))%nat ->
    browse E n t = Raise e ->
    aborting e = true ->
    outcome x = Raise e /\
    attempts (final x) = S n /\
    exists pre,
      trace x = (pre ++ SearchAttempt t i N :: abort_log e)%list.
Proof.
  induction fuel as [|fuel IH]; intros retries s n e x; subst x;
    rewrite retry_passes_run;
    (destruct (dict_get (config E) "max_retries") as [m|];
     [destruct (int_lt retries m) as [c|e'];
      [destruct (c && running s)|]|]);
    try (unfold final; simpl; intros; lia).
  intros Hn Hb Ha.
  destruct (attempt_shape E t i N retries s)
    as (r & s1 & rest & Hrun & Hs1 & _ & _ & _).
  destruct (Nat.eq_dec n (attempts s)) as [->|Hne].
  - rewrite (attempt_aborts t i N retries s e Hb Ha).
    repeat split. exists []. reflexivity.
  - rewrite Hrun in *. destruct r as [[r'|]|e'].
    + rewrite final_after in Hn.
      destruct (IH r' s1 n e) as (Ho & Hfin & pre & Hpre); auto; [lia|].
      rewrite outcome_after, final_after, trace_after. repeat split; auto.
      exists (SearchAttempt t i N :: rest ++ pre)%list.
      rewrite Hpre. simpl. now rewrite app_assoc.
    + unfold final in Hn; simpl in Hn. lia.
    + unfold final in Hn; simpl in Hn. lia.
Qed.

Lemma for_terms_aborts (N : nat) (terms : list string) :
  forall (i : nat) (s : state) (n : nat) (e : exn),
    let x := for_terms E i N terms s in
    (attempts s <= n < attempts (final x))%nat ->
    (forall u, browse E n u = Raise e) ->
    aborting e = true ->
    outcome x = Raise e /\
    attempts (final x) = S n /\
    exists pre u j,
      trace x = (pre ++ SearchAttempt u j N :: abort_log e)%list.
Proof.
  induction terms as [|t rest IH]; intros i s n e x; subst x.
  - unfold final; simpl. lia.
  - rewrite for_terms_cons. destruct (running s).
    + pose proof (retry_passes_aborts (passes E) t i N 0 s n e) as Hloop.
      destruct (retry_passes_calls E (passes E) t i N 0 s) as (_ & _ & _ & Hn1).
      destruct (retry_passes E (passes E) t i N 0 s) as [[[[]|e1] s1] t1];
        unfold final, trace, outcome in Hloop, Hn1; simpl in Hloop, Hn1.
      * rewrite final_after, outcome_after, trace_after. intros Hn Hb Ha.
        assert (Hin : (attempts s1 <= n)%nat).
        { destruct (le_lt_dec (attempts s1) n) as [|Hlt]; auto.
          assert (Hn' : (attempts s <= n < attempts s1)%nat) by lia.
          specialize (Hloop Hn' (Hb t) Ha).
          destruct Hloop as (Ho & _). discriminate. }
        pose proof (IH (S i) s1 n e (conj Hin (proj2 Hn)) Hb Ha) as IH'.
        destruct IH' as (Ho & Hfin & pre & u & j & Hpre).
        repeat split; auto. exists (t1 ++ pre)%list, u, j.
        rewrite Hpre. now rewrite app_assoc.
      * unfold final, trace, outcome; simpl. intros Hn Hb Ha.
        specialize (Hloop Hn (Hb t) Ha).
        destruct Hloop as (Ho & Hfin & pre & Hpre).
        repeat split; auto. now exists pre, t, i.
    + rewrite update_status_run. unfold final; simpl. lia.
Qed.

End Aborts.

(** X8. Only timeouts are retried.  A call of [single_search] on which
    the browser raises any other exception is the last call of the run:
    [perform_search] raises that very exception after [quit] and the
    closing report, and it has logged the exception only if it is a
    WebDriver error: any other leaves no line in the log. *)
Theorem only_timeouts_are_retried :
  forall (E : env) (search_file driver_path : string)
         (terms : list string) (s : state) (n : nat) (e : exn),
    isfile E search_file = true ->
    isfile E driver_path = true ->
    BingSearchAutomation.terms_of E search_file = Some terms ->
    terms <> [] ->
    BingSearchAutomation.session_opens E driver_path = true ->
    let x := BingSearchAutomation.perform_search E search_file driver_path s in
    let N := List.length terms in
    (attempts s <= n < attempts (final x))%nat ->
    (forall u, browse E n u = Raise e) ->
    aborting e = true ->
    outcome x = Raise e /\
    attempts (final x) = S n /\
    exists pre u j c,
      trace x
      = (pre ++ SearchAttempt u j N :: abort_log e
         ++ [Quit; Status (BingSearchAutomation.completed_message c N)])%list.
Proof.
  intros E sf dp terms s n e Hs Hd Ht Hne Ho x N. subst x N.
  destruct terms as [|t0 ts]; [congruence|].
  rewrite (perform_search_opened E sf dp t0 ts s Hs Hd Ht Ho).
  set (N := List.length (t0 :: ts)).
  set (loop := BingSearchAutomation.for_terms E 1 N (t0 :: ts) (looping s)).
  unfold outcome at 1, trace at 1, final at 1 2. cbn [fst snd].
  intros Hn Hb Ha.
  destruct (for_terms_aborts E N (t0 :: ts) 1 (looping s) n e)
    as (Hout & Hfin & pre & u & j & Hpre); auto.
  fold loop in Hout, Hfin, Hpre.
  repeat split; auto.
  exists (ReadFile sf :: opening E dp ++ pre)%list, u, j,
    (completed_searches (final loop)).
  rewrite Hpre. simpl. rewrite <- !app_assoc. reflexivity.
Qed.

Lemma only_timeouts_are_retried_witness :
  let E := sample_env Config.DEFAULT_CONFIG ["terms.txt"; "msedgedriver.exe"]
                      cats_dogs_blank accepts breaks_second in
  let x := BingSearchAutomation.perform_search E "terms.txt" "msedgedriver.exe" fresh in
  let e := mk_exn OSError "Connection reset by peer" in
  outcome x = Raise e /\
  attempts (final x) = 2%nat /\
  exists pre u j c,
    trace x
    = (pre ++ SearchAttempt u j 2 :: abort_log e
       ++ [Quit; Status (BingSearchAutomation.completed_message c 2)])%list.
Proof.
  apply (only_timeouts_are_retried
           (sample_env Config.DEFAULT_CONFIG ["terms.txt"; "msedgedriver.exe"]
                       cats_dogs_blank accepts breaks_second)
           "terms.txt" "msedgedriver.exe" ["cats"; "dogs"] fresh 1
           (mk_exn OSError "Connection reset by peer"));
    try reflexivity.
  - discriminate.
  - vm_compute. lia.
Defined.

(** * Checks of the inputs, and a configuration of the wrong type *)

Lemma all_blank_no_terms (text : string) :
  all_blank text = true -> Str.stripped_lines (Str.readlines "" text) = [].
Proof.
  unfold all_blank. rewrite stripped_lines_filter.
  induction (Str.readlines "" text) as [|l lines IH]; simpl; auto.
  intros H. apply andb_prop in H as [Hl Hlines].
  rewrite Hl. simpl. auto.
Qed.

(** X9. A search file whose lines are all blank (an empty file among
    them) makes [perform_search] raise [ValueError] right after reading
    it: no session is opened and no report is made. *)
Theorem perform_search_blank_file :
  forall (E : env) (search_file driver_path text : string) (s : state),
    isfile E search_file = true ->
    isfile E driver_path = true ->
    read_text E search_file = Ok text ->
    all_blank text = true ->
    BingSearchAutomation.perform_search E search_file driver_path s
    = (Raise (mk_exn ValueError "El archivo de búsquedas está vacío"),
       s, [ReadFile search_file]).
Proof.
  intros E sf dp text s Hs Hd Htext Hblank.
  unfold BingSearchAutomation.perform_search. cbn [map forallb].
  rewrite Hs, Hd. cbn [andb negb].
  rewrite bind_run, (read_searches_run E sf [] s).
  - reflexivity.
  - unfold BingSearchAutomation.terms_of.
    now rewrite Htext, (all_blank_no_terms text Hblank).
Qed.

Lemma perform_search_blank_file_witness :
  BingSearchAutomation.perform_search
    (sample_env Config.DEFAULT_CONFIG ["terms.txt"; "msedgedriver.exe"]
                ("  " ++ newline ++ String Str.CR newline) accepts loads)
    "terms.txt" "msedgedriver.exe" fresh
  = (Raise (mk_exn ValueError "El archivo de búsquedas está vacío"),
     fresh, [ReadFile "terms.txt"]).
Proof.
  apply (perform_search_blank_file
           (sample_env Config.DEFAULT_CONFIG ["terms.txt"; "msedgedriver.exe"]
                       ("  " ++ newline ++ String Str.CR newline) accepts loads)
           "terms.txt" "msedgedriver.exe"
           ("  " ++ newline ++ String Str.CR newline) fresh);
    reflexivity.
Defined.

(** X10. A search file that exists but cannot be read (or decoded)
    makes [perform_search] raise a plain [Exception] whose message is
    "Error leyendo archivo de búsquedas: " followed by the original
    message; the class of the original error is lost, and no session is
    opened. *)
Theorem perform_search_unreadable_file :
  forall (E : env) (search_file driver_path : string) (s : state) (e : exn),
    isfile E search_file = true ->
    isfile E driver_path = true ->
    read_text E search_file = Raise e ->
    isinstance e Exception = true ->
    BingSearchAutomation.perform_search E search_file driver_path s
    = (Raise (mk_exn Exception
                ("Error leyendo archivo de búsquedas: " ++ exn_msg e)),
       s, [ReadFile search_file]).
Proof.
  intros E sf dp s e Hs Hd Hread He.
  unfold BingSearchAutomation.perform_search. cbn [map forallb].
  rewrite Hs, Hd. cbn [andb negb].
  rewrite bind_run. unfold BingSearchAutomation.read_searches, try_except.
  rewrite bind_emit, Hread, bind_lift_raise. simpl. rewrite He. reflexivity.
Qed.

Lemma perform_search_unreadable_file_witness :
  BingSearchAutomation.perform_search
    (mk_env Config.DEFAULT_CONFIG (fun _ => true)
            (fun _ => Raise (mk_exn ValueError
                               "'utf-8' codec can't decode byte 0xff"))
            (fun _ _ => Ok tt) accepts loads (Ok tt) (fun _ _ flag => flag)
            (fun _ _ _ => Sleeps))
    "terms.txt" "msedgedriver.exe" fresh
  = (Raise (mk_exn Exception
              ("Error leyendo archivo de búsquedas: "
               ++ "'utf-8' codec can't decode byte 0xff")),
     fresh, [ReadFile "terms.txt"]).
Proof.
  apply (perform_search_unreadable_file
           (mk_env Config.DEFAULT_CONFIG (fun _ => true)
                   (fun _ => Raise (mk_exn ValueError
                                      "'utf-8' codec can't decode byte 0xff"))
                   (fun _ _ => Ok tt) accepts loads (Ok tt)
                   (fun _ _ flag => flag) (fun _ _ _ => Sleeps))
           "terms.txt" "msedgedriver.exe" fresh
           (mk_exn ValueError "'utf-8' codec can't decode byte 0xff"));
    reflexivity.
Defined.

(** X11. [max_retries] is used as it was loaded.  When it is bound to
    a value that is not a number (a string, a list, null), a run that
    is not cancelled raises [TypeError] at the first test of the loop:
    the session was opened and is closed, no search is made, and the run
    ends with the report 0 of N. *)
Theorem perform_search_max_retries_not_a_number :
  forall (E : env) (search_file driver_path : string)
         (terms : list string) (m : value) (s : state),
    isfile E search_file = true ->
    isfile E driver_path = true ->
    BingSearchAutomation.terms_of E search_file = Some terms ->
    terms <> [] ->
    BingSearchAutomation.session_opens E driver_path = true ->
    dict_get (config E) "max_retries" = Some m ->
    as_int m = None ->
    running s = true ->
    let x := BingSearchAutomation.perform_search E search_file driver_path s in
    let N := List.length terms in
    (exists e, outcome x = Raise e /\ exn_cls e = TypeError) /\
    trace x
    = (ReadFile search_file :: opening E driver_path
       ++ [Quit; Status (BingSearchAutomation.completed_message 0 N)])%list.
Proof.
  intros E sf dp terms m s Hs Hd Ht Hne Ho Hm Hnum Hrun x N. subst x N.
  destruct terms as [|t ts]; [congruence|].
  rewrite (perform_search_opened E sf dp t ts s Hs Hd Ht Ho).
  rewrite for_terms_cons.
  change (running (looping s)) with (running s). rewrite Hrun.
  rewrite retry_passes_run, Hm. unfold BingSearchAutomation.int_lt. rewrite Hnum.
  unfold outcome, trace, final. cbn [fst snd]. split; [|reflexivity].
  eexists. split; reflexivity.
Qed.

Lemma perform_search_max_retries_not_a_number_witness :
  let E := sample_env (dict_merge Config.DEFAULT_CONFIG [("max_retries", PyStr "3")])
                      ["terms.txt"; "msedgedriver.exe"]
                      cats_dogs_blank accepts loads in
  let x := BingSearchAutomation.perform_search E "terms.txt" "msedgedriver.exe" fresh in
  (exists e, outcome x = Raise e /\ exn_cls e = TypeError) /\
  trace x
  = (ReadFile "terms.txt" :: opening E "msedgedriver.exe"
     ++ [Quit; Status (BingSearchAutomation.completed_message 0 2)])%list.
Proof.
  apply (perform_search_max_retries_not_a_number
           (sample_env (dict_merge Config.DEFAULT_CONFIG
                                   [("max_retries", PyStr "3")])
                       ["terms.txt"; "msedgedriver.exe"]
                       cats_dogs_blank accepts loads)
           "terms.txt" "msedgedriver.exe" ["cats"; "dogs"] (PyStr "3") fresh);
    try reflexivity.
  discriminate.
Defined.

(** X12. [search_delay] is used as it was loaded, and only after the
    browser has done the search.  When it is a value of the kinds json
    holds from which [random.uniform] cannot draw (it does not unpack
    into two numbers, or the numbers are too large for a float), the
    first search is carried out in the browser and then [single_search]
    raises the error of [random.uniform], a [TypeError] or an
    [OverflowError]: the search is neither reported nor counted nor
    retried, and the run ends there with the report 0 of N. *)
Theorem perform_search_delay_not_a_window :
  forall (E : env) (search_file driver_path : string)
         (t : string) (ts : list string) (R : Z) (d : value) (e : exn)
         (s : state),
    isfile E search_file = true ->
    isfile E driver_path = true ->
    BingSearchAutomation.terms_of E search_file = Some (t :: ts) ->
    BingSearchAutomation.session_opens E driver_path = true ->
    dict_get (config E) "max_retries" = Some (PyInt R) ->
    0 < R ->
    dict_get (config E) "search_delay" = Some d ->
    encodable d = true ->
    BingSearchAutomation.uniform_args d = Raise e ->
    running s = true ->
    browse E (attempts s) t = Ok tt ->
    let x := BingSearchAutomation.perform_search E search_file driver_path s in
    let N := List.length (t :: ts) in
    outcome x = Raise e /\
    (exn_cls e = TypeError \/ exn_cls e = OverflowError) /\
    completed_searches (final x) = 0 /\
    trace x
    = (ReadFile search_file :: opening E driver_path
       ++ [ SearchAttempt t 1 N;
            Quit;
            Status (BingSearchAutomation.completed_message 0 N) ])%list.
Proof.
  intros E sf dp t ts R d e s Hs Hd Ht Ho Hm HR Hdelay _ Hw Hrun Hb x N. subst x N.
  rewrite (perform_search_opened E sf dp t ts s Hs Hd Ht Ho).
  pose proof (uniform_args_raises d e Hw) as Hcls.
  assert (Hattempt :
            BingSearchAutomation.attempt E t 1 (List.length (t :: ts)) 0 (looping s)
            = (Raise e, count_attempt (looping s),
               [SearchAttempt t 1 (List.length (t :: ts))])).
  { unfold BingSearchAutomation.attempt, try_except.
    rewrite bind_run, single_search_run.
    change (attempts (looping s)) with (attempts s).
    rewrite Hb, Hdelay, Hw. simpl. unfold isinstance.
    destruct Hcls as [-> | ->]; reflexivity. }
  assert (Hp : exists fuel, BingSearchAutomation.passes E = S fuel).
  { unfold BingSearchAutomation.passes, BingSearchAutomation.passes_left.
    rewrite Hm. simpl.
    exists (Nat.pred (Z.to_nat R)). lia. }
  destruct Hp as (fuel & Hp).
  rewrite for_terms_cons.
  change (running (looping s)) with (running s). rewrite Hrun, Hp.
  rewrite retry_passes_run, Hm. unfold BingSearchAutomation.int_lt. cbn [as_int].
  assert (Hlt : (0 <? R) = true) by (apply Z.ltb_lt; lia).
  change (running (looping s)) with (running s).
  rewrite Hlt, Hrun. cbn [andb]. rewrite Hattempt.
  unfold outcome, trace, final. cbn [fst snd]. repeat split; auto.
Qed.

Lemma perform_search_delay_not_a_window_witness :
  let E := sample_env (dict_merge Config.DEFAULT_CONFIG [("search_delay", PyInt 5)])
                      ["terms.txt"; "msedgedriver.exe"]
                      cats_dogs_blank accepts loads in
  let x := BingSearchAutomation.perform_search E "terms.txt" "msedgedriver.exe" fresh in
  let e := mk_exn TypeError
                  "random.Random.uniform() argument after * must be an iterable, not int" in
  outcome x = Raise e /\
  (exn_cls e = TypeError \/ exn_cls e = OverflowError) /\
  completed_searches (final x) = 0 /\
  trace x
  = (ReadFile "terms.txt" :: opening E "msedgedriver.exe"
     ++ [ SearchAttempt "cats" 1 2;
          Quit;
          Status (BingSearchAutomation.completed_message 0 2) ])%list.
Proof.
  apply (perform_search_delay_not_a_window
           (sample_env (dict_merge Config.DEFAULT_CONFIG
                                   [("search_delay", PyInt 5)])
                       ["terms.txt"; "msedgedriver.exe"]
                       cats_dogs_blank accepts loads)
           "terms.txt" "msedgedriver.exe" "cats" ["dogs"] 3 (PyInt 5)
           (mk_exn TypeError
                   "random.Random.uniform() argument after * must be an iterable, not int")
           fresh);
    reflexivity.
Defined.

(** X13. When the browser cannot be started, [perform_search] raises a
    plain [Exception] whose message is "Error al configurar WebDriver: "
    followed by the original message, whatever the class of the
    original error (a WebDriver error included): nothing is logged by
    the run, no session exists and none is quit, and the report 0 of N
    is still made. *)
Theorem perform_search_browser_does_not_start :
  forall (E : env) (search_file driver_path : string)
         (terms : list string) (h : value) (e : exn) (s : state),
    isfile E search_file = true ->
    isfile E driver_path = true ->
    BingSearchAutomation.terms_of E search_file = Some terms ->
    terms <> [] ->
    dict_get (config E) "headless_mode" = Some h ->
    edge E driver_path (truthy h) = Raise e ->
    isinstance e Exception = true ->
    let x := BingSearchAutomation.perform_search E search_file driver_path s in
    let N := List.length terms in
    outcome x
    = Raise (mk_exn Exception ("Error al configurar WebDriver: " ++ exn_msg e)) /\
    trace x
    = [ReadFile search_file;
       Status (BingSearchAutomation.completed_message 0 N)].
Proof.
  intros E sf dp terms h e s Hs Hd Ht Hne Hh He Hexn x N. subst x N.
  destruct terms as [|t ts]; [congruence|].
  rewrite (perform_search_run E sf dp t ts s Hs Hd Ht), try_finally_cleanup.
  assert (Hsetup :
            BingSearchAutomation.setup_driver E dp (entering s)
            = (Raise (mk_exn Exception ("Error al configurar WebDriver: " ++ exn_msg e)),
               entering s, [])).
  { unfold BingSearchAutomation.setup_driver, BingSearchAutomation.config_get.
    rewrite Hh, bind_ret. unfold try_except.
    rewrite He, bind_lift_raise. simpl. rewrite Hexn. reflexivity. }
  rewrite bind_run, Hsetup. split; reflexivity.
Qed.

Lemma perform_search_browser_does_not_start_witness :
  let E := mk_env Config.DEFAULT_CONFIG (fun _ => true)
                  (fun _ => Ok cats_dogs_blank)
                  (fun _ _ => Raise (mk_exn WebDriverException
                                       "msedgedriver.exe is not executable"))
                  accepts loads (Ok tt) (fun _ _ flag => flag)
                  (fun _ _ _ => Sleeps) in
  let x := BingSearchAutomation.perform_search E "terms.txt" "msedgedriver.exe" fresh in
  outcome x
  = Raise (mk_exn Exception
             ("Error al configurar WebDriver: "
              ++ "msedgedriver.exe is not executable")) /\
  trace x
  = [ReadFile "terms.txt"; Status (BingSearchAutomation.completed_message 0 2)].
Proof.
  apply (perform_search_browser_does_not_start
           (mk_env Config.DEFAULT_CONFIG (fun _ => true)
                   (fun _ => Ok cats_dogs_blank)
                   (fun _ _ => Raise (mk_exn WebDriverException
                                        "msedgedriver.exe is not executable"))
                   accepts loads (Ok tt) (fun _ _ flag => flag)
                   (fun _ _ _ => Sleeps))
           "terms.txt" "msedgedriver.exe" ["cats"; "dogs"] (PyBool false)
           (mk_exn WebDriverException "msedgedriver.exe is not executable")
           fresh);
    try reflexivity.
  discriminate.
Defined.

Section NoPass.

Variable E : env.

Import BingSearchAutomation.

(** With a limit that is zero or less no retry loop is entered. *)
Lemma for_terms_no_pass (N : nat) (m : value) (r : Z) :
  dict_get (config E) "max_retries" = Some m ->
  as_int m = Some r ->
  r <= 0 ->
  forall (terms : list string) (i : nat) (s : state),
    for_terms E i N terms s
    = match terms with
      | [] => (Ok tt, s, [])
      | _ :: _ =>
          if running s then (Ok tt, s, [])
          else update_status E cancelled_message s
      end.
Proof.
  intros Hm Hr Hle. induction terms as [|t rest IH]; intros i s; auto.
  rewrite for_terms_cons. destruct (running s) eqn:Hrun; auto.
  rewrite retry_passes_run, Hm. unfold int_lt. rewrite Hr.
  assert (Hlt : (0 <? r) = false) by (apply Z.ltb_ge; lia).
  rewrite Hlt. simpl.
  rewrite IH. destruct rest; auto. now rewrite Hrun.
Qed.

End NoPass.

(** X14. A negative [max_retries] is no error: like zero, it makes a
    run that is not cancelled open the session, search nothing, close
    the session and report 0 of N, returning normally. *)
Theorem perform_search_negative_max_retries :
  forall (E : env) (search_file driver_path : string)
         (terms : list string) (m : value) (r : Z) (s : state),
    isfile E search_file = true ->
    isfile E driver_path = true ->
    BingSearchAutomation.terms_of E search_file = Some terms ->
    terms <> [] ->
    BingSearchAutomation.session_opens E driver_path = true ->
    dict_get (config E) "max_retries" = Some m ->
    as_int m = Some r ->
    r <= 0 ->
    running s = true ->
    let N := List.length terms in
    BingSearchAutomation.perform_search E search_file driver_path s
    = (Ok tt, reported E N (looping s),
       ReadFile search_file :: opening E driver_path
       ++ [Quit; Status (BingSearchAutomation.completed_message 0 N)])%list.
Proof.
  intros E sf dp terms m r s Hs Hd Ht Hne Ho Hm Hr Hle Hrun N. subst N.
  destruct terms as [|t ts]; [congruence|].
  rewrite (perform_search_opened E sf dp t ts s Hs Hd Ht Ho).
  rewrite (for_terms_no_pass E _ m r Hm Hr Hle).
  change (running (looping s)) with (running s). rewrite Hrun. reflexivity.
Qed.

Lemma perform_search_negative_max_retries_witness :
  let E := sample_env (dict_merge Config.DEFAULT_CONFIG [("max_retries", PyInt (-2))])
                      ["terms.txt"; "msedgedriver.exe"]
                      cats_dogs_blank accepts loads in
  BingSearchAutomation.perform_search E "terms.txt" "msedgedriver.exe" fresh
  = (Ok tt, reported E 2 (looping fresh),
     ReadFile "terms.txt" :: opening E "msedgedriver.exe"
     ++ [Quit; Status (BingSearchAutomation.completed_message 0 2)])%list.
Proof.
  apply (perform_search_negative_max_retries
           (sample_env (dict_merge Config.DEFAULT_CONFIG
                                   [("max_retries", PyInt (-2))])
                       ["terms.txt"; "msedgedriver.exe"]
                       cats_dogs_blank accepts loads)
           "terms.txt" "msedgedriver.exe" ["cats"; "dogs"] (PyInt (-2)) (-2) fresh);
    try reflexivity.
  - discriminate.
  - lia.
Defined.

(** * The failure log *)

Lemma log_errors_timeout_passes (t : string) (i N : nat) (R : Z) :
  forall (n : nat) (retries : Z),
    retries + Z.of_nat n <= R ->
    log_errors (timeout_passes t i N R retries n)
    = if (Nat.eqb n 0) then []
      else if retries + Z.of_nat n =? R
           then [BingSearchAutomation.failed_message t R]
           else [].
Proof.
  induction n as [|n IH]; intros retries Hle; cbn [timeout_passes]; auto.
  rewrite log_errors_app, IH by lia. unfold timeout_pass.
  change (Nat.eqb (S n) 0) with false. cbv iota.
  replace (retries + 1 + Z.of_nat n) with (retries + Z.of_nat (S n)) by lia.
  destruct n as [|n'].
  - change (Z.of_nat 1) with 1. simpl Nat.eqb. cbv iota.
    destruct (Z.eqb_spec (retries + 1) R) as [Heq|Hne].
    + rewrite <- Heq. reflexivity.
    + reflexivity.
  - assert (H1 : (retries + 1 =? R) = false) by (apply Z.eqb_neq; lia).
    rewrite H1. reflexivity.
Qed.

Lemma log_errors_all_timeouts (N : nat) (R : Z) :
  0 < R ->
  forall (terms : list string) (i : nat),
    log_errors (all_timeouts terms i N R)
    = map (fun t => BingSearchAutomation.failed_message t R) terms.
Proof.
  intros HR. induction terms as [|t rest IH]; intros i; cbn [all_timeouts]; auto.
  rewrite log_errors_app, IH, log_errors_timeout_passes by lia.
  destruct (Nat.eqb_spec (Z.to_nat R) 0) as [Hz|_]; [lia|].
  replace (0 + Z.of_nat (Z.to_nat R) =? R) with true
    by (symmetry; apply Z.eqb_eq; lia).
  reflexivity.
Qed.

(** X15. With [max_retries = R] at least 1, when every search times out
    and nobody cancels, the run logs exactly one error for each term, in
    the order of the file: "Fallo al completar búsqueda para 'term'
    después de R reintentos". *)
Theorem perform_search_logs_each_failed_term :
  forall (E : env) (search_file driver_path : string)
         (terms : list string) (R : Z) (s : state),
    isfile E search_file = true ->
    isfile E driver_path = true ->
    BingSearchAutomation.terms_of E search_file = Some terms ->
    terms <> [] ->
    BingSearchAutomation.session_opens E driver_path = true ->
    dict_get (config E) "max_retries" = Some (PyInt R) ->
    0 < R ->
    running s = true ->
    (forall n msg, status_callback E n msg true = true) ->
    (forall n u, exists e, browse E n u = Raise e /\ exn_cls e = TimeoutException) ->
    log_errors
      (trace (BingSearchAutomation.perform_search E search_file driver_path s))
    = map (fun t => BingSearchAutomation.failed_message t R) terms.
Proof.
  intros E sf dp terms R s Hs Hd Ht Hne Ho Hm HR Hrun Hcb Hto.
  destruct terms as [|t ts]; [congruence|].
  rewrite (perform_search_opened E sf dp t ts s Hs Hd Ht Ho).
  rewrite (for_terms_timeouts E _ R Hm Hto Hcb (t :: ts) 1 (looping s) Hrun).
  unfold trace. cbn [fst snd].
  change (ReadFile sf :: ?l) with ([ReadFile sf] ++ l)%list.
  rewrite !log_errors_app, log_errors_opening, log_errors_all_timeouts by lia.
  simpl. now rewrite app_nil_r.
Qed.

Lemma perform_search_logs_each_failed_term_witness :
  log_errors
    (trace (BingSearchAutomation.perform_search
              (sample_env Config.DEFAULT_CONFIG ["terms.txt"; "msedgedriver.exe"]
                          cats_dogs_blank accepts times_out)
              "terms.txt" "msedgedriver.exe" fresh))
  = map (fun t => BingSearchAutomation.failed_message t 3) ["cats"; "dogs"].
Proof.
  apply (perform_search_logs_each_failed_term
           (sample_env Config.DEFAULT_CONFIG ["terms.txt"; "msedgedriver.exe"]
                       cats_dogs_blank accepts times_out)
           "terms.txt" "msedgedriver.exe" ["cats"; "dogs"] 3 fresh);
    try reflexivity.
  - discriminate.
  - intros n u. eexists. split; reflexivity.
Defined.

(** * Starting the program *)

Lemma ref_load_agrees (defaults : dict) (fs : disk) :
  Config.load_from defaults fs
  = match Ref.load defaults fs with
    | (Ok r, log) => (Ok (Ref.deref defaults r), log)
    | (Raise e, log) => (Raise e, log)
    end.
Proof.
  unfold Config.load_from, Ref.load.
  destruct (Config.load_try defaults fs) as [d|e]; auto.
  destruct (isinstance e FileNotFoundError); auto.
  destruct (isinstance e Exception); auto.
Qed.

(** X16. Whatever the configuration file holds, [__init__] finds
    "save_log" bound when it sets up logging: it never fails on a
    missing key.  Only if the value bound is true does it make the log
    directory and name a log file; it fails only if that directory
    cannot be made or that file cannot be opened, with the error of
    [os.makedirs] or of the opening.  When [Config.load] has logged an
    error, logging is configured by then and no log file is opened.
    Otherwise the object starts with [running = True] and the loaded
    configuration. *)
Theorem init_fails_only_on_the_log_file :
  forall (fs : disk) (h : Startup.host),
    exists d log r v,
      Config.load fs = (Ok d, log) /\
      Ref.deref Config.DEFAULT_CONFIG r = d /\
      dict_get d "save_log" = Some v /\
      let log_filename :=
        Startup.join h (Startup.log_path h)
                     ("search_log_" ++ Startup.stamp h ++ ".log") in
      Startup.init Config.DEFAULT_CONFIG fs h
      = if truthy v then
          match Startup.makedirs h (Startup.log_path h) with
          | Raise e => (Raise e, map Startup.Logged log)
          | Ok _ =>
              match log with
              | _ :: _ =>
                  (Ok (r, true),
                   map Startup.Logged log
                   ++ [Startup.MakeDirs (Startup.log_path h)])%list
              | [] =>
                  match Startup.open_log h log_filename with
                  | Raise e => (Raise e, [Startup.MakeDirs (Startup.log_path h)])
                  | Ok _ =>
                      (Ok (r, true),
                       [ Startup.MakeDirs (Startup.log_path h);
                         Startup.BasicConfig log_filename ])
                  end
              end
          end
        else (Ok (r, true), map Startup.Logged log).
Proof.
  intros fs h.
  destruct (load_from_total Config.DEFAULT_CONFIG fs) as (d & log & Hload).
  fold (Config.load fs) in Hload.
  destruct (load_result_fine fs d log Hload) as (_ & Hdef).
  assert (Hv : exists v, dict_get d "save_log" = Some v).
  { destruct (dict_get d "save_log") eqn:Hg; eauto.
    exfalso. apply (Hdef "save_log"); [discriminate | exact Hg]. }
  destruct Hv as (v & Hv).
  pose proof Hload as Href.
  unfold Config.load in Href. rewrite ref_load_agrees in Href.
  unfold Startup.init.
  destruct (Ref.load Config.DEFAULT_CONFIG fs) as [[r|e] log'];
    [|discriminate].
  injection Href as Hd Hlog. subst log'.
  exists d, log, r, v. repeat split; auto. cbv zeta.
  unfold Startup.setup_logging, Startup.basic_config. rewrite Hd, Hv.
  destruct (truthy v); [|now rewrite app_nil_r].
  destruct (Startup.makedirs h (Startup.log_path h)) as [[]|e];
    [|now rewrite app_nil_r].
  destruct log as [|l log]; [|reflexivity].
  cbn [Startup.has_logged map app].
  destruct (Startup.open_log h _) as [[]|e]; reflexivity.
Qed.

(** * Starting a run from the GUI *)

Lemma save_returns (c : value) (fs : disk) :
  exists fs' log, Config.save c fs = (Ok tt, fs', log).
Proof.
  unfold Config.save, Config.save_try.
  destruct (write_error fs); [simpl; eauto|].
  destruct (Json.encode c); simpl; eauto.
Qed.

Lemma store_deref (defaults : dict) (r : Ref.config_ref) (k : string) (v : value) :
  Ref.deref (fst (Ref.store defaults r k v)) (snd (Ref.store defaults r k v))
  = dict_set (Ref.deref defaults r) k v.
Proof. now destruct r. Qed.

Lemma automation_part_app (t1 t2 : list SearchAutomationGUI.ui_event) :
  automation_part (t1 ++ t2) = (automation_part t1 ++ automation_part t2)%list.
Proof. unfold automation_part. apply flat_map_app. Qed.

Lemma automation_part_logged (log : list string) :
  automation_part (map SearchAutomationGUI.Logged log) = [].
Proof. induction log; simpl; auto. Qed.

Lemma automation_part_automation (t : list event) :
  automation_part (map SearchAutomationGUI.Automation t) = t.
Proof. induction t as [|ev t IH]; simpl; auto. now rewrite IH. Qed.

Lemma dialogs_app (t1 t2 : list SearchAutomationGUI.ui_event) :
  dialogs (t1 ++ t2) = (dialogs t1 ++ dialogs t2)%list.
Proof. unfold dialogs. apply flat_map_app. Qed.

Lemma dialogs_logged (log : list string) :
  dialogs (map SearchAutomationGUI.Logged log) = [].
Proof. induction log; simpl; auto. Qed.

Lemma dialogs_automation (t : list event) :
  dialogs (map SearchAutomationGUI.Automation t) = [].
Proof. induction t; simpl; auto. Qed.

(** [start_search] once both fields are filled in: the choice is
    stored, the configuration saved, the flag set, the run made and its
    outcome turned into the events of the GUI. *)
Lemma start_search_run (E : env) (a : SearchAutomationGUI.app) :
  fields_filled a = true ->
  exists fs' log,
    Config.save (PyDict (started_config a)) (SearchAutomationGUI.files a)
    = (Ok tt, fs', log) /\
    let sf := SearchAutomationGUI.search_file_entry a in
    let dp := SearchAutomationGUI.driver_file_entry a in
    let stored := Ref.store (SearchAutomationGUI.DEFAULT_CONFIG a)
                            (SearchAutomationGUI.automation_config a)
                            "headless_mode"
                            (PyBool (SearchAutomationGUI.headless_var a)) in
    let run := BingSearchAutomation.perform_search
                 (with_config (started_config a) E) sf dp
                 (set_running true (SearchAutomationGUI.automation a)) in
    let a' := SearchAutomationGUI.mk_app
                (fst stored) (snd stored) (final run) sf dp
                (SearchAutomationGUI.headless_var a) fs' in
    let before := (map SearchAutomationGUI.Logged log
                   ++ [SearchAutomationGUI.ProgressStart]
                   ++ map SearchAutomationGUI.Automation (trace run))%list in
    SearchAutomationGUI.start_search E a
    = match outcome run with
      | Ok _ => (Ok tt, a', (before ++ [SearchAutomationGUI.ProgressStop])%list)
      | Raise e =>
          if isinstance e Exception then
            (Ok tt, a',
             (before
              ++ [ SearchAutomationGUI.ShowError "Error" (exn_msg e);
                   SearchAutomationGUI.Logged
                     ("Error durante la búsqueda: " ++ exn_msg e);
                   SearchAutomationGUI.ProgressStop ])%list)
          else (Raise e, a', (before ++ [SearchAutomationGUI.ProgressStop])%list)
      end.
Proof.
  intros Hf. unfold fields_filled in Hf. apply andb_prop in Hf as [H1 H2].
  apply negb_true_iff in H1, H2.
  destruct (save_returns (PyDict (started_config a)) (SearchAutomationGUI.files a))
    as (fs' & log & Hsave).
  exists fs', log. split; auto. cbv zeta.
  unfold SearchAutomationGUI.start_search. rewrite H1, H2. cbn [orb].
  pose proof (store_deref (SearchAutomationGUI.DEFAULT_CONFIG a)
                          (SearchAutomationGUI.automation_config a)
                          "headless_mode"
                          (PyBool (SearchAutomationGUI.headless_var a))) as Hderef.
  fold (SearchAutomationGUI.current_config a) in Hderef.
  fold (started_config a) in Hderef.
  destruct (Ref.store (SearchAutomationGUI.DEFAULT_CONFIG a)
                      (SearchAutomationGUI.automation_config a)
                      "headless_mode"
                      (PyBool (SearchAutomationGUI.headless_var a)))
    as [defaults r].
  cbn [fst snd] in *. rewrite Hderef, Hsave.
  destruct (BingSearchAutomation.perform_search
              (with_config (started_config a) E)
              (SearchAutomationGUI.search_file_entry a)
              (SearchAutomationGUI.driver_file_entry a)
              (set_running true (SearchAutomationGUI.automation a)))
    as [[[[]|e] s'] t]; reflexivity.
Qed.

Lemma perform_search_not_found (E : env) (sf dp : string) (s : state) :
  isfile E dp = false \/ isfile E sf = false ->
  BingSearchAutomation.perform_search E sf dp s
  = (Raise BingSearchAutomation.not_found, s, []).
Proof.
  intros H. unfold BingSearchAutomation.perform_search. cbn [map forallb].
  destruct H as [H|H]; rewrite H; [destruct (isfile E sf)|]; reflexivity.
Qed.

(** The application [start_search] leaves behind, and the calls of the
    automation object among its events. *)
Lemma start_search_leaves (E : env) (a : SearchAutomationGUI.app) :
  fields_filled a = true ->
  let sf := SearchAutomationGUI.search_file_entry a in
  let dp := SearchAutomationGUI.driver_file_entry a in
  let stored := Ref.store (SearchAutomationGUI.DEFAULT_CONFIG a)
                          (SearchAutomationGUI.automation_config a)
                          "headless_mode"
                          (PyBool (SearchAutomationGUI.headless_var a)) in
  let run := BingSearchAutomation.perform_search
               (with_config (started_config a) E) sf dp
               (set_running true (SearchAutomationGUI.automation a)) in
  exists fs' log,
    Config.save (PyDict (started_config a)) (SearchAutomationGUI.files a)
    = (Ok tt, fs', log) /\
    app_after (SearchAutomationGUI.start_search E a)
    = SearchAutomationGUI.mk_app
        (fst stored) (snd stored) (final run) sf dp
        (SearchAutomationGUI.headless_var a) fs' /\
    automation_part (ui_trace (SearchAutomationGUI.start_search E a)) = trace run.
Proof.
  intros Hf sf dp stored run.
  destruct (start_search_run E a Hf) as (fs' & log & Hsave & Hrun).
  cbv zeta in Hrun. fold sf dp stored run in Hrun.
  exists fs', log. split; auto. rewrite Hrun.
  destruct (outcome run) as [[]|e]; [|destruct (isinstance e Exception)];
    unfold app_after, ui_trace; cbn [fst snd]; split; auto;
    rewrite !automation_part_app, automation_part_logged,
      automation_part_automation; simpl; now rewrite app_nil_r.
Qed.

(** X17. [start_search] saves before it checks.  With both fields
    filled in but a path that is not a file, the choice of the checkbox
    is still stored and the configuration saved, the flag is set and the
    progress bar started; then the run fails at once, the error is
    swallowed into one dialog "Archivo de búsquedas o WebDriver no
    encontrado" and the progress bar is stopped.  The automation object
    called nothing. *)
Theorem start_search_missing_file :
  forall (E : env) (a : SearchAutomationGUI.app),
    fields_filled a = true ->
    isfile E (SearchAutomationGUI.driver_file_entry a) = false \/
    isfile E (SearchAutomationGUI.search_file_entry a) = false ->
    let x := SearchAutomationGUI.start_search E a in
    exists log,
      Config.save (PyDict (started_config a)) (SearchAutomationGUI.files a)
      = (Ok tt, SearchAutomationGUI.files (app_after x), log) /\
      ui_outcome x = Ok tt /\
      ui_trace x
      = (map SearchAutomationGUI.Logged log
         ++ [ SearchAutomationGUI.ProgressStart;
              SearchAutomationGUI.ShowError
                "Error" "Archivo de búsquedas o WebDriver no encontrado";
              SearchAutomationGUI.Logged
                "Error durante la búsqueda: Archivo de búsquedas o WebDriver no encontrado";
              SearchAutomationGUI.ProgressStop ])%list /\
      running (SearchAutomationGUI.automation (app_after x)) = true.
Proof.
  intros E a Hf Hmissing x. subst x.
  destruct (start_search_run E a Hf) as (fs' & log & Hsave & Hrun).
  cbv zeta in Hrun.
  rewrite (perform_search_not_found (with_config (started_config a) E)) in Hrun
    by exact Hmissing.
  unfold outcome, trace, final in Hrun. cbn [fst snd] in Hrun.
  change (isinstance BingSearchAutomation.not_found Exception) with true in Hrun.
  cbv iota in Hrun. rewrite Hrun.
  exists log. unfold app_after, ui_outcome, ui_trace. cbn [fst snd].
  cbn [SearchAutomationGUI.files SearchAutomationGUI.automation].
  repeat split; auto.
  rewrite <- app_assoc. reflexivity.
Qed.

Lemma start_search_missing_file_witness :
  let x := SearchAutomationGUI.start_search
             (sample_env Config.DEFAULT_CONFIG ["terms.txt"] cats_dogs_blank
                         accepts loads)
             (sample_app "terms.txt" "msedgedriver.exe" true) in
  exists log,
    Config.save (PyDict (started_config
                           (sample_app "terms.txt" "msedgedriver.exe" true)))
                (SearchAutomationGUI.files
                   (sample_app "terms.txt" "msedgedriver.exe" true))
    = (Ok tt, SearchAutomationGUI.files (app_after x), log) /\
    ui_outcome x = Ok tt /\
    ui_trace x
    = (map SearchAutomationGUI.Logged log
       ++ [ SearchAutomationGUI.ProgressStart;
            SearchAutomationGUI.ShowError
              "Error" "Archivo de búsquedas o WebDriver no encontrado";
            SearchAutomationGUI.Logged
              "Error durante la búsqueda: Archivo de búsquedas o WebDriver no encontrado";
            SearchAutomationGUI.ProgressStop ])%list /\
    running (SearchAutomationGUI.automation (app_after x)) = true.
Proof.
  apply (start_search_missing_file
           (sample_env Config.DEFAULT_CONFIG ["terms.txt"] cats_dogs_blank
                       accepts loads)
           (sample_app "terms.txt" "msedgedriver.exe" true)).
  - reflexivity.
  - left. reflexivity.
Defined.

(** X18. The choice of the checkbox is persisted by every start: when
    both fields are filled in, the automation's configuration can be
    saved and the file can be written, a [Config.load] after
    [start_search] binds "headless_mode" to the state of the checkbox,
    whatever the run itself did. *)
Theorem start_search_persists_headless :
  forall (E : env) (a : SearchAutomationGUI.app),
    fields_filled a = true ->
    saveable (SearchAutomationGUI.current_config a) = true ->
    write_error (SearchAutomationGUI.files a) = None ->
    let a' := app_after (SearchAutomationGUI.start_search E a) in
    exists d,
      Config.load_from (SearchAutomationGUI.DEFAULT_CONFIG a')
                       (SearchAutomationGUI.files a')
      = (Ok d, []) /\
      dict_get d "headless_mode"
      = Some (PyBool (SearchAutomationGUI.headless_var a)).
Proof.
  intros E a Hf Hs Hw a'. subst a'.
  destruct (start_search_leaves E a Hf) as (fs' & log & Hsave & Happ & _).
  rewrite Happ. cbn [SearchAutomationGUI.DEFAULT_CONFIG SearchAutomationGUI.files].
  assert (Hs' : saveable (started_config a) = true).
  { apply saveable_dict_set; auto. }
  unfold saveable in Hs'. apply andb_prop in Hs' as [Hp He].
  unfold encodable in He.
  destruct (Json.encode (PyDict (started_config a))) as [j|] eqn:Hj;
    [|discriminate].
  pose proof (decode_encode (PyDict (started_config a)) j Hp Hj) as Hdec.
  simpl in Hdec.
  unfold Config.save, Config.save_try in Hsave. rewrite Hw, Hj in Hsave.
  injection Hsave as <- _.
  eexists. split.
  - unfold Config.load_from, Config.load_try. simpl. rewrite Hdec. reflexivity.
  - rewrite dict_get_merge.
    + rewrite dict_get_map. unfold started_config.
      rewrite dict_get_set_same. reflexivity.
    + rewrite keys_map. apply distinct_NoDup.
      simpl in Hp. now apply andb_prop in Hp as [Hp _].
Qed.

Lemma start_search_persists_headless_witness :
  let a' := app_after (SearchAutomationGUI.start_search
                         (sample_env Config.DEFAULT_CONFIG
                                     ["terms.txt"; "msedgedriver.exe"]
                                     cats_dogs_blank accepts loads)
                         (sample_app "terms.txt" "msedgedriver.exe" true)) in
  exists d,
    Config.load_from (SearchAutomationGUI.DEFAULT_CONFIG a')
                     (SearchAutomationGUI.files a')
    = (Ok d, []) /\
    dict_get d "headless_mode" = Some (PyBool true).
Proof.
  apply (start_search_persists_headless
           (sample_env Config.DEFAULT_CONFIG ["terms.txt"; "msedgedriver.exe"]
                       cats_dogs_blank accepts loads)
           (sample_app "terms.txt" "msedgedriver.exe" true));
    reflexivity.
Defined.

(** X19. The browser is started the way the checkbox says, not the way
    the configuration said before: when both files exist, the search
    file holds a term, the automation's configuration binds
    "page_load_timeout" and the browser starts and accepts it, the first
    calls [start_search] has the automation object make are the reading
    of the search file, the launch of the browser at the chosen driver
    path with the headless option exactly when the box is ticked, and
    the setting of that timeout. *)
Theorem start_search_launches_as_the_checkbox_says :
  forall (E : env) (a : SearchAutomationGUI.app) (t : string)
         (ts : list string) (tv : value),
    let sf := SearchAutomationGUI.search_file_entry a in
    let dp := SearchAutomationGUI.driver_file_entry a in
    let hv := SearchAutomationGUI.headless_var a in
    fields_filled a = true ->
    isfile E sf = true ->
    isfile E dp = true ->
    BingSearchAutomation.terms_of E sf = Some (t :: ts) ->
    dict_get (SearchAutomationGUI.current_config a) "page_load_timeout" = Some tv ->
    edge E dp hv = Ok tt ->
    set_page_load_timeout E tv = Ok tt ->
    exists rest,
      automation_part (ui_trace (SearchAutomationGUI.start_search E a))
      = ReadFile sf :: SessionOpened dp hv :: PageLoadTimeoutSet tv :: rest.
Proof.
  intros E a t ts tv sf dp hv Hf Hs Hd Ht Htv He Hset.
  destruct (start_search_leaves E a Hf) as (fs' & log & _ & _ & Hpart).
  rewrite Hpart. fold sf dp.
  set (E' := with_config (started_config a) E).
  assert (Hh : dict_get (config E') "headless_mode" = Some (PyBool hv)).
  { apply dict_get_set_same. }
  assert (Hp : dict_get (config E') "page_load_timeout" = Some tv).
  { unfold E', with_config, started_config. cbn [config].
    rewrite dict_get_set_other by discriminate. exact Htv. }
  assert (Ho : BingSearchAutomation.session_opens E' dp = true).
  { unfold BingSearchAutomation.session_opens. rewrite Hh, Hp.
    cbn [truthy]. change (edge E') with (edge E).
    change (set_page_load_timeout E') with (set_page_load_timeout E).
    now rewrite He, Hset. }
  rewrite (perform_search_opened E' sf dp t ts _ Hs Hd Ht Ho).
  unfold trace. cbn [snd]. unfold opening. rewrite Hh, Hp. cbn [truthy].
  eexists. reflexivity.
Qed.

Lemma start_search_launches_as_the_checkbox_says_witness :
  exists rest,
    automation_part
      (ui_trace (SearchAutomationGUI.start_search
                   (sample_env Config.DEFAULT_CONFIG
                               ["terms.txt"; "msedgedriver.exe"]
                               cats_dogs_blank accepts loads)
                   (sample_app "terms.txt" "msedgedriver.exe" true)))
    = ReadFile "terms.txt" :: SessionOpened "msedgedriver.exe" true
      :: PageLoadTimeoutSet (PyInt 30) :: rest.
Proof.
  apply (start_search_launches_as_the_checkbox_says
           (sample_env Config.DEFAULT_CONFIG ["terms.txt"; "msedgedriver.exe"]
                       cats_dogs_blank accepts loads)
           (sample_app "terms.txt" "msedgedriver.exe" true)
           "cats" ["dogs"] (PyInt 30));
    reflexivity.
Defined.

(** X20. A start writes into the built-in defaults when the automation
    holds them.  If the automation's configuration is the
    [DEFAULT_CONFIG] object itself (what [Config.load] returned when it
    fell back on the defaults), then after [start_search] with both
    fields filled in a [Config.load] that finds no file returns the
    defaults with "headless_mode" bound to the state of the checkbox;
    if the configuration is a dict of its own, [DEFAULT_CONFIG] is left
    as it was. *)
Theorem start_search_writes_into_shared_defaults :
  forall (E : env) (a : SearchAutomationGUI.app),
    fields_filled a = true ->
    let a' := app_after (SearchAutomationGUI.start_search E a) in
    match SearchAutomationGUI.automation_config a with
    | Ref.TheDefaults =>
        forall w : option string,
          Config.load_from (SearchAutomationGUI.DEFAULT_CONFIG a')
                           (mk_disk Missing w)
          = (Ok (dict_set (SearchAutomationGUI.DEFAULT_CONFIG a) "headless_mode"
                          (PyBool (SearchAutomationGUI.headless_var a))),
             [])
    | Ref.Own _ =>
        SearchAutomationGUI.DEFAULT_CONFIG a'
        = SearchAutomationGUI.DEFAULT_CONFIG a
    end.
Proof.
  intros E a Hf a'. subst a'.
  destruct (start_search_leaves E a Hf) as (fs' & log & _ & Happ & _).
  rewrite Happ. cbn [SearchAutomationGUI.DEFAULT_CONFIG].
  destruct (SearchAutomationGUI.automation_config a); simpl; auto.
Qed.

Lemma start_search_writes_into_shared_defaults_witness :
  Config.load_from
    (SearchAutomationGUI.DEFAULT_CONFIG
       (app_after (SearchAutomationGUI.start_search
                     (sample_env Config.DEFAULT_CONFIG
                                 ["terms.txt"; "msedgedriver.exe"]
                                 cats_dogs_blank accepts loads)
                     (sample_app "terms.txt" "msedgedriver.exe" true))))
    (mk_disk Missing None)
  = (Ok (dict_set Config.DEFAULT_CONFIG "headless_mode" (PyBool true)), []).
Proof.
  exact (start_search_writes_into_shared_defaults
           (sample_env Config.DEFAULT_CONFIG ["terms.txt"; "msedgedriver.exe"]
                       cats_dogs_blank accepts loads)
           (sample_app "terms.txt" "msedgedriver.exe" true)
           eq_refl None).
Defined.

(** X21. A cancel before the start is forgotten: with both fields
    filled in, [start_search] sets the flag again before it runs, so
    pressing Cancel and then Start gives the result, the application and
    the events of pressing Start alone. *)
Theorem start_search_forgets_earlier_cancel :
  forall (E : env) (a : SearchAutomationGUI.app),
    fields_filled a = true ->
    SearchAutomationGUI.start_search E (SearchAutomationGUI.cancel_search a)
    = SearchAutomationGUI.start_search E a.
Proof.
  intros E a Hf. unfold fields_filled in Hf.
  unfold SearchAutomationGUI.start_search.
  cbn [SearchAutomationGUI.cancel_search
       SearchAutomationGUI.search_file_entry
       SearchAutomationGUI.driver_file_entry
       SearchAutomationGUI.DEFAULT_CONFIG
       SearchAutomationGUI.automation_config
       SearchAutomationGUI.automation
       SearchAutomationGUI.headless_var
       SearchAutomationGUI.files].
  destruct (Str.is_empty (SearchAutomationGUI.search_file_entry a));
    [discriminate|].
  destruct (Str.is_empty (SearchAutomationGUI.driver_file_entry a));
    [discriminate|].
  cbn [orb].
  destruct (Ref.store _ _ _ _) as [defaults r].
  destruct (save_returns (PyDict (Ref.deref defaults r))
                         (SearchAutomationGUI.files a)) as (fs' & log & Hsave).
  rewrite Hsave. reflexivity.
Qed.

Lemma start_search_forgets_earlier_cancel_witness :
  SearchAutomationGUI.start_search
    (sample_env Config.DEFAULT_CONFIG ["terms.txt"; "msedgedriver.exe"]
                cats_dogs_blank accepts loads)
    (SearchAutomationGUI.cancel_search
       (sample_app "terms.txt" "msedgedriver.exe" true))
  = SearchAutomationGUI.start_search
      (sample_env Config.DEFAULT_CONFIG ["terms.txt"; "msedgedriver.exe"]
                  cats_dogs_blank accepts loads)
      (sample_app "terms.txt" "msedgedriver.exe" true).
Proof.
  apply (start_search_forgets_earlier_cancel
           (sample_env Config.DEFAULT_CONFIG ["terms.txt"; "msedgedriver.exe"]
                       cats_dogs_blank accepts loads)
           (sample_app "terms.txt" "msedgedriver.exe" true)).
  reflexivity.
Defined.
